(** * robloxprofiles: the cached profile proxy and its persistence layer

    A shallow embedding of [schema.ts], [storage.ts] and [routes.ts].  The
    handlers are functions in a state-and-exception monad over a world made
    of the two database tables, the log of upstream requests issued so far
    and the number of clock readings taken; the upstream service, the
    system clock and the [Date] conversions are inputs of the model.

    Values are modelled as the handlers hold them: what is handed to
    [storage] and to [res.json] is a JavaScript value.  The [jsonb] column
    of the cache keeps the JSON document of the value written to it, and a
    row read back carries that document; the serialization of a response
    body on its way to the client is not part of the model. *)

From Stdlib Require Import ZArith Lia Ascii String.
From stdpp Require Import base option list strings pretty sorting.

Set Warnings "-register-all".

Local Open Scope string_scope.
Local Open Scope Z_scope.

(** ** JavaScript values *)

Module JS.

(** Numbers.  Identifiers, counters and limits are integers; [NaN] is the
    one non-integer value the handlers can produce themselves (through
    [parseInt]).  Fractions, infinities, the sign of zero and the rounding
    of integers beyond 2^53 are outside this model. *)
Inductive number := NaN | Num (z : Z).

(** A JSON document as [JSON.parse] builds it, extended with [undefined]
    (the result of reading an absent property) and with [NaN] numbers.
    An object is the list of its own properties in insertion order; a
    property is read at its first binding. *)
Inductive value :=
| VUndefined
| VNull
| VBool (b : bool)
| VNum (n : number)
| VStr (s : string)
| VArr (items : list value)
| VObj (props : list (string * value)).

Fixpoint assoc (k : string) (props : list (string * value)) : option value :=
  match props with
  | [] => None
  | (k', v) :: rest => if String.eqb k k' then Some v else assoc k rest
  end.

Definition keys (v : value) : list string :=
  match v with
  | VObj props => fst <$> props
  | _ => []
  end.

(** What a handler can catch.  [AxiosError] carries [error.response.status]
    (absent for a transport failure) and [error.message]; [ZodError] is a
    failed [schema.parse]; [TypeError] is a property read or method call on
    a value that does not support it; [DbError] is a failed statement. *)
Inductive db_error :=
| NotNullViolation (column : string)
| UniqueViolation (column : string)
| NoValuesToSet.

Inductive error :=
| AxiosError (status : option Z) (message : string)
| ZodError
| TypeError
| DbError (e : db_error).

(** [error.response && error.response.status === 400] *)
Definition response_status_is_400 (e : error) : bool :=
  match e with
  | AxiosError (Some st) _ => st =? 400
  | _ => false
  end.

(** [v.k] for a property name [k] that is not an array index. *)
Definition prop (v : value) (k : string) : error + value :=
  match v with
  | VUndefined | VNull => inl TypeError
  | VObj props => inr (default VUndefined (assoc k props))
  | VArr items =>
      inr (if String.eqb k "length" then VNum (Num (Z.of_nat (length items)))
           else VUndefined)
  | VStr s =>
      inr (if String.eqb k "length" then VNum (Num (Z.of_nat (String.length s)))
           else VUndefined)
  | VBool _ | VNum _ => inr VUndefined
  end.

(** [v[0]] *)
Definition item0 (v : value) : error + value :=
  match v with
  | VUndefined | VNull => inl TypeError
  | VObj props => inr (default VUndefined (assoc "0" props))
  | VArr items => inr (default VUndefined (head items))
  | VStr (String c _) => inr (VStr (String c EmptyString))
  | VStr EmptyString => inr VUndefined
  | VBool _ | VNum _ => inr VUndefined
  end.

(** [String(v)], [None] where the conversion throws a [TypeError].  Inside
    [Array.prototype.join] an [undefined] or [null] element is the empty
    string.  An object parsed from JSON has no callable [toString] of its
    own: one that carries the key cannot be converted. *)
Fixpoint to_str (v : value) : option string :=
  match v with
  | VUndefined => Some "undefined"
  | VNull => Some "null"
  | VBool true => Some "true"
  | VBool false => Some "false"
  | VNum NaN => Some "NaN"
  | VNum (Num z) => Some (pretty z)
  | VStr s => Some s
  | VArr items =>
      (fix join (l : list value) : option string :=
         match l with
         | [] => Some EmptyString
         | x :: rest =>
             sx ← match x with
                  | VUndefined | VNull => Some EmptyString
                  | _ => to_str x
                  end;
             match rest with
             | [] => Some sx
             | _ :: _ => sr ← join rest; Some (sx ++ "," ++ sr)%string
             end
         end) items
  | VObj props =>
      match assoc "toString" props with
      | Some _ => None
      | None => Some "[object Object]"
      end
  end.

(** [v.toString()] *)
Definition toString (v : value) : error + string :=
  match v with
  | VUndefined | VNull => inl TypeError
  | _ => match to_str v with Some s => inr s | None => inl TypeError end
  end.

(** Code units that [parseInt] and [Number] skip as white space (those
    below 256). *)
Definition is_white_space (c : ascii) : bool :=
  let n := N_of_ascii c in
  bool_decide (n ∈ [9; 10; 11; 12; 13; 32; 160]%N).

Fixpoint trim_start (s : string) : string :=
  match s with
  | String c rest => if is_white_space c then trim_start rest else s
  | EmptyString => EmptyString
  end.

Definition digit_value (c : ascii) : option Z :=
  let n := Z.of_N (N_of_ascii c) in
  if (48 <=? n) && (n <=? 57) then Some (n - 48)
  else if (97 <=? n) && (n <=? 122) then Some (n - 87)
  else if (65 <=? n) && (n <=? 90) then Some (n - 55)
  else None.


(** The longest prefix of [s] made of digits of radix [R]. *)
Fixpoint radix_digits (R : Z) (s : string) : list Z :=
  match s with
  | String c rest =>
      match digit_value c with
      | Some d => if d <? R then d :: radix_digits R rest else []
      | None => []
      end
  | EmptyString => []
  end.

Definition strip_sign (s : string) : Z * string :=
  match s with
  | String "-" rest => (-1, rest)
  | String "+" rest => (1, rest)
  | _ => (1, s)
  end.

Definition strip_hex_prefix (s : string) : Z * string :=
  match s with
  | String "0" (String "x" rest) => (16, rest)
  | String "0" (String "X" rest) => (16, rest)
  | _ => (10, s)
  end.

(** [parseInt(s)] with no radix argument (ECMA-262, 19.2.5). *)
Definition parseInt (s : string) : number :=
  let '(sign, s1) := strip_sign (trim_start s) in
  let '(R, s2) := strip_hex_prefix s1 in
  match radix_digits R s2 with
  | [] => NaN
  | ds => Num (sign * fold_left (fun acc d => acc * R + d) ds 0)
  end.



(** [Number(s)] for a string, on the integer literals of the number model:
    white space is trimmed on both sides, the empty string is zero, an
    optionally signed run of decimal digits is its value, anything else is
    [NaN]. *)
Definition string_to_number (s : string) : number :=
  let t := String.rev (trim_start (String.rev (trim_start s))) in
  match t with
  | EmptyString => Num 0
  | _ =>
      let '(sign, body) := strip_sign t in
      let ds := radix_digits 10 body in
      if bool_decide (body ≠ EmptyString)
         && (length ds =? String.length body)%nat
      then Num (sign * fold_left (fun acc d => acc * 10 + d) ds 0)
      else NaN
  end.

(** [Number(v)] *)
Definition to_number (v : value) : error + number :=
  match v with
  | VUndefined => inr NaN
  | VNull => inr (Num 0)
  | VBool b => inr (Num (if b then 1 else 0))
  | VNum n => inr n
  | VStr s => inr (string_to_number s)
  | VArr _ | VObj _ =>
      match to_str v with
      | Some s => inr (string_to_number s)
      | None => inl TypeError
      end
  end.

(** [v > 0] *)
Definition gt_zero (v : value) : error + bool :=
  match to_number v with
  | inr (Num z) => inr (0 <? z)
  | inr NaN => inr false
  | inl e => inl e
  end.

(** [v === 0] *)
Definition is_zero (v : value) : bool :=
  match v with
  | VNum (Num 0) => true
  | _ => false
  end.

(** [v.map(f)] *)
Definition map_items (f : value -> error + value) (v : value)
  : error + list value :=
  match v with
  | VArr items =>
      (fix go (l : list value) : error + list value :=
         match l with
         | [] => inr []
         | x :: rest =>
             match f x with
             | inl e => inl e
             | inr y => match go rest with
                        | inl e => inl e
                        | inr ys => inr (y :: ys)
                        end
             end
         end) items
  | _ => inl TypeError
  end.

(** Truthiness, as [&&], [||] and [if] test it. *)
Definition truthy (v : value) : bool :=
  match v with
  | VUndefined | VNull => false
  | VBool b => b
  | VNum NaN => false
  | VNum (Num z) => negb (z =? 0)
  | VStr s => negb (String.eqb s EmptyString)
  | VArr _ | VObj _ => true
  end.

End JS.

Import JS.

(** ** schema.ts *)

Module Schema.

(** *** Tables *)

(** A row of [search_history]. *)
Record SearchHistory := {
  sh_id : Z;                      (* serial, primary key *)
  sh_query : string;              (* text, not null *)
  sh_type : string;               (* text, not null *)
  sh_timestamp : string;          (* text, not null: ISO date string *)
  sh_success : bool               (* boolean, not null, default true *)
}.

(** [InsertSearchHistory]: the row without [id]; a column with a default
    may be left out. *)
Record InsertSearchHistory := {
  ish_query : string;
  ish_type : string;
  ish_timestamp : string;
  ish_success : option bool
}.

(** A row of [user_cache].  [avatarUrl] and [isTerminated] are nullable
    ([None] is SQL null). *)
Record UserCache := {
  uc_id : Z;                      (* serial, primary key *)
  uc_userId : string;             (* text, not null, unique *)
  uc_userData : value;            (* jsonb, not null *)
  uc_avatarUrl : option string;   (* text *)
  uc_timestamp : string;          (* text, not null: ISO date string *)
  uc_isTerminated : option bool   (* boolean, default false *)
}.

(** [InsertUserCache], as the value a caller hands over at run time: the
    type asks for [userData] and [timestamp], the compiled code does not
    check them.  An absent [userData] is [VUndefined], an absent
    [timestamp] is [None]; for the two nullable columns the outer [option]
    is the presence of the key, the inner one is [null].  [null] for
    [userId] or [timestamp], which the type declares as strings, is not
    represented. *)
Record InsertUserCache := {
  iuc_userId : string;
  iuc_userData : value;
  iuc_avatarUrl : option (option string);
  iuc_timestamp : option string;
  iuc_isTerminated : option (option bool)
}.

(** [Partial<InsertUserCache>]: every key may be left out; a [userData]
    that is present and [undefined] counts as left out. *)
Record PartialInsertUserCache := {
  puc_userId : option string;
  puc_userData : option value;
  puc_avatarUrl : option (option string);
  puc_timestamp : option string;
  puc_isTerminated : option (option bool)
}.

(** An [InsertUserCache] read at the type [Partial<InsertUserCache>]. *)
Definition as_partial (c : InsertUserCache) : PartialInsertUserCache :=
  {| puc_userId := Some (iuc_userId c);
     puc_userData := Some (iuc_userData c);
     puc_avatarUrl := iuc_avatarUrl c;
     puc_timestamp := iuc_timestamp c;
     puc_isTerminated := iuc_isTerminated c |}.

(** *** Zod schemas

    A schema maps the input ([VUndefined] for an absent key) to the parsed
    output, or to [None] where [parse] throws a [ZodError]. *)
Definition ZodType (A : Type) := value -> option A.

(** [z.number()] rejects [NaN]. *)
Definition z_number : ZodType Z :=
  fun v => match v with VNum (Num z) => Some z | _ => None end.

Definition z_string : ZodType string :=
  fun v => match v with VStr s => Some s | _ => None end.

Definition z_boolean : ZodType bool :=
  fun v => match v with VBool b => Some b | _ => None end.

Definition z_optional {A} (s : ZodType A) : ZodType (option A) :=
  fun v => match v with VUndefined => Some None | _ => Some <$> s v end.

Definition z_nullable {A} (s : ZodType A) : ZodType (option A) :=
  fun v => match v with VNull => Some None | _ => Some <$> s v end.

(** [s.default(d)]: an undefined input is replaced by the default before
    the inner schema runs; the defaults below are accepted by their inner
    schemas, and the output type has no [undefined]. *)
Definition z_default {A} (s : ZodType (option A)) (d : A) : ZodType A :=
  fun v => match v with
           | VUndefined => Some d
           | _ => o ← s v; Some (default d o)
           end.

Definition z_array {A} (s : ZodType A) : ZodType (list A) :=
  fun v => match v with VArr items => mapM s items | _ => None end.

(** The input of the schema of key [k] inside [z.object]. *)
Definition key (props : list (string * value)) (k : string) : value :=
  default VUndefined (assoc k props).

Record Stats := { friends : Z; followers : Z; following : Z }.

Definition statsSchema : ZodType Stats :=
  fun v => match v with
           | VObj props =>
               fr ← z_number (key props "friends");
               fo ← z_number (key props "followers");
               fg ← z_number (key props "following");
               Some {| friends := fr; followers := fo; following := fg |}
           | _ => None
           end.

Record RobloxUser := {
  id : Z;
  name : string;
  displayName : option string;
  description : string;
  created : option string;
  isBanned : bool;
  externalAppDisplayName : option (option string);
  hasVerifiedBadge : bool;
  previousUsernames : option (list string);
  stats : option Stats
}.

Definition robloxUserSchema : ZodType RobloxUser :=
  fun v => match v with
           | VObj props =>
               a ← z_number (key props "id");
               b ← z_string (key props "name");
               c ← z_optional z_string (key props "displayName");
               d ← z_default (z_optional z_string) EmptyString
                     (key props "description");
               e ← z_optional z_string (key props "created");
               f ← z_default (z_optional z_boolean) false
                     (key props "isBanned");
               g ← z_optional (z_nullable z_string)
                     (key props "externalAppDisplayName");
               h ← z_default (z_optional z_boolean) false
                     (key props "hasVerifiedBadge");
               i ← z_optional (z_array z_string)
                     (key props "previousUsernames");
               j ← z_optional statsSchema (key props "stats");
               Some {| id := a; name := b; displayName := c; description := d;
                       created := e; isBanned := f;
                       externalAppDisplayName := g; hasVerifiedBadge := h;
                       previousUsernames := i; stats := j |}
           | _ => None
           end.

Record RobloxUserStatus := { status : string }.

Definition robloxUserStatusSchema : ZodType RobloxUserStatus :=
  fun v => match v with
           | VObj props =>
               s ← z_string (key props "status"); Some {| status := s |}
           | _ => None
           end.

Record RobloxFriendsCount := { count : Z }.

Definition robloxFriendsCountSchema : ZodType RobloxFriendsCount :=
  fun v => match v with
           | VObj props =>
               n ← z_number (key props "count"); Some {| count := n |}
           | _ => None
           end.

Record AvatarItem := {
  targetId : option Z;
  state : option string;
  imageUrl : string
}.

Definition avatarItemSchema : ZodType AvatarItem :=
  fun v => match v with
           | VObj props =>
               t ← z_optional z_number (key props "targetId");
               s ← z_optional z_string (key props "state");
               u ← z_string (key props "imageUrl");
               Some {| targetId := t; state := s; imageUrl := u |}
           | _ => None
           end.

Record RobloxAvatar := { data : list AvatarItem }.

Definition robloxAvatarSchema : ZodType RobloxAvatar :=
  fun v => match v with
           | VObj props =>
               l ← z_array avatarItemSchema (key props "data");
               Some {| data := l |}
           | _ => None
           end.

(** *** Parsed outputs as JavaScript objects

    The object [parse] returns: the keys of the schema in its order, a key
    whose output is [undefined] left out. *)
Definition opt_prop {A} (k : string) (f : A -> value) (o : option A)
  : list (string * value) :=
  match o with Some a => [(k, f a)] | None => [] end.

Definition nullable {A} (f : A -> value) (o : option A) : value :=
  match o with Some a => f a | None => VNull end.

Definition VInt (z : Z) : value := VNum (Num z).

Definition Stats_value (s : Stats) : value :=
  VObj [("friends", VInt (friends s));
        ("followers", VInt (followers s));
        ("following", VInt (following s))].

Definition RobloxUser_value (u : RobloxUser) : value :=
  VObj ([("id", VInt (id u)); ("name", VStr (name u))]
        ++ opt_prop "displayName" VStr (displayName u)
        ++ [("description", VStr (description u))]
        ++ opt_prop "created" VStr (created u)
        ++ [("isBanned", VBool (isBanned u))]
        ++ opt_prop "externalAppDisplayName" (nullable VStr)
             (externalAppDisplayName u)
        ++ [("hasVerifiedBadge", VBool (hasVerifiedBadge u))]
        ++ opt_prop "previousUsernames" (fun l => VArr (VStr <$> l))
             (previousUsernames u)
        ++ opt_prop "stats" Stats_value (stats u)).

Definition RobloxUserStatus_value (s : RobloxUserStatus) : value :=
  VObj [("status", VStr (status s))].

End Schema.

Import Schema.

(** ** storage.ts *)

Module Storage.

(** The two tables, rows in insertion order, each with the last value drawn
    from the sequence behind its [serial] key.  The database is taken to be
    reachable: a statement fails only on a constraint of the schema
    ([notNull], [unique]), and a failed statement changes nothing.  Text
    is taken to be free of the code unit 0, which the database does not
    store. *)
Record Db := {
  searchHistory : list SearchHistory;
  searchHistory_seq : Z;
  userCache : list UserCache;
  userCache_seq : Z
}.

Definition Statement (A : Type) := Db -> db_error + (A * Db).

(** [insert(searchHistory).values(search).returning()], first row. *)
Definition addSearchHistory (search : InsertSearchHistory)
  : Statement SearchHistory :=
  fun d =>
    let row := {| sh_id := searchHistory_seq d + 1;
                  sh_query := ish_query search;
                  sh_type := ish_type search;
                  sh_timestamp := ish_timestamp search;
                  sh_success := default true (ish_success search) |} in
    inr (row, {| searchHistory := searchHistory d ++ [row];
                 searchHistory_seq := searchHistory_seq d + 1;
                 userCache := userCache d;
                 userCache_seq := userCache_seq d |}).

(** The order of the [text] column [timestamp]: code unit by code unit
    (on the strings [toISOString] produces, the order of the instants). *)
Definition text_le (a b : string) : Prop := String.leb a b = true.

(** [desc(searchHistory.timestamp)]: [a] may come before [b]. *)
Definition desc_timestamp (a b : SearchHistory) : Prop :=
  text_le (sh_timestamp b) (sh_timestamp a).

#[export] Instance desc_timestamp_dec : RelDecision desc_timestamp.
Proof. intros a b. unfold desc_timestamp, text_le. apply _. Defined.

(** [select().from(searchHistory).orderBy(desc(timestamp)).limit(limit)],
    with the default [limit = 10].  Rows of equal timestamp keep their
    insertion order (SQL leaves it open).  The query builder emits the
    [LIMIT] clause for a number that is at least zero, and no clause for a
    negative number or [NaN]: the statement then returns every row. *)
Definition getRecentSearches (limit : option number)
  : Statement (list SearchHistory) :=
  fun d =>
    let sorted := merge_sort desc_timestamp (searchHistory d) in
    match default (Num 10) limit with
    | Num n =>
        if 0 <=? n then inr (take (Z.to_nat n) sorted, d)
        else inr (sorted, d)
    | NaN => inr (sorted, d)
    end.

(** *** The [jsonb] column

    [userData] is written as [JSON.stringify] renders it and read back as
    [JSON.parse] builds it from what [jsonb] keeps.  [JSON.stringify] turns
    [NaN] into [null], an [undefined] array element into [null], and
    leaves out a property whose value is [undefined]; [jsonb] keeps the
    keys of an object ordered by length, then byte by byte; the object
    parsed back lists its array-index keys first. *)

(** The length in bytes of the UTF-8 encoding of [s], a string of code
    units below 256. *)
Fixpoint utf8_length (s : string) : nat :=
  match s with
  | EmptyString => 0
  | String c rest =>
      ((if (N_of_ascii c <? 128)%N then 1 else 2) + utf8_length rest)%nat
  end.

Definition jsonb_key_leb (a b : string) : bool :=
  (utf8_length a <? utf8_length b)%nat
  || ((utf8_length a =? utf8_length b)%nat && String.leb a b).

Definition jsonb_key_le (x y : string * value) : Prop :=
  jsonb_key_leb x.1 y.1 = true.

#[export] Instance jsonb_key_le_dec : RelDecision jsonb_key_le.
Proof. intros x y. unfold jsonb_key_le. apply _. Defined.

(** A canonical numeric string below 2^32 - 1: an array index. *)
Definition is_array_index (k : string) : bool :=
  let ds := radix_digits 10 k in
  negb (String.eqb k EmptyString)
  && (length ds =? String.length k)%nat
  && (String.eqb k "0" || negb (bool_decide (head ds = Some 0)))
  && (fold_left (fun acc d => acc * 10 + d) ds 0 <? 4294967295).

(** The first binding of every key. *)
Fixpoint first_bindings (seen : list string) (props : list (string * value))
  : list (string * value) :=
  match props with
  | [] => []
  | (k, v) :: rest =>
      if bool_decide (k ∈ seen) then first_bindings seen rest
      else (k, v) :: first_bindings (k :: seen) rest
  end.

Definition is_undefined (v : value) : bool :=
  match v with
  | VUndefined => true
  | _ => false
  end.

Fixpoint drop_undefined (props : list (string * value))
  : list (string * value) :=
  match props with
  | [] => []
  | (k, v) :: rest =>
      if is_undefined v then drop_undefined rest
      else (k, v) :: drop_undefined rest
  end.

(** The properties of an object read back from [jsonb]. *)
Definition jsonb_props (props : list (string * value))
  : list (string * value) :=
  let kept :=
    merge_sort jsonb_key_le (drop_undefined (first_bindings [] props)) in
  filter (fun kv => is_array_index kv.1 = true) kept
  ++ filter (fun kv => is_array_index kv.1 = false) kept.

(** The document the column gives back for the document [v] written to
    it. *)
Fixpoint jsonb (v : value) : value :=
  match v with
  | VNum NaN => VNull
  | VArr items =>
      VArr ((fix elements (l : list value) : list value :=
               match l with
               | [] => []
               | x :: rest =>
                   match x with
                   | VUndefined => VNull
                   | _ => jsonb x
                   end :: elements rest
               end) items)
  | VObj props =>
      VObj (jsonb_props
              ((fix members (l : list (string * value))
                  : list (string * value) :=
                  match l with
                  | [] => []
                  | (k, x) :: rest => (k, jsonb x) :: members rest
                  end) props))
  | _ => v
  end.

(** What binding the value [v] to the column does: [None] leaves the
    column out of the statement ([undefined]), [Some None] writes SQL
    [NULL] ([null]), [Some (Some j)] writes the document [j]. *)
Definition jsonb_param (v : value) : option (option value) :=
  match v with
  | VUndefined => None
  | VNull => Some None
  | _ => Some (Some (jsonb v))
  end.

(** [select().from(userCache).where(eq(userCache.userId, userId))] *)
Definition select_userCache (userId : string) (d : Db) : list UserCache :=
  filter (fun r => uc_userId r = userId) (userCache d).

Definition getUserCache (userId : string) : Statement (option UserCache) :=
  fun d => inr (head (select_userCache userId d), d).

(** What [.set(cache)] does with the [userData] column. *)
Definition userData_param (cache : PartialInsertUserCache)
  : option (option value) :=
  match puc_userData cache with
  | Some v => jsonb_param v
  | None => None
  end.

(** [.set(cache)] on one row: a key that is present overwrites its column,
    an absent one leaves the column as it is. *)
Definition set_columns (cache : PartialInsertUserCache) (r : UserCache)
  : UserCache :=
  {| uc_id := uc_id r;
     uc_userId := default (uc_userId r) (puc_userId cache);
     uc_userData :=
       match userData_param cache with
       | Some (Some j) => j
       | _ => uc_userData r
       end;
     uc_avatarUrl := default (uc_avatarUrl r) (puc_avatarUrl cache);
     uc_timestamp := default (uc_timestamp r) (puc_timestamp cache);
     uc_isTerminated := default (uc_isTerminated r) (puc_isTerminated cache) |}.

(** What [set] does to one column: its new content is the value given,
    or its old content where none was given. *)
Definition column_merged {A} (given : option A) (old new : A) : Prop :=
  match given with
  | Some v => new = v
  | None => new = old
  end.

Definition no_values (cache : PartialInsertUserCache) : bool :=
  match puc_userId cache, userData_param cache, puc_avatarUrl cache,
        puc_timestamp cache, puc_isTerminated cache with
  | None, None, None, None, None => true
  | _, _, _, _, _ => false
  end.

(** The [unique] constraint on [user_id]. *)
Definition unique_userId (rows : list UserCache) : Prop :=
  NoDup (uc_userId <$> rows).

(** Whether [.set(cache)] writes SQL [NULL] into [user_data]. *)
Definition nulls_userData (cache : PartialInsertUserCache) : bool :=
  match userData_param cache with
  | Some None => true
  | _ => false
  end.

(** [update(userCache).set(cache).where(eq(userId)).returning()], first
    row.  The query builder refuses an empty [set]; [user_data] is
    [notNull], so a row cannot take [null] for it. *)
Definition updateUserCache (userId : string) (cache : PartialInsertUserCache)
  : Statement (option UserCache) :=
  fun d =>
    if no_values cache then inl NoValuesToSet
    else if nulls_userData cache
            && bool_decide (select_userCache userId d <> [])
    then inl (NotNullViolation "user_data")
    else
      let rows :=
        (fun r => if decide (uc_userId r = userId) then set_columns cache r
                  else r) <$> userCache d in
      if decide (unique_userId rows)
      then inr (head (set_columns cache <$> select_userCache userId d),
                {| searchHistory := searchHistory d;
                   searchHistory_seq := searchHistory_seq d;
                   userCache := rows;
                   userCache_seq := userCache_seq d |})
      else inl (UniqueViolation "user_id").

(** [insert(userCache).values(cache).returning()], first row: an absent
    [avatarUrl] is null, an absent [isTerminated] takes the default;
    [user_data] and [timestamp] are [notNull] and have no default, so an
    absent or null one fails the statement. *)
Definition insert_userCache (cache : InsertUserCache) : Statement UserCache :=
  fun d =>
    match jsonb_param (iuc_userData cache), iuc_timestamp cache with
    | Some (Some document), Some timestamp =>
        let row := {| uc_id := userCache_seq d + 1;
                      uc_userId := iuc_userId cache;
                      uc_userData := document;
                      uc_avatarUrl := default None (iuc_avatarUrl cache);
                      uc_timestamp := timestamp;
                      uc_isTerminated :=
                        default (Some false) (iuc_isTerminated cache) |} in
        if decide (unique_userId (userCache d ++ [row]))
        then inr (row, {| searchHistory := searchHistory d;
                          searchHistory_seq := searchHistory_seq d;
                          userCache := userCache d ++ [row];
                          userCache_seq := userCache_seq d + 1 |})
        else inl (UniqueViolation "user_id")
    | Some (Some _), None => inl (NotNullViolation "timestamp")
    | _, _ => inl (NotNullViolation "user_data")
    end.

(** The result is what the cast [as UserCache] hides: [None] where the
    update returned no row. *)
Definition addUserCache (cache : InsertUserCache)
  : Statement (option UserCache) :=
  fun d =>
    match head (select_userCache (iuc_userId cache) d) with
    | Some existing => updateUserCache (iuc_userId cache) (as_partial cache) d
    | None =>
        match insert_userCache cache d with
        | inr (row, d') => inr (Some row, d')
        | inl e => inl e
        end
    end.

Definition empty : Db :=
  {| searchHistory := []; searchHistory_seq := 0;
     userCache := []; userCache_seq := 0 |}.

End Storage.

Import Storage.

(** ** routes.ts *)

Module Routes.

Inductive request :=
| GET (url : string)
| POST (url : string) (body : value).

(** How an axios promise settles: with [response.data], or rejected with
    the status of the response (none for a transport failure) and the
    message of the error. *)
Inductive settled :=
| Fulfilled (data : value)
| Rejected (status : option Z) (message : string).

(** What the process takes from outside. *)
Record Env := {
  (** the answer to the [n]-th request the process issues *)
  upstream : nat -> request -> settled;
  (** the instant, in milliseconds, the [n]-th [new Date()] observes *)
  now : nat -> Z;
  (** [new Date(t).toISOString()] *)
  toISOString : Z -> string;
  (** [new Date(s).getTime()], [NaN] for an invalid date *)
  getTime : string -> number;
  (** the text the driver binds to a [text] column for a value that is
      not a string *)
  driver_text : value -> string
}.

(** What the process did to the outside, in the order it did it. *)
Inductive event :=
| Upstream (r : request)       (* the request [r] was issued *)
| Database (d : Db).           (* a statement completed and left [d] *)

Record World := {
  db : Db;
  calls : list request;        (* upstream requests issued so far *)
  reads : nat;                 (* clock readings taken so far *)
  journal : list event         (* requests and statements so far *)
}.

(** A computation changes the world and returns or throws. *)
Definition M (A : Type) : Type := World -> (error + A) * World.

#[export] Instance M_ret : MRet M := fun A a w => (inr a, w).

#[export] Instance M_bind : MBind M :=
  fun A B f m w =>
    match m w with
    | (inr a, w') => f a w'
    | (inl e, w') => (inl e, w')
    end.

Definition throw {A} (e : error) : M A := fun w => (inl e, w).

Definition try_catch {A} (m : M A) (handler : error -> M A) : M A :=
  fun w =>
    match m w with
    | (inl e, w') => handler e w'
    | (inr a, w') => (inr a, w')
    end.

Definition lift {A} (r : error + A) : M A := fun w => (r, w).

(** [schema.parse(v)] *)
Definition parse {A} (schema : ZodType A) (v : value) : M A :=
  match schema v with
  | Some a => mret a
  | None => throw ZodError
  end.

(** [await storage.method(...)] *)
Definition storage {A} (q : Statement A) : M A :=
  fun w =>
    match q (db w) with
    | inr (a, d) =>
        (inr a, {| db := d; calls := calls w; reads := reads w;
                   journal := journal w ++ [Database d] |})
    | inl e => (inl (DbError e), w)
    end.

(** [Promise.all([m1, m2, m3])]: the three are started in order whatever
    the others do; the error thrown is that of a rejected one (here the
    first in the array; no handler below looks at it). *)
Definition all3 {A} (m1 m2 m3 : M A) : M (A * A * A) :=
  fun w =>
    let '(r1, w1) := m1 w in
    let '(r2, w2) := m2 w1 in
    let '(r3, w3) := m3 w2 in
    (match r1, r2, r3 with
     | inr a, inr b, inr c => inr (a, b, c)
     | inl e, _, _ => inl e
     | _, inl e, _ => inl e
     | _, _, inl e => inl e
     end, w3).

(** What the handler sends: [res.status(s).json(body)], where [Failure s
    t e] stands for the body [{error: t, details: e.message}]. *)
Inductive response :=
| Json (status : Z) (body : value)
| Failure (status : Z) (title : string) (cause : error).

Definition users_url (userId : string) : string :=
  "https://users.roblox.com/v1/users/" +:+ userId.

Definition avatar_url (userId : string) : string :=
  "https://thumbnails.roblox.com/v1/users/avatar-headshot?userIds=" +:+ userId
  +:+ "&size=150x150&format=Png&isCircular=true".

Definition username_history_url (userId : string) : string :=
  "https://users.roblox.com/v1/users/" +:+ userId
  +:+ "/username-history?limit=10&sortOrder=Asc".

Definition count_url (userId relation : string) : string :=
  "https://friends.roblox.com/v1/users/" +:+ userId +:+ "/" +:+ relation
  +:+ "/count".

Definition usernames_url : string :=
  "https://users.roblox.com/v1/usernames/users".

Definition status_url (userId : string) : string :=
  "https://users.roblox.com/v1/users/" +:+ userId +:+ "/status".

(** [now - t < 3600000] *)
Definition cache_is_valid (now_ms : Z) (t : number) : bool :=
  match t with
  | Num z => now_ms - z <? 3600000
  | NaN => false
  end.

Definition SearchHistory_value (r : SearchHistory) : value :=
  VObj [("id", VInt (sh_id r)); ("query", VStr (sh_query r));
        ("type", VStr (sh_type r)); ("timestamp", VStr (sh_timestamp r));
        ("success", VBool (sh_success r))].

Definition not_available : value :=
  VObj [("friends", VStr "N/A"); ("followers", VStr "N/A");
        ("following", VStr "N/A")].

Definition zero_stats : value :=
  VObj [("friends", VInt 0); ("followers", VInt 0); ("following", VInt 0)].

(** The record synthesized for a terminated account. *)
Definition terminated_userData (userId : string)
    (previousUsernames : list value) (userStats : value) : value :=
  VObj [("id", VNum (parseInt userId));
        ("name", VStr "Terminated Account");
        ("displayName", VStr "Terminated Account");
        ("description",
         VStr "This account has been terminated for violating Roblox Terms of Service.");
        ("isBanned", VBool true);
        ("previousUsernames", VArr previousUsernames);
        ("stats", userStats)].

(** The body served from the cache. *)
Definition cache_body (c : UserCache) : value :=
  VObj [("source", VStr "cache");
        ("data", uc_userData c);
        ("avatarUrl", nullable VStr (uc_avatarUrl c));
        ("isTerminated", nullable VBool (uc_isTerminated c))].

Section handlers.

Context (env : Env).

(** [await axios.get(url)] / [await axios.post(url, body)], giving
    [response.data]. *)
Definition axios (r : request) : M value :=
  fun w =>
    let w' := {| db := db w; calls := calls w ++ [r]; reads := reads w;
                 journal := journal w ++ [Upstream r] |} in
    match upstream env (length (calls w)) r with
    | Fulfilled d => (inr d, w')
    | Rejected st msg => (inl (AxiosError st msg), w')
    end.

(** [new Date().getTime()] *)
Definition new_Date : M Z :=
  fun w => (inr (now env (reads w)),
            {| db := db w; calls := calls w; reads := S (reads w);
               journal := journal w |}).

(** A value of type [any] bound to a [text] column. *)
Definition bind_text (v : value) : string :=
  match v with
  | VStr s => s
  | _ => driver_text env v
  end.

Definition bind_nullable_text (v : value) : option (option string) :=
  match v with
  | VUndefined => None
  | VNull => Some None
  | _ => Some (Some (bind_text v))
  end.

(** The [catch] of [GET /api/users/:userId] for a status 400: three
    recoveries, each in its own [try], then the synthesized record. *)
Definition recover_usernames (userId : string) : M (list value) :=
  try_catch
    (usernameHistoryResponse ← axios (GET (username_history_url userId));
     d ← lift (prop usernameHistoryResponse "data");
     lift (map_items (fun item => prop item "name") d))
    (fun e => mret []).

Definition recover_stats (userId : string) : M value :=
  try_catch
    ('(friendsResponse, followersResponse, followingResponse) ←
       all3 (axios (GET (count_url userId "friends")))
            (axios (GET (count_url userId "followers")))
            (axios (GET (count_url userId "followings")));
     fr ← lift (prop friendsResponse "count");
     fo ← lift (prop followersResponse "count");
     fg ← lift (prop followingResponse "count");
     mret (VObj [("friends", fr); ("followers", fo); ("following", fg)]))
    (fun statsError => mret zero_stats).

Definition recover_avatar (userId : string) : M value :=
  try_catch
    (avatarResponse ← axios (GET (avatar_url userId));
     d ← lift (prop avatarResponse "data");
     if truthy d then
       len ← lift (prop d "length");
       positive ← lift (gt_zero len);
       if positive : bool then
         first ← lift (item0 d);
         lift (prop first "imageUrl")
       else mret VNull
     else mret VNull)
    (fun avatarError => mret VNull).

Definition terminated_account (userId : string) : M response :=
  previousUsernames ← recover_usernames userId;
  userStats ← recover_stats userId;
  archivedAvatarUrl ← recover_avatar userId;
  let userData := terminated_userData userId previousUsernames userStats in
  t ← new_Date;
  _ ← storage (addUserCache
         {| iuc_userId := userId;
            iuc_userData := userData;
            iuc_avatarUrl := bind_nullable_text archivedAvatarUrl;
            iuc_timestamp := Some (toISOString env t);
            iuc_isTerminated := Some (Some true) |});
  mret (Json 200
          (VObj [("source", VStr "api");
                 ("data", userData);
                 ("avatarUrl", archivedAvatarUrl);
                 ("isTerminated", VBool true);
                 ("stats", userStats);
                 ("previousUsernames", VArr previousUsernames)])).

(** The [try] of [GET /api/users/:userId] past the cache, the avatar in a
    [try] of its own. *)
Definition fetch_avatar (userId : string) : M (option string) :=
  try_catch
    (avatarResponse ← axios (GET (avatar_url userId));
     avatarData ← parse robloxAvatarSchema avatarResponse;
     mret (match data avatarData with
           | first :: _ => Some (imageUrl first)
           | [] => None
           end))
    (fun e => mret None).

Definition fetch_and_cache (userId : string) : M response :=
  userData ← axios (GET (users_url userId));
  validatedData ← parse robloxUserSchema userData;
  avatarUrl ← fetch_avatar userId;
  t ← new_Date;
  _ ← storage (addUserCache
         {| iuc_userId := userId;
            iuc_userData := RobloxUser_value validatedData;
            iuc_avatarUrl := Some avatarUrl;
            iuc_timestamp := Some (toISOString env t);
            iuc_isTerminated :=
              Some (Some (isBanned validatedData || false)) |});
  mret (Json 200
          (VObj [("source", VStr "api");
                 ("data", RobloxUser_value validatedData);
                 ("avatarUrl", nullable VStr avatarUrl);
                 ("isTerminated", VBool (isBanned validatedData || false))])).

(** [GET /api/users/:userId] *)
Definition get_user (userId : string) : M response :=
  try_catch
    (cachedUser ← storage (getUserCache userId);
     valid ← match cachedUser with
             | Some c =>
                 t ← new_Date;
                 mret (cache_is_valid t (getTime env (uc_timestamp c)))
             | None => mret false
             end;
     match cachedUser, valid with
     | Some c, true => mret (Json 200 (cache_body c))
     | _, _ => fetch_and_cache userId
     end)
    (fun e =>
       if response_status_is_400 e then terminated_account userId
       else mret (Failure 500 "Failed to fetch user data" e)).

(** [POST /api/users/by-username], [username] being [req.body.username]. *)
Definition post_by_username (username : value) : M response :=
  if negb (truthy username)
  then mret (Json 400 (VObj [("error", VStr "Username is required")]))
  else
    try_catch
      (t ← new_Date;
       _ ← storage (addSearchHistory
              {| ish_query := bind_text username;
                 ish_type := "username";
                 ish_timestamp := toISOString env t;
                 ish_success := Some true |});
       response_data ←
         axios (POST usernames_url
                  (VObj [("usernames", VArr [username]);
                         ("excludeBannedUsers", VBool false)]));
       d ← lift (prop response_data "data");
       len ← lift (prop d "length");
       if is_zero len
       then mret (Json 404 (VObj [("error", VStr "User not found")]))
       else
         first ← lift (item0 d);
         i ← lift (prop first "id");
         userId ← lift (toString i);
         mret (Json 200 (VObj [("userId", VStr userId)])))
      (fun e =>
         t ← new_Date;
         _ ← storage (addSearchHistory
                {| ish_query := bind_text username;
                   ish_type := "username";
                   ish_timestamp := toISOString env t;
                   ish_success := Some false |});
         mret (Failure 500 "Failed to fetch user ID" e)).

(** [GET /api/users/:userId/status] *)
Definition get_status (userId : string) : M response :=
  try_catch
    (response_data ← axios (GET (status_url userId));
     statusData ← parse robloxUserStatusSchema response_data;
     mret (Json 200 (RobloxUserStatus_value statusData)))
    (fun e => mret (Failure 500 "Failed to fetch user status" e)).

(** [GET /api/users/:userId/stats] *)
Definition get_stats (userId : string) : M response :=
  try_catch
    ('(friendsResponse, followersResponse, followingResponse) ←
       all3 (axios (GET (count_url userId "friends")))
            (axios (GET (count_url userId "followers")))
            (axios (GET (count_url userId "followings")));
     friendsData ← parse robloxFriendsCountSchema friendsResponse;
     followersData ← parse robloxFriendsCountSchema followersResponse;
     followingData ← parse robloxFriendsCountSchema followingResponse;
     mret (Json 200
             (VObj [("friends", VInt (count friendsData));
                    ("followers", VInt (count followersData));
                    ("following", VInt (count followingData))])))
    (fun e => mret (Json 200 not_available)).

(** [GET /api/search-history], [limit] being [req.query.limit]. *)
Definition get_search_history (limit : option string) : M response :=
  try_catch
    (let n := match limit with
              | Some s =>
                  if String.eqb s EmptyString then Num 10 else parseInt s
              | None => Num 10
              end in
     searches ← storage (getRecentSearches (Some n));
     mret (Json 200 (VArr (SearchHistory_value <$> searches))))
    (fun e => mret (Failure 500 "Failed to fetch search history" e)).

End handlers.

(** The cached row [GET /api/users/:userId] serves in world [w], if any:
    the first row of the user whose timestamp is less than an hour before
    the next clock reading. *)
Definition fresh_entry (env : Env) (userId : string) (w : World)
  : option UserCache :=
  match head (select_userCache userId (db w)) with
  | Some c =>
      if cache_is_valid (now env (reads w)) (getTime env (uc_timestamp c))
      then Some c else None
  | None => None
  end.

(** The world after the requests [rs] were issued and nothing else
    happened. *)
Definition called (w : World) (rs : list request) : World :=
  {| db := db w; calls := calls w ++ rs; reads := reads w;
     journal := journal w ++ (Upstream <$> rs) |}.

(** The world after one more clock reading. *)
Definition clock_read (w : World) : World :=
  {| db := db w; calls := calls w; reads := S (reads w);
     journal := journal w |}.

(** The world after a statement that left the database as it was. *)
Definition looked_up (w : World) : World :=
  {| db := db w; calls := calls w; reads := reads w;
     journal := journal w ++ [Database (db w)] |}.

(** The world in which [GET /api/users/:userId] goes past the cache: the
    cache was read, and so was the clock if the user had a row. *)
Definition cache_checked (userId : string) (w : World) : World :=
  match head (select_userCache userId (db w)) with
  | Some _ => clock_read (looked_up w)
  | None => looked_up w
  end.

(** The count a settled request contributes to the stats, if it was
    fulfilled with a document that passes [robloxFriendsCountSchema]. *)
Definition validated_count (s : settled) : option Z :=
  match s with
  | Fulfilled d => count <$> robloxFriendsCountSchema d
  | Rejected _ _ => None
  end.

(** The top-level keys of the body a response carries. *)
Definition response_keys (r : response) : list string :=
  match r with
  | Json _ body => keys body
  | Failure _ _ _ => ["error"; "details"]
  end.

Definition start : World :=
  {| db := Storage.empty; calls := []; reads := 0; journal := [] |}.

End Routes.

Import Routes.


(** ** Sample environments

    Concrete instances of what the model takes from outside, for the
    examples at the end. *)

Module Samples.

(** Days since 1970-01-01 to a civil date and back (proleptic Gregorian
    calendar). *)
Definition civil_from_days (z : Z) : Z * Z * Z :=
  let z := z + 719468 in
  let era := z `div` 146097 in
  let doe := z - era * 146097 in
  let yoe := (doe - doe `div` 1460 + doe `div` 36524 - doe `div` 146096)
               `div` 365 in
  let doy := doe - (365 * yoe + yoe `div` 4 - yoe `div` 100) in
  let mp := (5 * doy + 2) `div` 153 in
  let d := doy - (153 * mp + 2) `div` 5 + 1 in
  let m := if mp <? 10 then mp + 3 else mp - 9 in
  (yoe + era * 400 + (if m <=? 2 then 1 else 0), m, d).

Definition days_from_civil (y m d : Z) : Z :=
  let y := if m <=? 2 then y - 1 else y in
  let era := y `div` 400 in
  let yoe := y - era * 400 in
  let doy := (153 * (if 2 <? m then m - 3 else m + 9) + 2) `div` 5 + d - 1 in
  let doe := yoe * 365 + yoe `div` 4 - yoe `div` 100 + doy in
  era * 146097 + doe - 719468.

Fixpoint zeros (n : nat) : string :=
  match n with
  | O => EmptyString
  | S k => "0" +:+ zeros k
  end.

Definition pad (width : nat) (z : Z) : string :=
  let s := pretty z in zeros (width - String.length s) +:+ s.

(** [toISOString] for the instants of the years 0000 to 9999:
    [YYYY-MM-DDTHH:mm:ss.sssZ]. *)
Definition iso_string (t : Z) : string :=
  let ms := t `mod` 86400000 in
  let '(y, m, d) := civil_from_days (t `div` 86400000) in
  pad 4 y +:+ "-" +:+ pad 2 m +:+ "-" +:+ pad 2 d +:+ "T"
  +:+ pad 2 (ms `div` 3600000) +:+ ":" +:+ pad 2 ((ms `div` 60000) `mod` 60)
  +:+ ":" +:+ pad 2 ((ms `div` 1000) `mod` 60) +:+ "." +:+ pad 3 (ms `mod` 1000)
  +:+ "Z".

Definition decimal (s : string) : option Z :=
  let ds := radix_digits 10 s in
  if bool_decide (s ≠ EmptyString) && (length ds =? String.length s)%nat
  then Some (fold_left (fun acc d => acc * 10 + d) ds 0)
  else None.

(** [new Date(s).getTime()] on the strings [iso_string] produces; [NaN]
    on every other string. *)
Definition iso_time (s : string) : number :=
  let field (from len : nat) := decimal (String.substring from len s) in
  let separator (at_ : nat) (c : string) :=
    String.eqb (String.substring at_ 1 s) c in
  match field 0%nat 4%nat, field 5%nat 2%nat, field 8%nat 2%nat,
        field 11%nat 2%nat, field 14%nat 2%nat, field 17%nat 2%nat,
        field 20%nat 3%nat with
  | Some y, Some mo, Some d, Some h, Some mi, Some sec, Some ms =>
      if (String.length s =? 24)%nat
         && separator 4%nat "-" && separator 7%nat "-"
         && separator 10%nat "T" && separator 13%nat ":"
         && separator 16%nat ":" && separator 19%nat "."
         && separator 23%nat "Z"
      then Num (days_from_civil y mo d * 86400000 + h * 3600000
                + mi * 60000 + sec * 1000 + ms)
      else NaN
  | _, _, _, _, _, _, _ => NaN
  end.

(** A clock that advances one second per reading, from 2023-11-14. *)
Definition clock (n : nat) : Z := 1700000000000 + 1000 * Z.of_nat n.

Definition env_with (answer : nat -> request -> settled) : Env :=
  {| upstream := answer;
     now := clock;
     toISOString := iso_string;
     getTime := iso_time;
     driver_text := fun v => default EmptyString (to_str v) |}.

(** Every request is answered with status 400. *)
Definition env_bad_request : Env :=
  env_with
    (fun _ _ => Rejected (Some 400) "Request failed with status code 400").

(** No request gets through. *)
Definition env_unreachable : Env :=
  env_with (fun _ _ => Rejected None "Network Error").

(** The username lookup finds user 456; no other request gets through. *)
Definition env_found : Env :=
  env_with (fun _ r =>
              match r with
              | POST _ _ =>
                  Fulfilled
                    (VObj [("data",
                            VArr [VObj [("requestedUsername",
                                         VStr "robloxuser123");
                                        ("hasVerifiedBadge", VBool false);
                                        ("id", VInt 456);
                                        ("name", VStr "robloxuser123");
                                        ("displayName", VStr "robloxuser123")]])])
              | GET _ => Rejected None "Network Error"
              end).

(** The username lookup finds nobody. *)
Definition env_no_match : Env :=
  env_with (fun _ r =>
              match r with
              | POST _ _ => Fulfilled (VObj [("data", VArr [])])
              | GET _ => Rejected None "Network Error"
              end).

(** A history of three searches, inserted out of order. *)
Definition three_searches : Db :=
  {| searchHistory :=
       [{| sh_id := 1; sh_query := "b"; sh_type := "username";
           sh_timestamp := iso_string (clock 1); sh_success := true |};
        {| sh_id := 2; sh_query := "c"; sh_type := "username";
           sh_timestamp := iso_string (clock 2); sh_success := false |};
        {| sh_id := 3; sh_query := "a"; sh_type := "username";
           sh_timestamp := iso_string (clock 0); sh_success := true |}];
     searchHistory_seq := 3;
     userCache := [];
     userCache_seq := 0 |}.

(** A cache holding one validated profile. *)
Definition cached_row : UserCache :=
  {| uc_id := 1;
     uc_userId := "1";
     uc_userData :=
       VObj [("id", VInt 1); ("name", VStr "Roblox");
             ("isBanned", VBool false);
             ("description", VStr EmptyString);
             ("hasVerifiedBadge", VBool true)];
     uc_avatarUrl := Some "https://tr.rbxcdn.com/avatar.png";
     uc_timestamp := iso_string (clock 0);
     uc_isTerminated := Some false |}.

Definition one_cached : Db :=
  {| searchHistory := []; searchHistory_seq := 0;
     userCache := [cached_row]; userCache_seq := 1 |}.

(** The payload [{userId, avatarUrl}]. *)
Definition avatar_only : PartialInsertUserCache :=
  {| puc_userId := Some "1";
     puc_userData := None;
     puc_avatarUrl := Some (Some "https://tr.rbxcdn.com/new.png");
     puc_timestamp := None;
     puc_isTerminated := None |}.

(** The payload [{userId, avatarUrl}] for a user the cache does not
    hold. *)
Definition avatar_of_stranger : InsertUserCache :=
  {| iuc_userId := "2";
     iuc_userData := VUndefined;
     iuc_avatarUrl := Some (Some "https://tr.rbxcdn.com/new.png");
     iuc_timestamp := None;
     iuc_isTerminated := None |}.

Definition world_of (d : Db) : World :=
  {| db := d; calls := []; reads := 0; journal := [] |}.

End Samples.

(** ** Vocabulary and samples of the further properties *)

Module More.

(** The keys of [robloxUserSchema]. *)
Definition schema_keys : list string :=
  ["id"; "name"; "displayName"; "description"; "created"; "isBanned";
   "externalAppDisplayName"; "hasVerifiedBadge"; "previousUsernames";
   "stats"].

(** A key that is present with a value outside the image of [shape]. *)
Definition present_but_not {A} (v : value) (shape : A -> value) : Prop :=
  v <> VUndefined /\ forall a, v <> shape a.

(** The avatar URL a settled thumbnail request contributes to a validated
    profile: the [imageUrl] of the first item, if the request was fulfilled
    with a document that passes [robloxAvatarSchema]. *)
Definition avatar_of (s : settled) : option string :=
  match s with
  | Fulfilled a => doc ← robloxAvatarSchema a; imageUrl <$> head (data doc)
  | Rejected _ _ => None
  end.

(** The HTTP status of a response. *)
Definition status_of (r : response) : Z :=
  match r with
  | Json st _ => st
  | Failure st _ _ => st
  end.

(** A search that comes after those of [Samples.three_searches]. *)
Definition later_search : InsertSearchHistory :=
  {| ish_query := "d"; ish_type := "username";
     ish_timestamp := Samples.iso_string (Samples.clock 5);
     ish_success := None |}.

(** A fresh profile for the user of [Samples.cached_row]. *)
Definition refreshed : InsertUserCache :=
  {| iuc_userId := "1";
     iuc_userData := VObj [("id", VInt 1); ("name", VStr "Roblox")];
     iuc_avatarUrl := None;
     iuc_timestamp := Some (Samples.iso_string (Samples.clock 9));
     iuc_isTerminated := Some (Some false) |}.

(** A second user beside the one of [Samples.one_cached]. *)
Definition second_row : UserCache :=
  {| uc_id := 2;
     uc_userId := "2";
     uc_userData := VObj [("id", VInt 2); ("name", VStr "John Doe")];
     uc_avatarUrl := None;
     uc_timestamp := Samples.iso_string (Samples.clock 3);
     uc_isTerminated := Some false |}.

Definition two_cached : Db :=
  {| searchHistory := []; searchHistory_seq := 0;
     userCache := [Samples.cached_row; second_row]; userCache_seq := 2 |}.

(** The payload [{isTerminated: true}]. *)
Definition flag_only : PartialInsertUserCache :=
  {| puc_userId := None;
     puc_userData := None;
     puc_avatarUrl := None;
     puc_timestamp := None;
     puc_isTerminated := Some (Some true) |}.

(** The profile document of user 1, its validated form and its
    thumbnails. *)
Definition profile_props : list (string * value) :=
  [("description", VStr "Welcome to the Roblox profile!");
   ("created", VStr "2006-02-27T21:06:40.3Z");
   ("isBanned", VBool false);
   ("externalAppDisplayName", VNull);
   ("hasVerifiedBadge", VBool true);
   ("id", VInt 1);
   ("name", VStr "Roblox");
   ("displayName", VStr "Roblox")].

Definition profile_doc : value := VObj profile_props.

Definition profile : RobloxUser :=
  {| id := 1; name := "Roblox"; displayName := Some "Roblox";
     description := "Welcome to the Roblox profile!";
     created := Some "2006-02-27T21:06:40.3Z"; isBanned := false;
     externalAppDisplayName := Some None; hasVerifiedBadge := true;
     previousUsernames := None; stats := None |}.

Definition thumbnails_doc : value :=
  VObj [("data",
         VArr [VObj [("targetId", VInt 1); ("state", VStr "Completed");
                     ("imageUrl", VStr "https://tr.rbxcdn.com/avatar.png");
                     ("version", VStr "TN3")]])].

(** The profile request is fulfilled, then the thumbnail request. *)
Definition env_profile : Env :=
  Samples.env_with
    (fun n _ => match n with
                | O => Fulfilled profile_doc
                | _ => Fulfilled thumbnails_doc
                end).

(** The cache of [Samples.one_cached], read an hour after its row was
    written. *)
Definition an_hour_later : World :=
  {| db := Samples.one_cached; calls := []; reads := 3600; journal := [] |}.

(** A terminated account whose recoveries all get through. *)
Definition history_doc : value :=
  VObj [("previousPageCursor", VNull); ("nextPageCursor", VNull);
        ("data", VArr [VObj [("name", VStr "oldname1")];
                       VObj [("name", VStr "oldname2")]])].

Definition env_recovered : Env :=
  Samples.env_with
    (fun n _ => match n with
                | 0%nat =>
                    Rejected (Some 400) "Request failed with status code 400"
                | 1%nat => Fulfilled history_doc
                | 2%nat => Fulfilled (VObj [("count", VInt 12)])
                | 3%nat => Fulfilled (VObj [("count", VInt 340)])
                | 4%nat => Fulfilled (VObj [("count", VInt 5)])
                | _ => Fulfilled thumbnails_doc
                end).

End More.

(** * Properties *)

Local Open Scope list_scope.

(** Closes the side conditions of a handler run: splits, clears the
    equations between results of the same read, and leaves the rest to
    [congruence]. *)
Ltac settle :=
  repeat split; intros; simplify_eq/=; eauto;
  repeat match goal with
         | H1 : ?x = inr _, H2 : ?x = inr _ |- _ =>
             rewrite H1 in H2; simplify_eq/=
         | H1 : ?x = inl _, H2 : ?x = inr _ |- _ =>
             rewrite H1 in H2; discriminate H2
         end;
  eauto; try congruence.

(** ** The order of timestamps *)

Lemma ascii_compare_refl (a : ascii) : Ascii.compare a a = Eq.
Proof. unfold Ascii.compare. apply N.compare_refl. Qed.

Lemma ascii_compare_trans (c : comparison) (a1 a2 a3 : ascii) :
  Ascii.compare a1 a2 = c -> Ascii.compare a2 a3 = c -> Ascii.compare a1 a3 = c.
Proof.
  unfold Ascii.compare. destruct c; intros H1 H2.
  - apply N.compare_eq_iff in H1, H2. apply N.compare_eq_iff. congruence.
  - rewrite N.compare_lt_iff in *. lia.
  - rewrite N.compare_gt_iff in *. lia.
Qed.

Lemma string_compare_trans (c : comparison) (s1 s2 s3 : string) :
  String.compare s1 s2 = c -> String.compare s2 s3 = c ->
  String.compare s1 s3 = c.
Proof.
  revert s2 s3.
  induction s1 as [|a1 s1 IH]; intros [|a2 s2] [|a3 s3]; simpl;
    try congruence.
  destruct (Ascii.compare a1 a2) eqn:E1, (Ascii.compare a2 a3) eqn:E2;
    try congruence;
    try (apply Ascii.compare_eq_iff in E1; subst a2);
    try (apply Ascii.compare_eq_iff in E2; subst a3);
    try rewrite ascii_compare_refl; try rewrite E1; try rewrite E2;
    try congruence; eauto.
  - rewrite (ascii_compare_trans Lt a1 a2 a3); auto.
  - rewrite (ascii_compare_trans Gt a1 a2 a3); auto.
Qed.

#[local] Instance text_le_trans : Transitive text_le.
Proof.
  intros s1 s2 s3. unfold text_le, String.leb.
  destruct (String.compare s1 s2) eqn:E1; try discriminate;
    destruct (String.compare s2 s3) eqn:E2; try discriminate; intros _ _.
  - by rewrite (string_compare_trans Eq s1 s2 s3).
  - apply String.compare_eq_iff in E1. subst. by rewrite E2.
  - apply String.compare_eq_iff in E2. subst. by rewrite E1.
  - by rewrite (string_compare_trans Lt s1 s2 s3).
Qed.

#[local] Instance text_le_total : Total text_le.
Proof. intros s1 s2. apply String.leb_total. Qed.

#[local] Instance text_le_antisym : AntiSymm (=) text_le.
Proof. intros s1 s2. apply String.leb_antisym. Qed.

#[local] Instance flip_text_le_antisym : AntiSymm (=) (flip text_le).
Proof. intros s1 s2 H1 H2. by apply String.leb_antisym. Qed.

#[local] Instance desc_timestamp_trans : Transitive desc_timestamp.
Proof.
  intros a b c Hab Hbc. unfold desc_timestamp in *. by etrans.
Qed.

#[local] Instance desc_timestamp_total : Total desc_timestamp.
Proof. intros a b. unfold desc_timestamp. apply text_le_total. Qed.

(** ** The search history *)

Lemma sorted_timestamps (l : list SearchHistory) :
  StronglySorted desc_timestamp l ->
  StronglySorted (flip text_le) (sh_timestamp <$> l).
Proof.
  apply (StronglySorted_fmap sh_timestamp desc_timestamp (flip text_le)).
  intros x y Hxy. exact Hxy.
Qed.

Lemma sorted_timestamps_unique (l1 l2 : list SearchHistory) :
  StronglySorted desc_timestamp l1 -> StronglySorted desc_timestamp l2 ->
  l1 ≡ₚ l2 -> sh_timestamp <$> l1 = sh_timestamp <$> l2.
Proof.
  intros H1 H2 Hp.
  apply (StronglySorted_unique (flip text_le)).
  - by apply sorted_timestamps.
  - by apply sorted_timestamps.
  - by apply fmap_Permutation.
Qed.

Lemma getRecentSearches_take (d : Db) (limit : number) :
  let size := length (searchHistory d) in
  let k := match limit with
           | Num n => if 0 <=? n then Nat.min (Z.to_nat n) size else size
           | NaN => size
           end in
  (k <= size)%nat
  /\ getRecentSearches (Some limit) d =
       inr (take k (merge_sort desc_timestamp (searchHistory d)), d).
Proof.
  intros size k.
  assert (Hlen : length (merge_sort desc_timestamp (searchHistory d)) = size)
    by (apply Permutation_length, merge_sort_Permutation).
  unfold getRecentSearches. simpl. subst k.
  destruct limit as [|n].
  - split; [lia|]. by rewrite <- Hlen, firstn_all.
  - destruct (0 <=? n).
    + split; [lia|]. by rewrite <- Hlen, <- take_take, firstn_all.
    + split; [lia|]. by rewrite <- Hlen, firstn_all.
Qed.

(** C8, amended: for every content of the table, in whatever order its
    rows were inserted, [getRecentSearches(limit)] returns the rows sorted
    by timestamp descending and cut after the first [limit] of them when
    [limit] is a number that is at least zero: [min limit size] rows of a
    table of [size] rows.  When [limit] is negative or [NaN] the result is
    not cut: all [size] rows are returned, sorted.  In every case the rows
    returned are rows of the table, no row left out is more recent than a
    returned one, and the timestamps returned do not depend on the
    insertion order.  Without a limit the call is
    [getRecentSearches(10)]. *)
Theorem getRecentSearches_truncated_sorted (d : Db) (limit : number) :
  exists rows rest,
    getRecentSearches (Some limit) d = inr (rows, d)
    /\ length rows
       = match limit with
         | Num n =>
             if 0 <=? n then Nat.min (Z.to_nat n) (length (searchHistory d))
             else length (searchHistory d)
         | NaN => length (searchHistory d)
         end
    /\ StronglySorted desc_timestamp rows
    /\ rows ++ rest ≡ₚ searchHistory d
    /\ (forall r r', r ∈ rows -> r' ∈ rest -> desc_timestamp r r')
    /\ (forall d' : Db,
          searchHistory d' ≡ₚ searchHistory d ->
          exists rows',
            getRecentSearches (Some limit) d' = inr (rows', d')
            /\ sh_timestamp <$> rows' = sh_timestamp <$> rows)
    /\ getRecentSearches None d = getRecentSearches (Some (Num 10)) d.
Proof.
  destruct (getRecentSearches_take d limit) as [Hk Hrun].
  cbv zeta in Hk, Hrun.
  set (size := length (searchHistory d)) in *.
  set (k := match limit with NaN => _ | Num _ => _ end) in *.
  set (sorted := merge_sort desc_timestamp (searchHistory d)) in *.
  assert (Hlen : length sorted = size)
    by (apply Permutation_length, merge_sort_Permutation).
  assert (Hs : StronglySorted desc_timestamp sorted)
    by (apply StronglySorted_merge_sort; apply _).
  assert (Hsplit : take k sorted ++ drop k sorted = sorted)
    by apply take_drop.
  exists (take k sorted), (drop k sorted).
  split; [exact Hrun|].
  split; [rewrite length_take, Hlen; lia|].
  split.
  { rewrite <- Hsplit in Hs. by apply StronglySorted_app_1_l in Hs. }
  split; [rewrite Hsplit; apply merge_sort_Permutation|].
  split.
  { intros r r' Hr Hr'. rewrite <- Hsplit in Hs.
    by apply (StronglySorted_app_1_elem_of _ _ _ _ _ Hs). }
  split; [|done].
  intros d' Hp.
  destruct (getRecentSearches_take d' limit) as [_ Hrun'].
  cbv zeta in Hrun'. rewrite (Permutation_length Hp) in Hrun'.
  fold size k in Hrun'.
  eexists. split; [exact Hrun'|].
  rewrite !fmap_take. f_equal.
  apply sorted_timestamps_unique.
  - apply StronglySorted_merge_sort; apply _.
  - done.
  - unfold sorted. by rewrite !merge_sort_Permutation.
Qed.

(** ** The user cache *)

Lemma filter_none {A} (P : A -> Prop) `{!forall x, Decision (P x)}
    (l : list A) :
  (forall x, x ∈ l -> ~ P x) -> filter P l = [].
Proof.
  induction l as [|x l IH]; intros Hl; [done|].
  rewrite filter_cons_False by (apply Hl; left).
  apply IH. intros y Hy. apply Hl. by right.
Qed.

Lemma fmap_fixed {A} (f : A -> A) (l : list A) :
  (forall x, x ∈ l -> f x = x) -> f <$> l = l.
Proof.
  induction l as [|x l IH]; intros H; [done|].
  rewrite fmap_cons, H by left. f_equal. apply IH. intros y Hy.
  apply H. by right.
Qed.

Lemma select_unique (rows : list UserCache) (r : UserCache) :
  unique_userId rows -> r ∈ rows ->
  filter (fun x => uc_userId x = uc_userId r) rows = [r].
Proof.
  unfold unique_userId. induction rows as [|x l IH]; intros Hnd Hin.
  - by apply elem_of_nil in Hin.
  - rewrite fmap_cons in Hnd. apply NoDup_cons in Hnd as [Hx Hl].
    apply elem_of_cons in Hin as [->|Hin].
    + rewrite filter_cons_True by done. f_equal.
      apply filter_none. intros y Hy Heq.
      apply Hx. rewrite <- Heq. by apply list_elem_of_fmap_2.
    + rewrite filter_cons_False; [by apply IH|].
      intros Heq. apply Hx. rewrite Heq. by apply list_elem_of_fmap_2.
Qed.

Lemma select_none (rows : list UserCache) (userId : string) :
  (forall r, r ∈ rows -> uc_userId r <> userId) ->
  filter (fun x => uc_userId x = userId) rows = [].
Proof.
  intros H. apply filter_none. intros y Hy. by apply H.
Qed.

Lemma head_select_elem (d : Db) (userId : string) (c : UserCache) :
  head (select_userCache userId d) = Some c ->
  c ∈ userCache d /\ uc_userId c = userId.
Proof.
  unfold select_userCache. intros H.
  apply head_Some_elem_of in H. by apply list_elem_of_filter in H as [? ?].
Qed.

Lemma head_select_none (d : Db) (userId : string) :
  head (select_userCache userId d) = None ->
  forall r, r ∈ userCache d -> uc_userId r <> userId.
Proof.
  unfold select_userCache. intros H r Hr Heq.
  apply head_None in H.
  assert (r ∈ filter (fun x => uc_userId x = userId) (userCache d))
    by (by apply list_elem_of_filter).
  rewrite H in *. by eapply elem_of_nil.
Qed.

(** Setting columns on the rows of one user, the key itself untouched,
    changes only that user's row. *)
Lemma update_one_row (rows : list UserCache) (p : PartialInsertUserCache)
    (existing : UserCache) :
  unique_userId rows -> existing ∈ rows ->
  (puc_userId p = None \/ puc_userId p = Some (uc_userId existing)) ->
  exists l1 l2,
    rows = l1 ++ existing :: l2
    /\ (fun r => if decide (uc_userId r = uc_userId existing)
                 then set_columns p r else r) <$> rows
       = l1 ++ set_columns p existing :: l2.
Proof.
  unfold unique_userId. intros Hnd Hin Hkey.
  apply list_elem_of_split in Hin as (l1 & l2 & ->).
  exists l1, l2. split; [done|].
  rewrite fmap_app, fmap_cons in Hnd.
  apply NoDup_app in Hnd as (_ & Hdisj & Hnd2).
  apply NoDup_cons in Hnd2 as [Hnot2 _].
  rewrite fmap_app, fmap_cons. rewrite decide_True by done.
  f_equal; [|f_equal].
  - apply fmap_fixed. intros r Hr. rewrite decide_False; [done|].
    intros Heq. apply (Hdisj (uc_userId r)).
    + by apply list_elem_of_fmap_2.
    + rewrite Heq. left.
  - apply fmap_fixed. intros r Hr. rewrite decide_False; [done|].
    intros Heq. apply Hnot2. rewrite <- Heq. by apply list_elem_of_fmap_2.
Qed.

Lemma set_columns_userId (p : PartialInsertUserCache) (r : UserCache) :
  (puc_userId p = None \/ puc_userId p = Some (uc_userId r)) ->
  uc_userId (set_columns p r) = uc_userId r.
Proof. intros [H|H]; unfold set_columns; cbn [uc_userId]; by rewrite H. Qed.

Lemma unique_replace (l1 l2 : list UserCache) (old new : UserCache) :
  uc_userId new = uc_userId old ->
  unique_userId (l1 ++ old :: l2) -> unique_userId (l1 ++ new :: l2).
Proof.
  unfold unique_userId. intros Heq.
  by rewrite !fmap_app, !fmap_cons, Heq.
Qed.

(** A value other than [undefined] and [null] is written as its
    document. *)
Lemma jsonb_param_document (v : value) :
  v <> VUndefined -> v <> VNull -> jsonb_param v = Some (Some (jsonb v)).
Proof. by destruct v. Qed.

Lemma jsonb_param_object (props : list (string * value)) :
  jsonb_param (VObj props) = Some (Some (jsonb (VObj props))).
Proof. reflexivity. Qed.

Lemma nulls_userData_false (p : PartialInsertUserCache) :
  puc_userData p <> Some VNull -> nulls_userData p = false.
Proof.
  unfold nulls_userData, userData_param.
  destruct (puc_userData p) as [v|]; [|done]. by destruct v.
Qed.

(** The [userData] of a row after [set]: the document of the value given,
    or its old content where none was given. *)
Lemma set_columns_userData (p : PartialInsertUserCache) (r : UserCache) :
  puc_userData p <> Some VNull ->
  uc_userData (set_columns p r)
  = match puc_userData p with
    | None | Some VUndefined => uc_userData r
    | Some v => jsonb v
    end.
Proof.
  unfold set_columns, userData_param. cbn [uc_userData].
  destruct (puc_userData p) as [v|]; [|done]. by destruct v.
Qed.

Lemma updateUserCache_existing (d : Db) (p : PartialInsertUserCache)
    (existing : UserCache) :
  unique_userId (userCache d) -> existing ∈ userCache d ->
  no_values p = false ->
  puc_userData p <> Some VNull ->
  (puc_userId p = None \/ puc_userId p = Some (uc_userId existing)) ->
  exists l1 l2,
    userCache d = l1 ++ existing :: l2
    /\ updateUserCache (uc_userId existing) p d
       = inr (Some (set_columns p existing),
              {| searchHistory := searchHistory d;
                 searchHistory_seq := searchHistory_seq d;
                 userCache := l1 ++ set_columns p existing :: l2;
                 userCache_seq := userCache_seq d |}).
Proof.
  intros Hu Hin Hnv Hnull Hkey.
  destruct (update_one_row _ p _ Hu Hin Hkey) as (l1 & l2 & Hrows & Hupd).
  exists l1, l2. split; [done|].
  unfold updateUserCache.
  rewrite Hnv, (nulls_userData_false _ Hnull), Hupd. cbn [andb].
  rewrite decide_True.
  - unfold select_userCache. rewrite (select_unique _ _ Hu Hin). done.
  - apply (unique_replace l1 l2 existing).
    + by apply set_columns_userId.
    + by rewrite <- Hrows.
Qed.

(** [null] for [userData] is refused as soon as a row would take it. *)
Lemma updateUserCache_null (d : Db) (p : PartialInsertUserCache)
    (existing : UserCache) :
  existing ∈ userCache d -> puc_userData p = Some VNull ->
  updateUserCache (uc_userId existing) p d = inl (NotNullViolation "user_data").
Proof.
  intros Hin Hnull. unfold updateUserCache.
  assert (Hnv : no_values p = false).
  { unfold no_values, userData_param. rewrite Hnull. cbn [jsonb_param].
    by destruct (puc_userId p). }
  assert (Hn : nulls_userData p = true).
  { unfold nulls_userData, userData_param. by rewrite Hnull. }
  rewrite Hnv, Hn, bool_decide_true; [done|].
  intros Hsel.
  assert (Hex : existing ∈ select_userCache (uc_userId existing) d).
  { unfold select_userCache. by apply list_elem_of_filter. }
  rewrite Hsel in Hex. by apply elem_of_nil in Hex.
Qed.

Lemma as_partial_values (cache : InsertUserCache) :
  no_values (as_partial cache) = false.
Proof. reflexivity. Qed.

Lemma addUserCache_delegates (d : Db) (cache : InsertUserCache)
    (existing : UserCache) :
  unique_userId (userCache d) -> existing ∈ userCache d ->
  uc_userId existing = iuc_userId cache ->
  addUserCache cache d
  = updateUserCache (iuc_userId cache) (as_partial cache) d.
Proof.
  intros Hu Hin Hid. unfold addUserCache, select_userCache.
  rewrite <- Hid, (select_unique _ _ Hu Hin). done.
Qed.

Lemma addUserCache_existing (d : Db) (cache : InsertUserCache)
    (existing : UserCache) :
  unique_userId (userCache d) -> existing ∈ userCache d ->
  uc_userId existing = iuc_userId cache ->
  iuc_userData cache <> VNull ->
  exists l1 l2,
    userCache d = l1 ++ existing :: l2
    /\ addUserCache cache d
       = inr (Some (set_columns (as_partial cache) existing),
              {| searchHistory := searchHistory d;
                 searchHistory_seq := searchHistory_seq d;
                 userCache :=
                   l1 ++ set_columns (as_partial cache) existing :: l2;
                 userCache_seq := userCache_seq d |}).
Proof.
  intros Hu Hin Hid Hnull.
  destruct (updateUserCache_existing d (as_partial cache) existing Hu Hin)
    as (l1 & l2 & Hrows & Hupd).
  { done. }
  { cbn [as_partial puc_userData]. congruence. }
  { right. cbn [as_partial puc_userId]. by rewrite Hid. }
  exists l1, l2. split; [done|].
  rewrite (addUserCache_delegates d cache existing Hu Hin Hid).
  by rewrite <- Hid.
Qed.

Lemma addUserCache_new (d : Db) (cache : InsertUserCache)
    (document : value) (timestamp : string) :
  unique_userId (userCache d) ->
  (forall r, r ∈ userCache d -> uc_userId r <> iuc_userId cache) ->
  jsonb_param (iuc_userData cache) = Some (Some document) ->
  iuc_timestamp cache = Some timestamp ->
  let row := {| uc_id := userCache_seq d + 1;
                uc_userId := iuc_userId cache;
                uc_userData := document;
                uc_avatarUrl := default None (iuc_avatarUrl cache);
                uc_timestamp := timestamp;
                uc_isTerminated :=
                  default (Some false) (iuc_isTerminated cache) |} in
  addUserCache cache d
  = inr (Some row,
         {| searchHistory := searchHistory d;
            searchHistory_seq := searchHistory_seq d;
            userCache := userCache d ++ [row];
            userCache_seq := userCache_seq d + 1 |})
  /\ unique_userId (userCache d ++ [row]).
Proof.
  intros Hu Hnone Hdoc Hts row.
  assert (Hu' : unique_userId (userCache d ++ [row])).
  { unfold unique_userId in *. rewrite fmap_app. apply NoDup_app.
    split; [done|]. split; [|apply NoDup_singleton].
    intros x Hx Hx'. simpl in Hx'. apply list_elem_of_singleton in Hx'.
    apply list_elem_of_fmap in Hx as (r & -> & Hr). by apply (Hnone r). }
  split; [|done].
  unfold addUserCache, select_userCache.
  rewrite (select_none _ _ Hnone). cbn [head].
  unfold insert_userCache. rewrite Hdoc, Hts. fold row.
  by rewrite decide_True.
Qed.

(** Without a row of the user, a payload that lacks [userData] or
    [timestamp] is refused and nothing is inserted. *)
Lemma addUserCache_refused (d : Db) (cache : InsertUserCache) :
  (forall r, r ∈ userCache d -> uc_userId r <> iuc_userId cache) ->
  (iuc_userData cache = VUndefined \/ iuc_userData cache = VNull ->
   addUserCache cache d = inl (NotNullViolation "user_data"))
  /\ (iuc_userData cache <> VUndefined -> iuc_userData cache <> VNull ->
      iuc_timestamp cache = None ->
      addUserCache cache d = inl (NotNullViolation "timestamp")).
Proof.
  intros Hnone. unfold addUserCache, select_userCache.
  rewrite (select_none _ _ Hnone). cbn [head]. unfold insert_userCache.
  split.
  - by intros [-> | ->].
  - intros H1 H2 ->. by rewrite (jsonb_param_document _ H1 H2).
Qed.

(** Every statement on the cache keeps [user_id] unique. *)
Lemma updateUserCache_unique (userId : string) (p : PartialInsertUserCache)
    (d d' : Db) (r : option UserCache) :
  updateUserCache userId p d = inr (r, d') -> unique_userId (userCache d').
Proof.
  unfold updateUserCache. destruct (no_values p); [done|].
  destruct (_ && _); [done|].
  case_decide; [|done]. intros [= <- <-]. done.
Qed.

Lemma addUserCache_unique (cache : InsertUserCache) (d d' : Db)
    (r : option UserCache) :
  addUserCache cache d = inr (r, d') -> unique_userId (userCache d').
Proof.
  unfold addUserCache.
  destruct (head (select_userCache (iuc_userId cache) d)).
  - apply updateUserCache_unique.
  - unfold insert_userCache.
    destruct (jsonb_param _) as [[document|]|]; [|done|done].
    destruct (iuc_timestamp cache); [|done].
    case_decide; [|done]. intros [= <- <-]. done.
Qed.

(** C4, amended: on a cache with one row per user, (1) an update whose
    payload gives only some of the fields (for instance only [userId] and
    [avatarUrl]) overwrites the fields given and leaves every other field
    of the row, and every other row, as it was: a stored [userData] is not
    erased, and a [userData] that is given is stored as its JSON document;
    a payload without any field, or with [null] for [userData], is
    refused; (2) an upsert for a user who has a row is that update, and
    returns the merged row; (3) an upsert for a user without a row inserts
    a new row and returns it only if the payload carries [userData] (not
    null) and [timestamp]; without them (for instance [{userId,
    avatarUrl}]) the upsert fails and nothing is inserted.  Whenever a
    statement succeeds, the cache still has one row per user. *)
Theorem upsert_merges_or_refuses (d : Db) :
  unique_userId (userCache d) ->
  (forall (existing : UserCache) (p : PartialInsertUserCache),
      existing ∈ userCache d ->
      (puc_userId p = None \/ puc_userId p = Some (uc_userId existing)) ->
      (no_values p = true ->
       updateUserCache (uc_userId existing) p d = inl NoValuesToSet)
      /\ (puc_userData p = Some VNull ->
          updateUserCache (uc_userId existing) p d
          = inl (NotNullViolation "user_data"))
      /\ (no_values p = false -> puc_userData p <> Some VNull ->
          exists new l1 l2 d',
            updateUserCache (uc_userId existing) p d = inr (Some new, d')
            /\ userCache d = l1 ++ existing :: l2
            /\ userCache d' = l1 ++ new :: l2
            /\ unique_userId (userCache d')
            /\ uc_id new = uc_id existing
            /\ uc_userId new = uc_userId existing
            /\ uc_userData new
               = match puc_userData p with
                 | None | Some VUndefined => uc_userData existing
                 | Some v => jsonb v
                 end
            /\ column_merged (puc_avatarUrl p) (uc_avatarUrl existing)
                 (uc_avatarUrl new)
            /\ column_merged (puc_timestamp p) (uc_timestamp existing)
                 (uc_timestamp new)
            /\ column_merged (puc_isTerminated p) (uc_isTerminated existing)
                 (uc_isTerminated new)))
  /\ (forall (existing : UserCache) (cache : InsertUserCache),
        existing ∈ userCache d -> uc_userId existing = iuc_userId cache ->
        addUserCache cache d
        = updateUserCache (iuc_userId cache) (as_partial cache) d
        /\ (iuc_userData cache = VNull ->
            addUserCache cache d = inl (NotNullViolation "user_data"))
        /\ (iuc_userData cache <> VNull ->
            exists new l1 l2 d',
              addUserCache cache d = inr (Some new, d')
              /\ userCache d = l1 ++ existing :: l2
              /\ userCache d' = l1 ++ new :: l2
              /\ unique_userId (userCache d')
              /\ uc_id new = uc_id existing
              /\ uc_userId new = iuc_userId cache
              /\ uc_userData new
                 = match iuc_userData cache with
                   | VUndefined => uc_userData existing
                   | v => jsonb v
                   end
              /\ column_merged (iuc_avatarUrl cache) (uc_avatarUrl existing)
                   (uc_avatarUrl new)
              /\ column_merged (iuc_timestamp cache) (uc_timestamp existing)
                   (uc_timestamp new)
              /\ column_merged (iuc_isTerminated cache)
                   (uc_isTerminated existing) (uc_isTerminated new)))
  /\ (forall cache : InsertUserCache,
        (forall r, r ∈ userCache d -> uc_userId r <> iuc_userId cache) ->
        (iuc_userData cache = VUndefined \/ iuc_userData cache = VNull ->
         addUserCache cache d = inl (NotNullViolation "user_data"))
        /\ (iuc_userData cache <> VUndefined ->
            iuc_userData cache <> VNull ->
            iuc_timestamp cache = None ->
            addUserCache cache d = inl (NotNullViolation "timestamp"))
        /\ (forall timestamp,
              iuc_userData cache <> VUndefined ->
              iuc_userData cache <> VNull ->
              iuc_timestamp cache = Some timestamp ->
              exists row d',
                addUserCache cache d = inr (Some row, d')
                /\ userCache d' = userCache d ++ [row]
                /\ unique_userId (userCache d')
                /\ getUserCache (iuc_userId cache) d' = inr (Some row, d')
                /\ uc_userId row = iuc_userId cache
                /\ uc_userData row = jsonb (iuc_userData cache)
                /\ uc_timestamp row = timestamp
                /\ uc_avatarUrl row = default None (iuc_avatarUrl cache)
                /\ uc_isTerminated row
                   = default (Some false) (iuc_isTerminated cache))).
Proof.
  intros Hu. split; [|split].
  - intros existing p Hin Hkey. split; [|split].
    + intros Hnv. unfold updateUserCache. by rewrite Hnv.
    + by apply updateUserCache_null.
    + intros Hnv Hnull.
      destruct (updateUserCache_existing d p existing Hu Hin Hnv Hnull Hkey)
        as (l1 & l2 & Hrows & Hupd).
      eexists _, l1, l2, _. split; [exact Hupd|]. cbn [userCache].
      split; [done|]. split; [done|].
      split.
      { apply (unique_replace l1 l2 existing);
          [by apply set_columns_userId | by rewrite <- Hrows]. }
      split; [done|].
      split; [by apply set_columns_userId|].
      split; [by apply set_columns_userData|].
      unfold set_columns.
      cbn [uc_avatarUrl uc_timestamp uc_isTerminated].
      repeat split.
      * by destruct (puc_avatarUrl p).
      * by destruct (puc_timestamp p).
      * by destruct (puc_isTerminated p).
  - intros existing cache Hin Hid.
    pose proof (addUserCache_delegates d cache existing Hu Hin Hid) as Hdel.
    split; [exact Hdel|]. split.
    + intros Hnull. rewrite Hdel, <- Hid.
      apply updateUserCache_null; [done|].
      cbn [as_partial puc_userData]. by rewrite Hnull.
    + intros Hnull.
      destruct (addUserCache_existing d cache existing Hu Hin Hid Hnull)
        as (l1 & l2 & Hrows & Hadd).
      eexists _, l1, l2, _. split; [exact Hadd|]. cbn [userCache].
      split; [done|]. split; [done|].
      split.
      { apply (unique_replace l1 l2 existing);
          [ unfold set_columns; cbn [uc_userId as_partial puc_userId];
            by rewrite Hid
          | by rewrite <- Hrows ]. }
      split; [done|]. split; [done|].
      split.
      { rewrite set_columns_userData
          by (cbn [as_partial puc_userData]; congruence).
        cbn [as_partial puc_userData]. by destruct (iuc_userData cache). }
      unfold set_columns.
      cbn [uc_avatarUrl uc_timestamp uc_isTerminated as_partial
           puc_avatarUrl puc_timestamp puc_isTerminated].
      repeat split.
      * by destruct (iuc_avatarUrl cache).
      * by destruct (iuc_timestamp cache).
      * by destruct (iuc_isTerminated cache).
  - intros cache Hnone.
    destruct (addUserCache_refused d cache Hnone) as [Hdata Hts].
    split; [exact Hdata|]. split; [exact Hts|].
    intros timestamp H1 H2 Hstamp.
    destruct (addUserCache_new d cache _ timestamp Hu Hnone
                (jsonb_param_document _ H1 H2) Hstamp) as [Hadd Hu'].
    eexists _, _. split; [exact Hadd|]. cbn [userCache].
    split; [done|]. split; [done|].
    split; [|done].
    unfold getUserCache, select_userCache. cbn [userCache].
    rewrite filter_app, (select_none _ _ Hnone).
    rewrite filter_cons_True by done. done.
Qed.

(** ** Running the handlers *)

Lemma bind_run {A B} (m : M A) (f : A -> M B) (w : World) :
  (m ≫= f) w
  = match m w with
    | (inr a, w') => f a w'
    | (inl e, w') => (inl e, w')
    end.
Proof. reflexivity. Qed.

Lemma called_called (w : World) (l1 l2 : list request) :
  called (called w l1) l2 = called w (l1 ++ l2).
Proof. unfold called. simpl. by rewrite fmap_app, !app_assoc. Qed.

Lemma called_length (w : World) (r : request) :
  length (calls (called w [r])) = S (length (calls w)).
Proof. simpl. rewrite length_app. simpl. lia. Qed.

Lemma axios_run (env : Env) (r : request) (w : World) :
  axios env r w
  = (match upstream env (length (calls w)) r with
     | Fulfilled d => inr d
     | Rejected st msg => inl (AxiosError st msg)
     end, called w [r]).
Proof. unfold axios, called. by destruct (upstream env _ r). Qed.

Lemma all3_axios_run (env : Env) (r1 r2 r3 : request) (w : World) :
  let n := length (calls w) in
  all3 (axios env r1) (axios env r2) (axios env r3) w
  = (match upstream env n r1, upstream env (S n) r2,
           upstream env (S (S n)) r3 with
     | Fulfilled a, Fulfilled b, Fulfilled c => inr (a, b, c)
     | Rejected st msg, _, _ => inl (AxiosError st msg)
     | _, Rejected st msg, _ => inl (AxiosError st msg)
     | _, _, Rejected st msg => inl (AxiosError st msg)
     end, called w [r1; r2; r3]).
Proof.
  intros n. unfold all3. rewrite !axios_run.
  rewrite !called_length, !called_called. simpl. fold n.
  by destruct (upstream env n r1), (upstream env (S n) r2),
       (upstream env (S (S n)) r3).
Qed.

(** ** The stats aggregator *)

(** C6: [GET /api/users/:userId/stats] issues the three count requests
    and answers 200 in every case.  If each of the three is fulfilled with
    a document that passes [robloxFriendsCountSchema], the body holds the
    three validated counts; if any one is rejected or fails validation,
    the body is the all-["N/A"] triple, whatever the other two returned.
    The database is not touched. *)
Theorem get_stats_all_or_nothing (env : Env) (userId : string) (w : World) :
  let n := length (calls w) in
  let friends_count :=
    validated_count (upstream env n (GET (count_url userId "friends"))) in
  let followers_count :=
    validated_count (upstream env (S n) (GET (count_url userId "followers"))) in
  let following_count :=
    validated_count
      (upstream env (S (S n)) (GET (count_url userId "followings"))) in
  get_stats env userId w
  = (inr (Json 200
            match friends_count, followers_count, following_count with
            | Some a, Some b, Some c =>
                VObj [("friends", VNum (Num a)); ("followers", VNum (Num b));
                      ("following", VNum (Num c))]
            | _, _, _ =>
                VObj [("friends", VStr "N/A"); ("followers", VStr "N/A");
                      ("following", VStr "N/A")]
            end),
     called w [GET (count_url userId "friends");
               GET (count_url userId "followers");
               GET (count_url userId "followings")]).
Proof.
  intros n fr fo fg. subst fr fo fg.
  unfold get_stats, try_catch. rewrite bind_run, all3_axios_run. fold n.
  destruct (upstream env n _) as [a|? ?],
           (upstream env (S n) _) as [b|? ?],
           (upstream env (S (S n)) _) as [c|? ?]; simpl;
    try reflexivity;
    try (destruct (robloxFriendsCountSchema a); reflexivity);
    try (destruct (robloxFriendsCountSchema a), (robloxFriendsCountSchema b);
         reflexivity).
  unfold parse.
  destruct (robloxFriendsCountSchema a) as [[x]|],
           (robloxFriendsCountSchema b) as [[y]|],
           (robloxFriendsCountSchema c) as [[z]|]; reflexivity.
Qed.

(** ** Validation of the profile *)

Lemma z_number_Some (v : value) (z : Z) :
  z_number v = Some z <-> v = VNum (Num z).
Proof.
  destruct v as [| |?|[|?]|?|?|?]; simpl; split; intros H;
    by simplify_eq.
Qed.

Lemma z_string_Some (v : value) (s : string) :
  z_string v = Some s <-> v = VStr s.
Proof. destruct v; simpl; split; intros H; by simplify_eq. Qed.

Lemma robloxUserSchema_Some (props : list (string * value)) (u : RobloxUser) :
  robloxUserSchema (VObj props) = Some u ->
  z_number (key props "id") = Some (id u)
  /\ z_string (key props "name") = Some (name u)
  /\ z_optional z_string (key props "displayName") = Some (displayName u)
  /\ z_default (z_optional z_string) EmptyString (key props "description")
     = Some (description u)
  /\ z_optional z_string (key props "created") = Some (created u)
  /\ z_default (z_optional z_boolean) false (key props "isBanned")
     = Some (isBanned u)
  /\ z_optional (z_nullable z_string) (key props "externalAppDisplayName")
     = Some (externalAppDisplayName u)
  /\ z_default (z_optional z_boolean) false (key props "hasVerifiedBadge")
     = Some (hasVerifiedBadge u)
  /\ z_optional (z_array z_string) (key props "previousUsernames")
     = Some (previousUsernames u)
  /\ z_optional statsSchema (key props "stats") = Some (stats u).
Proof.
  unfold robloxUserSchema. intros H.
  repeat match type of H with
         | (mbind _ ?m = Some _) =>
             let E := fresh "E" in
             destruct m eqn:E; simpl in H; [|discriminate H]
         end.
  injection H as <-. simpl. done.
Qed.

(** C7: [robloxUserSchema.parse] rejects every input that is not an object
    and every object whose [id] is missing or not a number, or whose [name]
    is missing or not a string.  Where it succeeds, [id] and [name] are
    those of the input, an absent [description] is the empty string, an
    absent [isBanned] is false, an absent [hasVerifiedBadge] is false (a
    present one is kept), and the other absent optional fields stay
    absent.  An object with a numeric [id], a string [name] and nothing
    else is accepted. *)
Theorem robloxUserSchema_fails_closed_fills_defaults (v : value) :
  ((forall props, v <> VObj props) -> robloxUserSchema v = None)
  /\ (forall props,
        v = VObj props ->
        (forall z, key props "id" <> VNum (Num z))
        \/ (forall s, key props "name" <> VStr s) ->
        robloxUserSchema v = None)
  /\ (forall u,
        robloxUserSchema v = Some u ->
        exists props,
          v = VObj props
          /\ key props "id" = VNum (Num (id u))
          /\ key props "name" = VStr (name u)
          /\ (key props "description" = VUndefined ->
              description u = EmptyString)
          /\ (key props "isBanned" = VUndefined -> isBanned u = false)
          /\ (key props "hasVerifiedBadge" = VUndefined ->
              hasVerifiedBadge u = false)
          /\ (forall s, key props "description" = VStr s -> description u = s)
          /\ (forall b, key props "isBanned" = VBool b -> isBanned u = b)
          /\ (forall b, key props "hasVerifiedBadge" = VBool b ->
              hasVerifiedBadge u = b)
          /\ (key props "displayName" = VUndefined -> displayName u = None)
          /\ (key props "created" = VUndefined -> created u = None)
          /\ (key props "externalAppDisplayName" = VUndefined ->
              externalAppDisplayName u = None)
          /\ (key props "previousUsernames" = VUndefined ->
              previousUsernames u = None)
          /\ (key props "stats" = VUndefined -> stats u = None))
  /\ (forall props z s,
        v = VObj props ->
        key props "id" = VNum (Num z) -> key props "name" = VStr s ->
        (forall k,
            k ∈ ["displayName"; "description"; "created"; "isBanned";
                 "externalAppDisplayName"; "hasVerifiedBadge";
                 "previousUsernames"; "stats"] ->
            key props k = VUndefined) ->
        robloxUserSchema v
        = Some {| id := z; name := s; displayName := None;
                  description := EmptyString;
                  created := None; isBanned := false;
                  externalAppDisplayName := None; hasVerifiedBadge := false;
                  previousUsernames := None; stats := None |}).
Proof.
  split; [|split; [|split]].
  - intros Hv. destruct v; try done. by destruct (Hv props).
  - intros props -> Hbad.
    destruct (robloxUserSchema (VObj props)) as [u|] eqn:E; [|done].
    apply robloxUserSchema_Some in E as (Hid & Hname & _).
    apply z_number_Some in Hid. apply z_string_Some in Hname.
    destruct Hbad as [Hbad|Hbad]; [by destruct (Hbad _ Hid)|].
    by destruct (Hbad _ Hname).
  - intros u Hu. destruct v as [| | | | | |props]; try discriminate Hu.
    exists props. split; [done|].
    apply robloxUserSchema_Some in Hu
      as (Hid & Hname & Hdn & Hde & Hcr & Hib & Hex & Hvb & Hpu & Hst).
    apply z_number_Some in Hid. apply z_string_Some in Hname.
    split; [done|]. split; [done|].
    repeat split.
    + intros E. rewrite E in Hde. by simplify_eq/=.
    + intros E. rewrite E in Hib. by simplify_eq/=.
    + intros E. rewrite E in Hvb. by simplify_eq/=.
    + intros s E. rewrite E in Hde. by simplify_eq/=.
    + intros b E. rewrite E in Hib. by simplify_eq/=.
    + intros b E. rewrite E in Hvb. by simplify_eq/=.
    + intros E. rewrite E in Hdn. by simplify_eq/=.
    + intros E. rewrite E in Hcr. by simplify_eq/=.
    + intros E. rewrite E in Hex. by simplify_eq/=.
    + intros E. rewrite E in Hpu. by simplify_eq/=.
    + intros E. rewrite E in Hst. by simplify_eq/=.
  - intros props z s -> Hid Hname Habsent.
    unfold robloxUserSchema. rewrite Hid, Hname.
    rewrite !Habsent by (apply list_elem_of_In; simpl; tauto). done.
Qed.

(** ** The user cache under the handlers *)

Lemma addUserCache_total (d : Db) (cache : InsertUserCache)
    (timestamp : string) :
  unique_userId (userCache d) ->
  iuc_userData cache <> VUndefined ->
  iuc_userData cache <> VNull ->
  iuc_timestamp cache = Some timestamp ->
  exists row d',
    addUserCache cache d = inr (Some row, d')
    /\ head (select_userCache (iuc_userId cache) d') = Some row
    /\ uc_userId row = iuc_userId cache
    /\ uc_userData row = jsonb (iuc_userData cache)
    /\ uc_timestamp row = timestamp
    /\ (forall a, iuc_avatarUrl cache = Some a -> uc_avatarUrl row = a)
    /\ (forall t, iuc_isTerminated cache = Some t -> uc_isTerminated row = t)
    /\ unique_userId (userCache d')
    /\ searchHistory d' = searchHistory d.
Proof.
  intros Hu Hdefined Hnull Hts.
  destruct (head (select_userCache (iuc_userId cache) d)) as [existing|] eqn:E.
  - apply head_select_elem in E as [Hin Hid].
    destruct (addUserCache_existing d cache existing Hu Hin Hid)
      as (l1 & l2 & Hrows & Hadd); [done|].
    assert (Hkey : uc_userId (set_columns (as_partial cache) existing)
                   = uc_userId existing).
    { unfold set_columns. cbn [uc_userId as_partial puc_userId].
      by rewrite Hid. }
    assert (Hu' : unique_userId
                    (l1 ++ set_columns (as_partial cache) existing :: l2)).
    { apply (unique_replace l1 l2 existing); [done | by rewrite <- Hrows]. }
    eexists _, _. split; [exact Hadd|].
    split.
    { assert (Hsel : filter (fun x => uc_userId x = iuc_userId cache)
                       (l1 ++ set_columns (as_partial cache) existing :: l2)
                     = [set_columns (as_partial cache) existing]).
      { rewrite <- Hid, <- Hkey.
        refine (select_unique _ (set_columns (as_partial cache) existing)
                  Hu' _).
        apply elem_of_app. right. left. }
      unfold select_userCache. cbn [userCache]. by rewrite Hsel. }
    split; [by rewrite Hkey|].
    split.
    { rewrite set_columns_userData
        by (cbn [as_partial puc_userData]; congruence).
      cbn [as_partial puc_userData]. by destruct (iuc_userData cache). }
    unfold set_columns.
    cbn [uc_avatarUrl uc_timestamp uc_isTerminated as_partial
         puc_avatarUrl puc_timestamp puc_isTerminated userCache
         searchHistory].
    split; [by rewrite Hts|].
    split; [by intros a ->|]. split; [by intros t ->|]. done.
  - pose proof (head_select_none _ _ E) as Hnone.
    destruct (addUserCache_new d cache (jsonb (iuc_userData cache)) timestamp
                Hu Hnone) as [Hadd Hu'];
      [by apply jsonb_param_document | done |].
    eexists _, _. split; [exact Hadd|].
    split.
    { unfold select_userCache. cbn [userCache].
      rewrite filter_app, (select_none _ _ Hnone).
      by rewrite filter_cons_True. }
    cbn [uc_userId uc_userData uc_timestamp uc_avatarUrl uc_isTerminated
         userCache searchHistory].
    split; [done|]. split; [done|]. split; [done|].
    split; [by intros a ->|]. split; [by intros t ->|]. done.
Qed.

Lemma storage_run {A} (q : Statement A) (w : World) :
  storage q w
  = match q (db w) with
    | inr (a, d) =>
        (inr a, {| db := d; calls := calls w; reads := reads w;
                   journal := journal w ++ [Database d] |})
    | inl e => (inl (DbError e), w)
    end.
Proof. reflexivity. Qed.

(** ** The recoveries of the terminated branch *)

Lemma recover_usernames_run (env : Env) (userId : string) (w : World) :
  exists previousUsernames,
    recover_usernames env userId w
    = (inr previousUsernames, called w [GET (username_history_url userId)])
    /\ (forall st msg,
          upstream env (length (calls w)) (GET (username_history_url userId))
          = Rejected st msg ->
          previousUsernames = []).
Proof.
  unfold recover_usernames, try_catch. rewrite bind_run, axios_run.
  destruct (upstream env _ _) as [d|st msg]; [|by eexists].
  unfold mbind, M_bind, lift.
  destruct (prop d "data") as [e|d0]; simpl; [by eexists|].
  destruct (map_items _ d0); simpl; by eexists.
Qed.

Lemma recover_stats_run (env : Env) (userId : string) (w : World) :
  let n := length (calls w) in
  exists userStats,
    recover_stats env userId w
    = (inr userStats,
       called w [GET (count_url userId "friends");
                 GET (count_url userId "followers");
                 GET (count_url userId "followings")])
    /\ ((exists st msg,
           upstream env n (GET (count_url userId "friends")) = Rejected st msg
           \/ upstream env (S n) (GET (count_url userId "followers"))
              = Rejected st msg
           \/ upstream env (S (S n)) (GET (count_url userId "followings"))
              = Rejected st msg) ->
        userStats = zero_stats)
    /\ (exists friends followers following,
          userStats = VObj [("friends", friends); ("followers", followers);
                            ("following", following)]).
Proof.
  intros n. unfold recover_stats, try_catch.
  rewrite bind_run, all3_axios_run. fold n.
  destruct (upstream env n _) as [a|? ?] eqn:Ea,
           (upstream env (S n) _) as [b|? ?] eqn:Eb,
           (upstream env (S (S n)) _) as [c|? ?] eqn:Ec;
    try (eexists; split; [done|]; split; [done|]; by eexists _, _, _).
  unfold mbind, M_bind, lift.
  destruct (prop a "count"); simpl;
    [eexists; split; [done|]; split;
     [intros (? & ? & [?|[?|?]]); congruence | by eexists _, _, _]|].
  destruct (prop b "count"); simpl;
    [eexists; split; [done|]; split;
     [intros (? & ? & [?|[?|?]]); congruence | by eexists _, _, _]|].
  destruct (prop c "count"); simpl;
    eexists; (split; [done|]); (split;
     [intros (? & ? & [?|[?|?]]); congruence | by eexists _, _, _]).
Qed.

Lemma recover_avatar_run (env : Env) (userId : string) (w : World) :
  exists archivedAvatarUrl,
    recover_avatar env userId w
    = (inr archivedAvatarUrl, called w [GET (avatar_url userId)])
    /\ (forall st msg,
          upstream env (length (calls w)) (GET (avatar_url userId))
          = Rejected st msg ->
          archivedAvatarUrl = VNull).
Proof.
  unfold recover_avatar, try_catch. rewrite bind_run, axios_run.
  destruct (upstream env _ _) as [d|st msg]; [|by eexists].
  unfold mbind, M_bind, lift.
  destruct (prop d "data") as [e|d0]; simpl; [by eexists|].
  destruct (truthy d0); simpl; [|by eexists].
  destruct (prop d0 "length") as [e|len]; simpl; [by eexists|].
  destruct (gt_zero len) as [e|[|]]; simpl; try (by eexists).
  destruct (item0 d0) as [e|first]; simpl; [by eexists|].
  destruct (prop first "imageUrl"); simpl; by eexists.
Qed.

Lemma new_Date_run (env : Env) (w : World) :
  new_Date env w = (inr (now env (reads w)), clock_read w).
Proof. reflexivity. Qed.

Lemma terminated_account_run (env : Env) (userId : string) (w : World) :
  unique_userId (userCache (db w)) ->
  let n := length (calls w) in
  exists previousUsernames userStats archivedAvatarUrl row w',
    terminated_account env userId w
    = (inr (Json 200
              (VObj [("source", VStr "api");
                     ("data",
                      terminated_userData userId previousUsernames userStats);
                     ("avatarUrl", archivedAvatarUrl);
                     ("isTerminated", VBool true);
                     ("stats", userStats);
                     ("previousUsernames", VArr previousUsernames)])), w')
    /\ calls w' = calls w ++ [GET (username_history_url userId);
                              GET (count_url userId "friends");
                              GET (count_url userId "followers");
                              GET (count_url userId "followings");
                              GET (avatar_url userId)]
    /\ reads w' = S (reads w)
    /\ head (select_userCache userId (db w')) = Some row
    /\ uc_userId row = userId
    /\ uc_userData row
       = jsonb (terminated_userData userId previousUsernames userStats)
    /\ uc_timestamp row = toISOString env (now env (reads w))
    /\ uc_isTerminated row = Some true
    /\ (forall a, bind_nullable_text env archivedAvatarUrl = Some a ->
        uc_avatarUrl row = a)
    /\ unique_userId (userCache (db w'))
    /\ searchHistory (db w') = searchHistory (db w)
    /\ ((exists st msg,
           upstream env n (GET (username_history_url userId)) = Rejected st msg)
        -> previousUsernames = [])
    /\ ((exists st msg,
           upstream env (S n) (GET (count_url userId "friends"))
           = Rejected st msg
           \/ upstream env (S (S n)) (GET (count_url userId "followers"))
              = Rejected st msg
           \/ upstream env (S (S (S n))) (GET (count_url userId "followings"))
              = Rejected st msg)
        -> userStats = zero_stats)
    /\ ((exists st msg,
           upstream env (S (S (S (S n)))) (GET (avatar_url userId))
           = Rejected st msg)
        -> archivedAvatarUrl = VNull)
    /\ (exists friends followers following,
          userStats = VObj [("friends", friends); ("followers", followers);
                            ("following", following)])
    /\ addUserCache
         {| iuc_userId := userId;
            iuc_userData :=
              terminated_userData userId previousUsernames userStats;
            iuc_avatarUrl := bind_nullable_text env archivedAvatarUrl;
            iuc_timestamp := Some (toISOString env (now env (reads w)));
            iuc_isTerminated := Some (Some true) |} (db w)
       = inr (Some row, db w').
Proof.
  intros Hu n. unfold terminated_account.
  destruct (recover_usernames_run env userId w) as (pu & Hru & Hpu).
  rewrite bind_run, Hru.
  destruct (recover_stats_run env userId
              (called w [GET (username_history_url userId)]))
    as (us & Hrs & Hus & Hshape).
  rewrite bind_run, Hrs.
  rewrite called_length in Hus. fold n in Hus.
  rewrite called_called in *.
  destruct (recover_avatar_run env userId
              (called w ([GET (username_history_url userId)]
                         ++ [GET (count_url userId "friends");
                             GET (count_url userId "followers");
                             GET (count_url userId "followings")])))
    as (av & Hra & Hav).
  rewrite bind_run, Hra. rewrite called_called in *.
  rewrite bind_run, new_Date_run. rewrite bind_run, storage_run.
  destruct (addUserCache_total (db w)
              {| iuc_userId := userId;
                 iuc_userData := terminated_userData userId pu us;
                 iuc_avatarUrl := bind_nullable_text env av;
                 iuc_timestamp := Some (toISOString env (now env (reads w)));
                 iuc_isTerminated := Some (Some true) |}
              (toISOString env (now env (reads w))) Hu)
    as (row & d' & Hadd & Hhead & Hid & Hdata & Hts & Havatar & Hterm
        & Hu' & Hsh); [done | done | done |].
  cbn [iuc_userId iuc_avatarUrl iuc_isTerminated] in Hhead, Hid, Havatar,
    Hterm.
  cbn [clock_read called db reads calls]. rewrite Hadd.
  exists pu, us, av, row. eexists. split; [reflexivity|].
  cbn [db calls reads]. rewrite <- !app_assoc.
  repeat split; try done.
  - by apply Hterm.
  - intros (st & msg & H). by apply (Hpu st msg).
  - intros (st & msg & H). apply Hav with st msg. cbn [called calls].
    rewrite length_app. simpl. rewrite Nat.add_comm. exact H.
Qed.

(** ** The user record resolver *)

Lemma cache_checked_db (userId : string) (w : World) :
  db (cache_checked userId w) = db w.
Proof. unfold cache_checked. by destruct (head _). Qed.

Lemma cache_checked_calls (userId : string) (w : World) :
  calls (cache_checked userId w) = calls w.
Proof. unfold cache_checked. by destruct (head _). Qed.

Lemma get_user_fresh (env : Env) (userId : string) (w : World) (c : UserCache) :
  fresh_entry env userId w = Some c ->
  get_user env userId w
  = (inr (Json 200 (cache_body c)), clock_read (looked_up w)).
Proof.
  unfold fresh_entry, get_user, try_catch.
  rewrite bind_run, storage_run. unfold getUserCache.
  destruct (head (select_userCache userId (db w))) as [c'|]; [|done].
  destruct (cache_is_valid _ _) eqn:E; [|done]. intros [= ->].
  rewrite bind_run, bind_run, new_Date_run. simpl. by rewrite E.
Qed.

Lemma get_user_past_cache (env : Env) (userId : string) (w : World) :
  fresh_entry env userId w = None ->
  get_user env userId w
  = try_catch (fetch_and_cache env userId)
      (fun e =>
         if response_status_is_400 e then terminated_account env userId
         else mret (Failure 500 "Failed to fetch user data" e))
      (cache_checked userId w).
Proof.
  unfold fresh_entry, get_user, cache_checked, try_catch.
  rewrite bind_run, storage_run. unfold getUserCache.
  destruct (head (select_userCache userId (db w))) as [c'|]; [|done].
  destruct (cache_is_valid _ _) eqn:E; [done|]. intros _.
  rewrite bind_run, bind_run, new_Date_run. simpl. by rewrite E.
Qed.

Lemma fetch_and_cache_rejected (env : Env) (userId : string) (w : World)
    (st : option Z) (msg : string) :
  upstream env (length (calls w)) (GET (users_url userId)) = Rejected st msg ->
  fetch_and_cache env userId w
  = (inl (AxiosError st msg), called w [GET (users_url userId)]).
Proof.
  intros H. unfold fetch_and_cache. by rewrite bind_run, axios_run, H.
Qed.

Lemma fetch_and_cache_invalid (env : Env) (userId : string) (w : World)
    (d : value) :
  upstream env (length (calls w)) (GET (users_url userId)) = Fulfilled d ->
  robloxUserSchema d = None ->
  fetch_and_cache env userId w
  = (inl ZodError, called w [GET (users_url userId)]).
Proof.
  intros H Hd. unfold fetch_and_cache.
  rewrite bind_run, axios_run, H, bind_run. unfold parse. by rewrite Hd.
Qed.

Lemma fetch_avatar_run (env : Env) (userId : string) (w : World) :
  exists avatarUrl : option string,
    fetch_avatar env userId w
    = (inr avatarUrl, called w [GET (avatar_url userId)]).
Proof.
  unfold fetch_avatar, try_catch. rewrite bind_run, axios_run.
  destruct (upstream env _ _) as [d|st msg]; [|by eexists].
  rewrite bind_run. unfold parse.
  destruct (robloxAvatarSchema d); simpl; by eexists.
Qed.

Lemma fetch_and_cache_valid (env : Env) (userId : string) (w : World)
    (d : value) (u : RobloxUser) :
  upstream env (length (calls w)) (GET (users_url userId)) = Fulfilled d ->
  robloxUserSchema d = Some u ->
  exists avatarUrl : option string,
    let cache :=
      {| iuc_userId := userId;
         iuc_userData := RobloxUser_value u;
         iuc_avatarUrl := Some avatarUrl;
         iuc_timestamp := Some (toISOString env (now env (reads w)));
         iuc_isTerminated := Some (Some (isBanned u || false)) |} in
    let requests := [GET (users_url userId); GET (avatar_url userId)] in
    fetch_and_cache env userId w
    = match addUserCache cache (db w) with
      | inr (_, d') =>
          (inr (Json 200
                  (VObj [("source", VStr "api");
                         ("data", RobloxUser_value u);
                         ("avatarUrl", nullable VStr avatarUrl);
                         ("isTerminated", VBool (isBanned u || false))])),
           {| db := d'; calls := calls w ++ requests; reads := S (reads w);
              journal := (journal w ++ (Upstream <$> requests))
                         ++ [Database d'] |})
      | inl e => (inl (DbError e), clock_read (called w requests))
      end.
Proof.
  intros H Hd. unfold fetch_and_cache.
  rewrite bind_run, axios_run, H, bind_run. unfold parse. rewrite Hd.
  destruct (fetch_avatar_run env userId (called w [GET (users_url userId)]))
    as (avatarUrl & Hav).
  exists avatarUrl. cbv zeta. unfold mret at 1, M_ret at 1. cbv iota beta.
  rewrite bind_run, Hav, called_called, bind_run, new_Date_run.
  rewrite bind_run, storage_run. simpl.
  destruct (addUserCache _ (db w)) as [e|[r d']]; done.
Qed.

(** C3: whenever the cache holds a record of the user whose timestamp is
    less than one hour before the clock reading, [GET /api/users/:userId]
    answers with [source = "cache"] and the stored profile, avatar URL and
    terminated flag as they are in the record; no upstream request is
    issued and the database is left as it was. *)
Theorem cache_hit_served_verbatim (env : Env) (userId : string) (w : World)
    (c : UserCache) (t : Z) :
  getUserCache userId (db w) = inr (Some c, db w) ->
  getTime env (uc_timestamp c) = Num t ->
  now env (reads w) - t < 3600000 ->
  exists w',
    get_user env userId w
    = (inr (Json 200
              (VObj [("source", VStr "cache");
                     ("data", uc_userData c);
                     ("avatarUrl",
                      match uc_avatarUrl c with
                      | Some url => VStr url
                      | None => VNull
                      end);
                     ("isTerminated",
                      match uc_isTerminated c with
                      | Some b => VBool b
                      | None => VNull
                      end)])), w')
    /\ db w' = db w
    /\ calls w' = calls w.
Proof.
  intros Hc Ht Hfresh. exists (clock_read (looked_up w)).
  split; [|done].
  rewrite (get_user_fresh env userId w c); [done|].
  unfold fresh_entry. unfold getUserCache in Hc.
  injection Hc as ->. rewrite Ht. simpl.
  destruct (now env (reads w) - t <? 3600000) eqn:E; [done|lia].
Qed.

Lemma not_400 (st : option Z) (msg : string) :
  st <> Some 400 -> response_status_is_400 (AxiosError st msg) = false.
Proof.
  intros H. destruct st as [z|]; [|done]. simpl.
  destruct (z =? 400) eqn:E; [|done].
  apply Z.eqb_eq in E. by subst.
Qed.

(** C5: past the cache, if the primary fetch is rejected with anything but
    status 400, or is fulfilled with a document that [robloxUserSchema]
    rejects, the answer is 500 with [error = "Failed to fetch user data"]
    and the caught error as details, and the database is left as it was.
    On the path where the primary fetch is fulfilled, the database changes
    only if the document was validated, and the change is the upsert of the
    validated profile. *)
Theorem fatal_failure_no_cache_write (env : Env) (userId : string) (w : World) :
  fresh_entry env userId w = None ->
  let primary := upstream env (length (calls w)) (GET (users_url userId)) in
  (forall st msg,
      primary = Rejected st msg -> st <> Some 400 ->
      exists w',
        get_user env userId w
        = (inr (Failure 500 "Failed to fetch user data" (AxiosError st msg)),
           w')
        /\ db w' = db w)
  /\ (forall d,
        primary = Fulfilled d -> robloxUserSchema d = None ->
        exists w',
          get_user env userId w
          = (inr (Failure 500 "Failed to fetch user data" ZodError), w')
          /\ db w' = db w)
  /\ (forall d r w',
        primary = Fulfilled d ->
        get_user env userId w = (r, w') ->
        db w' <> db w ->
        exists u avatarUrl cache row,
          robloxUserSchema d = Some u
          /\ iuc_userId cache = userId
          /\ iuc_userData cache = RobloxUser_value u
          /\ addUserCache cache (db w) = inr (row, db w')
          /\ r = inr (Json 200
                        (VObj [("source", VStr "api");
                               ("data", RobloxUser_value u);
                               ("avatarUrl", nullable VStr avatarUrl);
                               ("isTerminated",
                                VBool (isBanned u || false))]))).
Proof.
  intros Hstale primary. subst primary.
  rewrite (get_user_past_cache env userId w Hstale). unfold try_catch.
  rewrite <- (cache_checked_calls userId w).
  split; [|split].
  - intros st msg Hp Hst.
    rewrite (fetch_and_cache_rejected _ _ _ _ _ Hp), (not_400 _ _ Hst).
    eexists. split; [reflexivity|]. simpl. apply cache_checked_db.
  - intros d Hp Hd.
    rewrite (fetch_and_cache_invalid _ _ _ _ Hp Hd). simpl.
    eexists. split; [reflexivity|]. simpl. apply cache_checked_db.
  - intros d r w' Hp Hrun Hchanged.
    destruct (robloxUserSchema d) as [u|] eqn:Hd.
    + destruct (fetch_and_cache_valid _ _ _ _ _ Hp Hd) as (avatarUrl & Hfc).
      cbv zeta in Hfc. rewrite Hfc in Hrun.
      rewrite cache_checked_db in Hrun.
      destruct (addUserCache _ (db w)) as [e|[row d']] eqn:Hadd.
      * simpl in Hrun. injection Hrun as <- <-.
        destruct Hchanged. simpl. apply cache_checked_db.
      * injection Hrun as <- <-.
        eexists u, avatarUrl, _, row. split; [done|].
        split; [|split; [|split; [exact Hadd|done]]]; done.
    + rewrite (fetch_and_cache_invalid _ _ _ _ Hp Hd) in Hrun.
      simpl in Hrun. injection Hrun as <- <-.
      destruct Hchanged. simpl. apply cache_checked_db.
Qed.

(** The document the cache keeps of the profile synthesized when every
    recovery failed. *)
Lemma terminated_document_bare (userId : string) :
  jsonb (terminated_userData userId [] zero_stats)
  = VObj [("id", match parseInt userId with
                 | Num z => VNum (Num z)
                 | NaN => VNull
                 end);
          ("name", VStr "Terminated Account");
          ("stats", zero_stats);
          ("isBanned", VBool true);
          ("description",
           VStr "This account has been terminated for violating Roblox Terms of Service.");
          ("displayName", VStr "Terminated Account");
          ("previousUsernames", VArr [])].
Proof.
  unfold terminated_userData. by destruct (parseInt userId); vm_compute.
Qed.

(** C2: if the primary fetch is rejected with status 400 and then the
    username-history request, one of the three count requests and the
    avatar request are rejected, [GET /api/users/:userId] answers 200 with
    [source = "api"], the synthesized profile ([isBanned = true], name
    "Terminated Account", no previous usernames, all-zero stats), a null
    avatar URL and [isTerminated = true]; and that profile is upserted
    into the cache with a null avatar URL and the terminated flag set: the
    record of the user then holds the JSON document of the profile, the
    same fields in the key order of the column, with [id] null where
    [parseInt(userId)] is [NaN]. *)
Theorem terminated_all_recoveries_fail (env : Env) (userId : string)
    (w : World) :
  unique_userId (userCache (db w)) ->
  fresh_entry env userId w = None ->
  let n := length (calls w) in
  (exists msg,
      upstream env n (GET (users_url userId)) = Rejected (Some 400) msg) ->
  (exists st msg,
      upstream env (S n) (GET (username_history_url userId))
      = Rejected st msg) ->
  (exists st msg,
      upstream env (S (S n)) (GET (count_url userId "friends"))
      = Rejected st msg
      \/ upstream env (S (S (S n))) (GET (count_url userId "followers"))
         = Rejected st msg
      \/ upstream env (S (S (S (S n)))) (GET (count_url userId "followings"))
         = Rejected st msg) ->
  (exists st msg,
      upstream env (S (S (S (S (S n))))) (GET (avatar_url userId))
      = Rejected st msg) ->
  let no_stats :=
    VObj [("friends", VNum (Num 0)); ("followers", VNum (Num 0));
          ("following", VNum (Num 0))] in
  let notice :=
    VStr "This account has been terminated for violating Roblox Terms of Service." in
  let profile :=
    VObj [("id", VNum (parseInt userId));
          ("name", VStr "Terminated Account");
          ("displayName", VStr "Terminated Account");
          ("description", notice);
          ("isBanned", VBool true);
          ("previousUsernames", VArr []);
          ("stats", no_stats)] in
  exists row w' cache,
    get_user env userId w
    = (inr (Json 200
              (VObj [("source", VStr "api");
                     ("data", profile);
                     ("avatarUrl", VNull);
                     ("isTerminated", VBool true);
                     ("stats", no_stats);
                     ("previousUsernames", VArr [])])), w')
    /\ iuc_userId cache = userId
    /\ iuc_userData cache = profile
    /\ iuc_avatarUrl cache = Some None
    /\ iuc_isTerminated cache = Some (Some true)
    /\ addUserCache cache (db w) = inr (Some row, db w')
    /\ getUserCache userId (db w') = inr (Some row, db w')
    /\ uc_userId row = userId
    /\ uc_userData row
       = VObj [("id", match parseInt userId with
                      | Num z => VNum (Num z)
                      | NaN => VNull
                      end);
               ("name", VStr "Terminated Account");
               ("stats", no_stats);
               ("isBanned", VBool true);
               ("description", notice);
               ("displayName", VStr "Terminated Account");
               ("previousUsernames", VArr [])]
    /\ uc_avatarUrl row = None
    /\ uc_isTerminated row = Some true
    /\ unique_userId (userCache (db w')).
Proof.
  intros Hu Hstale n (msg & Hp) Hhist Hstats Havatar no_stats notice profile.
  rewrite (get_user_past_cache env userId w Hstale). unfold try_catch.
  assert (Hn : length (calls (cache_checked userId w)) = n)
    by (by rewrite cache_checked_calls).
  rewrite <- Hn in Hp.
  rewrite (fetch_and_cache_rejected _ _ _ _ _ Hp). simpl.
  destruct (terminated_account_run env userId
              (called (cache_checked userId w) [GET (users_url userId)]))
    as (pu & us & av & row & w' & Hrun & _ & _ & Hhead & Hid & Hdata & _
        & Hterm & Hav & Hu' & _ & Hpu & Hus & Hav0 & _ & Hadd).
  { simpl. by rewrite cache_checked_db. }
  rewrite called_length, Hn in Hpu, Hus, Hav0.
  rewrite (Hpu Hhist) in *. rewrite (Hus Hstats) in *.
  rewrite (Hav0 Havatar) in *.
  rewrite terminated_document_bare in Hdata.
  cbn [called db] in Hadd. rewrite cache_checked_db in Hadd.
  exists row, w'. eexists. split; [exact Hrun|].
  split; [|split; [|split; [|split; [|split; [exact Hadd|]]]]];
    try reflexivity.
  split; [unfold getUserCache; by rewrite Hhead|].
  repeat split; try done.
  by apply Hav.
Qed.

(** ** The synthesized record *)




(** The column's reading of an object and of an array. *)
Lemma jsonb_object (props : list (string * value)) :
  jsonb (VObj props)
  = VObj (jsonb_props ((fun kv => (kv.1, jsonb kv.2)) <$> props)).
Proof.
  cbn [jsonb]. do 2 f_equal.
  induction props as [|[k x] rest IH]; [done|].
  cbn [fmap list_fmap fst snd]. f_equal. exact IH.
Qed.



Lemma get_user_terminated (env : Env) (userId : string) (w : World) :
  unique_userId (userCache (db w)) ->
  fresh_entry env userId w = None ->
  (exists msg,
      upstream env (length (calls w)) (GET (users_url userId))
      = Rejected (Some 400) msg) ->
  exists previousUsernames userStats archivedAvatarUrl row w',
    get_user env userId w
    = (inr (Json 200
              (VObj [("source", VStr "api");
                     ("data",
                      terminated_userData userId previousUsernames userStats);
                     ("avatarUrl", archivedAvatarUrl);
                     ("isTerminated", VBool true);
                     ("stats", userStats);
                     ("previousUsernames", VArr previousUsernames)])), w')
    /\ reads w' = S (reads (cache_checked userId w))
    /\ head (select_userCache userId (db w')) = Some row
    /\ uc_userData row
       = jsonb (terminated_userData userId previousUsernames userStats)
    /\ uc_timestamp row
       = toISOString env (now env (reads (cache_checked userId w)))
    /\ uc_isTerminated row = Some true
    /\ (forall a, bind_nullable_text env archivedAvatarUrl = Some a ->
        uc_avatarUrl row = a)
    /\ unique_userId (userCache (db w'))
    /\ (exists friends followers following,
          userStats = VObj [("friends", friends); ("followers", followers);
                            ("following", following)]).
Proof.
  intros Hu Hstale (msg & Hp).
  rewrite (get_user_past_cache env userId w Hstale). unfold try_catch.
  rewrite <- (cache_checked_calls userId w) in Hp.
  rewrite (fetch_and_cache_rejected _ _ _ _ _ Hp). simpl.
  destruct (terminated_account_run env userId
              (called (cache_checked userId w) [GET (users_url userId)]))
    as (pu & us & av & row & w' & Hrun & _ & Hreads & Hhead & _ & Hdata & Hts
        & Hterm & Hav & Hu' & _ & _ & _ & _ & Hshape & _).
  { simpl. by rewrite cache_checked_db. }
  exists pu, us, av, row, w'. done.
Qed.


(** C10: a response served from the cache has exactly the fields [source],
    [data], [avatarUrl] and [isTerminated].  The response of the
    terminated-account path has [stats] and [previousUsernames] besides;
    so when a terminated account is resolved and resolved again while the
    record just written is less than an hour old, the second response is
    served from the cache, with the JSON document of the profile first
    returned as its [data] and without those two fields. *)
Theorem cache_response_shape (env : Env) (userId : string) (w : World) :
  (forall c,
      fresh_entry env userId w = Some c ->
      exists resp w',
        get_user env userId w = (inr resp, w')
        /\ response_keys resp = ["source"; "data"; "avatarUrl"; "isTerminated"])
  /\ (unique_userId (userCache (db w)) ->
      fresh_entry env userId w = None ->
      (exists msg,
          upstream env (length (calls w)) (GET (users_url userId))
          = Rejected (Some 400) msg) ->
      let written := now env (reads (cache_checked userId w)) in
      getTime env (toISOString env written) = Num written ->
      now env (S (reads (cache_checked userId w))) - written < 3600000 ->
      exists body1 body2 w1 w2 data1,
        get_user env userId w = (inr (Json 200 body1), w1)
        /\ get_user env userId w1 = (inr (Json 200 body2), w2)
        /\ keys body1 = ["source"; "data"; "avatarUrl"; "isTerminated";
                         "stats"; "previousUsernames"]
        /\ keys body2 = ["source"; "data"; "avatarUrl"; "isTerminated"]
        /\ prop body2 "source" = inr (VStr "cache")
        /\ prop body1 "data" = inr data1
        /\ prop body2 "data" = inr (jsonb data1)
        /\ prop body2 "isTerminated" = prop body1 "isTerminated"
        /\ calls w2 = calls w1).
Proof.
  split.
  - intros c Hc. rewrite (get_user_fresh env userId w c Hc).
    by eexists _, _.
  - intros Hu Hstale Hp written Hparse Hfresh.
    destruct (get_user_terminated env userId w Hu Hstale Hp)
      as (pu & us & av & row & w1 & Hrun & Hreads & Hhead & Hdata & Hts
          & Hterm & _).
    assert (Hc : fresh_entry env userId w1 = Some row).
    { unfold fresh_entry. rewrite Hhead, Hts, Hreads. fold written.
      rewrite Hparse. simpl.
      destruct (_ <? 3600000) eqn:E; [done|lia]. }
    eexists _, _, w1, _, _. split; [exact Hrun|].
    split; [exact (get_user_fresh env userId w1 row Hc)|].
    split; [done|]. split; [done|]. split; [done|].
    split; [reflexivity|].
    split; [cbn [cache_body prop]; simpl; by rewrite Hdata|].
    split; [simpl; by rewrite Hterm|]. done.
Qed.

(** ** The username resolver *)

(** C1, as amended: for every call with a non-empty username, an entry
    tagged [success = true] is appended before the upstream lookup is
    issued.  If the lookup is rejected, the call answers 500 and a second
    entry, tagged [success = false], is appended after the lookup, so two
    entries are appended; if the lookup returns a match with an id, the
    call answers 200 and the first entry is the only one appended.  A 200
    never comes with a second entry, a 500 always does. *)
Theorem post_by_username_history (env : Env) (username : value) (w : World) :
  truthy username = true ->
  let request :=
    POST usernames_url
      (VObj [("usernames", VArr [username]);
             ("excludeBannedUsers", VBool false)]) in
  let lookup := upstream env (length (calls w)) request in
  exists first rest resp w' d1,
    post_by_username env username w = (inr resp, w')
    /\ searchHistory (db w') = searchHistory (db w) ++ first :: rest
    /\ sh_query first = bind_text env username
    /\ sh_type first = "username"
    /\ sh_timestamp first = toISOString env (now env (reads w))
    /\ sh_success first = true
    /\ searchHistory d1 = searchHistory (db w) ++ [first]
    /\ journal w'
       = journal w
         ++ Database d1 :: Upstream request
            :: match rest with
               | [] => []
               | _ :: _ => [Database (db w')]
               end
    /\ calls w' = calls w ++ [request]
    /\ (forall st msg,
          lookup = Rejected st msg ->
          resp = Failure 500 "Failed to fetch user ID" (AxiosError st msg))
    /\ (forall d m matches i userId,
          lookup = Fulfilled d ->
          prop d "data" = inr (VArr (m :: matches)) ->
          prop m "id" = inr i -> toString i = inr userId ->
          resp = Json 200 (VObj [("userId", VStr userId)]))
    /\ (forall body, resp = Json 200 body -> rest = [])
    /\ (forall st title cause,
          resp = Failure st title cause ->
          exists second,
            rest = [second]
            /\ sh_query second = bind_text env username
            /\ sh_type second = "username"
            /\ sh_success second = false).
Proof.
  intros Ht request lookup. unfold post_by_username. rewrite Ht. cbn [negb].
  unfold try_catch.
  rewrite bind_run, new_Date_run, bind_run, storage_run. cbn [addSearchHistory].
  cbv iota beta. rewrite bind_run, axios_run. cbn [calls clock_read].
  fold request. fold lookup.
  destruct lookup as [d|st msg] eqn:El.
  - unfold mbind, M_bind, lift.
    destruct (prop d "data") as [e|dd] eqn:Edata; simpl.
    { eexists _, _, _, _, _. split; [reflexivity|]. simpl.
      rewrite <- !app_assoc. simpl.
      settle. }
    destruct (prop dd "length") as [e|len] eqn:Elen; simpl.
    { eexists _, _, _, _, _. split; [reflexivity|]. simpl.
      rewrite <- !app_assoc. simpl.
      settle. }
    destruct (is_zero len) eqn:Ez; simpl.
    { eexists _, [], _, _, _. split; [reflexivity|]. simpl.
      rewrite <- !app_assoc. simpl.
      settle. }
    destruct (item0 dd) as [e|x] eqn:Ex; simpl.
    { eexists _, _, _, _, _. split; [reflexivity|]. simpl.
      rewrite <- !app_assoc. simpl.
      settle. }
    destruct (prop x "id") as [e|i] eqn:Ei; simpl.
    { eexists _, _, _, _, _. split; [reflexivity|]. simpl.
      rewrite <- !app_assoc. simpl.
      settle. }
    destruct (toString i) as [e|uid] eqn:Eu; simpl.
    { eexists _, _, _, _, _. split; [reflexivity|]. simpl.
      rewrite <- !app_assoc. simpl.
      settle. }
    eexists _, [], _, _, _. split; [reflexivity|]. simpl.
    rewrite <- !app_assoc. simpl.
    settle.
  - simpl. eexists _, _, _, _, _. split; [reflexivity|]. simpl.
    rewrite <- !app_assoc. simpl.
    settle.
Qed.

(** * Instances *)

Import Samples.

(** [getRecentSearches(2)] on three searches inserted out of order. *)
Example getRecentSearches_two_of_three :
  exists first second,
    getRecentSearches (Some (Num 2)) three_searches
    = inr ([first; second], three_searches)
    /\ sh_query first = "c" /\ sh_query second = "b".
Proof. eexists _, _. vm_compute. done. Qed.

(** C8 as stated fails: with the limit [-1], or with [?limit=abc], the
    three searches of the table all come back. *)
Lemma getRecentSearches_limit_counterexample :
  (exists rows,
      getRecentSearches (Some (Num (-1))) three_searches
      = inr (rows, three_searches)
      /\ length rows = 3%nat
      /\ ~ Z.of_nat (length rows) <= -1)
  /\ (exists rows w',
        get_search_history (Some "-1") (world_of three_searches)
        = (inr (Json 200 (VArr rows)), w')
        /\ length rows = 3%nat)
  /\ (exists rows w',
        parseInt "abc" = NaN
        /\ get_search_history (Some "abc") (world_of three_searches)
           = (inr (Json 200 (VArr rows)), w')
        /\ length rows = 3%nat).
Proof.
  split; [|split].
  - eexists. split; [vm_compute; reflexivity|].
    split; [reflexivity|]. cbn [length]. lia.
  - eexists _, _. split; vm_compute; reflexivity.
  - eexists _, _. split; [reflexivity|]. split; vm_compute; reflexivity.
Qed.

Lemma one_cached_unique : unique_userId (userCache one_cached).
Proof. apply NoDup_singleton. Qed.

(** Upserting [{userId, avatarUrl}] over a cached profile keeps the
    profile. *)
Lemma upsert_merges_or_refuses_witness :
  unique_userId (userCache one_cached)
  /\ exists new d',
       updateUserCache "1" avatar_only one_cached = inr (Some new, d')
       /\ uc_userData new = uc_userData cached_row
       /\ uc_avatarUrl new = Some "https://tr.rbxcdn.com/new.png"
       /\ length (userCache d') = 1%nat.
Proof.
  split; [exact one_cached_unique|].
  destruct (upsert_merges_or_refuses one_cached one_cached_unique)
    as [Hupdate _].
  destruct (Hupdate cached_row avatar_only) as (_ & _ & Hmerge).
  - left.
  - right. reflexivity.
  - destruct Hmerge
      as (new & l1 & l2 & d' & Hrun & Hold & Hnew & _ & _ & _ & Hdata
          & Havatar & _).
    + reflexivity.
    + discriminate.
    + exists new, d'. split; [exact Hrun|].
      split; [exact Hdata|]. split; [exact Havatar|].
      apply (f_equal length) in Hold.
      rewrite Hnew, length_app in *. cbn [length] in *.
      change (length (userCache one_cached)) with 1%nat in Hold.
      symmetry. exact Hold.
Defined.

(** C4 as stated fails: the upsert of [{userId, avatarUrl}] for a user
    without a record inserts nothing. *)
Lemma upsert_avatar_only_counterexample :
  (forall r, r ∈ userCache one_cached ->
             uc_userId r <> iuc_userId avatar_of_stranger)
  /\ addUserCache avatar_of_stranger one_cached
     = inl (NotNullViolation "user_data")
  /\ ~ (exists row d',
          addUserCache avatar_of_stranger one_cached = inr (row, d')).
Proof.
  split; [|split].
  - intros r Hr. apply list_elem_of_singleton in Hr. by subst r.
  - reflexivity.
  - intros (row & d' & H). discriminate H.
Qed.

(** The smallest document the schema accepts. *)
Lemma robloxUserSchema_fails_closed_fills_defaults_witness :
  let v := VObj [("id", VNum (Num 1)); ("name", VStr "Roblox")] in
  robloxUserSchema v
  = Some {| id := 1; name := "Roblox"; displayName := None;
            description := EmptyString;
            created := None; isBanned := false;
            externalAppDisplayName := None; hasVerifiedBadge := false;
            previousUsernames := None; stats := None |}
  /\ robloxUserSchema (VObj [("name", VStr "Roblox")]) = None.
Proof.
  intros v. split.
  - destruct (robloxUserSchema_fails_closed_fills_defaults v)
      as (_ & _ & _ & Hok).
    apply (Hok [("id", VNum (Num 1)); ("name", VStr "Roblox")] 1 "Roblox");
      try reflexivity.
    intros k Hk.
    repeat (apply elem_of_cons in Hk as [->|Hk]; [reflexivity|]).
    by apply elem_of_nil in Hk.
  - destruct (robloxUserSchema_fails_closed_fills_defaults
                (VObj [("name", VStr "Roblox")])) as (_ & Hbad & _).
    apply (Hbad [("name", VStr "Roblox")]); [reflexivity|].
    left. intros z. discriminate.
Defined.

(** One of three counts missing: the whole answer is the sentinel. *)
Example get_stats_partial_failure :
  let answer n (r : request) :=
    match n with
    | O => Rejected (Some 500) "Request failed with status code 500"
    | _ => Fulfilled (VObj [("count", VInt 7)])
    end in
  fst (get_stats (env_with answer) "1" start)
  = inr (Json 200 (VObj [("friends", VStr "N/A"); ("followers", VStr "N/A");
                         ("following", VStr "N/A")])).
Proof. reflexivity. Qed.

(** A profile cached a second ago is served from the cache. *)
Lemma cache_hit_served_verbatim_witness :
  let w := world_of one_cached in
  getUserCache "1" (db w) = inr (Some cached_row, db w)
  /\ getTime env_unreachable (uc_timestamp cached_row) = Num (clock 0)
  /\ now env_unreachable (reads w) - clock 0 < 3600000
  /\ exists w',
       get_user env_unreachable "1" w
       = (inr (Json 200 (cache_body cached_row)), w')
       /\ calls w' = [].
Proof.
  intros w.
  assert (H1 : getUserCache "1" (db w) = inr (Some cached_row, db w))
    by reflexivity.
  assert (H2 : getTime env_unreachable (uc_timestamp cached_row)
               = Num (clock 0)) by (vm_compute; reflexivity).
  assert (H3 : now env_unreachable (reads w) - clock 0 < 3600000)
    by (vm_compute; reflexivity).
  split; [exact H1|]. split; [exact H2|]. split; [exact H3|].
  destruct (cache_hit_served_verbatim env_unreachable "1" w cached_row
              (clock 0) H1 H2 H3) as (w' & Hrun & _ & Hcalls).
  exists w'. split; [exact Hrun|exact Hcalls].
Defined.

(** With the upstream unreachable and nothing cached, the resolution
    fails and nothing is written. *)
Lemma fatal_failure_no_cache_write_witness :
  fresh_entry env_unreachable "1" start = None
  /\ exists w',
       get_user env_unreachable "1" start
       = (inr (Failure 500 "Failed to fetch user data"
                 (AxiosError None "Network Error")), w')
       /\ db w' = db start.
Proof.
  assert (H : fresh_entry env_unreachable "1" start = None) by reflexivity.
  split; [exact H|].
  destruct (fatal_failure_no_cache_write env_unreachable "1" start H)
    as (Hrejected & _).
  apply (Hrejected None "Network Error"); [reflexivity|discriminate].
Defined.

(** The scenario of the specification: user 999 is terminated and every
    recovery is turned down. *)
Lemma terminated_all_recoveries_fail_witness :
  unique_userId (userCache (db start))
  /\ fresh_entry env_bad_request "999" start = None
  /\ exists row w',
       fst (get_user env_bad_request "999" start)
       = inr (Json 200
                (VObj [("source", VStr "api");
                       ("data", terminated_userData "999" [] zero_stats);
                       ("avatarUrl", VNull);
                       ("isTerminated", VBool true);
                       ("stats", zero_stats);
                       ("previousUsernames", VArr [])]))
       /\ snd (get_user env_bad_request "999" start) = w'
       /\ getUserCache "999" (db w') = inr (Some row, db w')
       /\ prop (uc_userData row) "id" = inr (VNum (Num 999))
       /\ prop (uc_userData row) "isBanned" = inr (VBool true)
       /\ uc_isTerminated row = Some true.
Proof.
  assert (H1 : unique_userId (userCache (db start))) by apply NoDup_nil_2.
  assert (H2 : fresh_entry env_bad_request "999" start = None) by reflexivity.
  split; [exact H1|]. split; [exact H2|].
  destruct (terminated_all_recoveries_fail env_bad_request "999" start H1 H2)
    as (row & w' & cache & Hrun & _ & _ & _ & _ & _ & Hget & _ & Hdata & _
        & Hterm & _).
  - by eexists.
  - by eexists _, _.
  - eexists _, _. left. reflexivity.
  - by eexists _, _.
  - exists row, w'. rewrite Hrun, Hdata. cbn [fst snd].
    split; [reflexivity|]. split; [reflexivity|].
    split; [exact Hget|]. split; [reflexivity|].
    split; [reflexivity|exact Hterm].
Defined.



(** A terminated account resolved twice, a second apart. *)
Lemma cache_response_shape_witness :
  unique_userId (userCache (db start))
  /\ fresh_entry env_bad_request "999" start = None
  /\ exists body1 body2 w1 w2,
       get_user env_bad_request "999" start = (inr (Json 200 body1), w1)
       /\ get_user env_bad_request "999" w1 = (inr (Json 200 body2), w2)
       /\ keys body1 = ["source"; "data"; "avatarUrl"; "isTerminated";
                        "stats"; "previousUsernames"]
       /\ keys body2 = ["source"; "data"; "avatarUrl"; "isTerminated"].
Proof.
  assert (H1 : unique_userId (userCache (db start))) by apply NoDup_nil_2.
  assert (H2 : fresh_entry env_bad_request "999" start = None) by reflexivity.
  split; [exact H1|]. split; [exact H2|].
  destruct (cache_response_shape env_bad_request "999" start) as [_ Htwice].
  destruct (Htwice H1 H2)
    as (body1 & body2 & w1 & w2 & data1 & Hrun1 & Hrun2 & Hk1 & Hk2 & _).
  - by eexists.
  - vm_compute. reflexivity.
  - vm_compute. reflexivity.
  - exists body1, body2, w1, w2. done.
Defined.

(** The profile a terminated account with a name for an id is given, and
    the one the cache then serves. *)
Example terminated_then_cached :
  let '(r1, w1) := get_user env_bad_request "builderman" start in
  let '(r2, w2) := get_user env_bad_request "builderman" w1 in
  exists body1 body2 data1 data2,
    r1 = inr (Json 200 body1) /\ r2 = inr (Json 200 body2)
    /\ prop body1 "data" = inr data1 /\ prop body2 "data" = inr data2
    /\ keys data1 = ["id"; "name"; "displayName"; "description"; "isBanned";
                     "previousUsernames"; "stats"]
    /\ keys data2 = ["id"; "name"; "stats"; "isBanned"; "description";
                     "displayName"; "previousUsernames"]
    /\ prop data1 "id" = inr (VNum NaN)
    /\ prop data2 "id" = inr VNull.
Proof. vm_compute. eexists _, _, _, _. done. Qed.

(** The scenario of the specification: ["robloxuser123"] resolves to
    ["456"] and one entry, tagged as a success, is appended. *)
Lemma post_by_username_history_witness :
  truthy (VStr "robloxuser123") = true
  /\ exists first w',
       post_by_username env_found (VStr "robloxuser123") start
       = (inr (Json 200 (VObj [("userId", VStr "456")])), w')
       /\ searchHistory (db w') = [first]
       /\ sh_success first = true.
Proof.
  assert (H : truthy (VStr "robloxuser123") = true) by reflexivity.
  split; [exact H|].
  destruct (post_by_username_history env_found (VStr "robloxuser123") start H)
    as (first & rest & resp & w' & d1 & Hrun & Hhist & _ & _ & _ & Hsuccess
        & _ & _ & _ & _ & Hfound & Hok & _).
  assert (Hresp : resp = Json 200 (VObj [("userId", VStr "456")])).
  { eapply Hfound; reflexivity. }
  exists first, w'. rewrite Hrun, Hresp. split; [reflexivity|].
  rewrite Hhist, (Hok _ Hresp). split; [reflexivity|exact Hsuccess].
Defined.

Example username_resolution_scenario :
  let '(r, w') := post_by_username env_found (VStr "robloxuser123") start in
  r = inr (Json 200 (VObj [("userId", VStr "456")]))
  /\ (sh_success <$> searchHistory (db w')) = [true]
  /\ getRecentSearches (Some (Num 1)) (db w')
     = inr (searchHistory (db w'), db w').
Proof. vm_compute. done. Qed.

(** C1 as stated fails: when the lookup is rejected, two entries are
    appended, the first tagged as a success; the first is in the table
    when the lookup is issued, the second is written after it. *)
Lemma post_by_username_counterexample :
  let w' := snd (post_by_username env_unreachable (VStr "robloxuser123") start) in
  truthy (VStr "robloxuser123") = true
  /\ sh_success <$> searchHistory (db w') = [true; false]
  /\ ~ (exists e, searchHistory (db w') = searchHistory (db start) ++ [e])
  /\ (exists d1 request,
        journal w' = [Database d1; Upstream request; Database (db w')]
        /\ sh_success <$> searchHistory d1 = [true]).
Proof.
  split; [reflexivity|]. split; [vm_compute; reflexivity|].
  split.
  - intros [e He]. vm_compute in He. discriminate He.
  - eexists _, _. split; vm_compute; reflexivity.
Qed.

(** What the code does when the lookup finds nobody: the answer is 404
    and the entry written before the lookup stays as it is. *)
Example post_by_username_no_match :
  let '(r, w') := post_by_username env_no_match (VStr "nobody") start in
  r = inr (Json 404 (VObj [("error", VStr "User not found")]))
  /\ sh_success <$> searchHistory (db w') = [true].
Proof. vm_compute. done. Qed.
(** * Further properties *)

Import More.

(** ** The search history, continued *)

Lemma head_of_sorted (l : list SearchHistory) (h : SearchHistory)
    (rest : list SearchHistory) :
  merge_sort desc_timestamp l = h :: rest ->
  h ∈ l /\ forall r, r ∈ l -> desc_timestamp h r.
Proof.
  intros Hs.
  assert (Hsorted : StronglySorted desc_timestamp (h :: rest)).
  { rewrite <- Hs. apply StronglySorted_merge_sort; apply _. }
  assert (Hperm : h :: rest ≡ₚ l)
    by (rewrite <- Hs; apply merge_sort_Permutation).
  split.
  - rewrite <- Hperm. left.
  - intros r Hr. rewrite <- Hperm in Hr.
    apply StronglySorted_inv in Hsorted as [_ Hall].
    apply elem_of_cons in Hr as [->|Hr].
    + unfold desc_timestamp. destruct (text_le_total (sh_timestamp h)
                                         (sh_timestamp h)); done.
    + rewrite Forall_forall in Hall. by apply Hall.
Qed.

(** X1: [addSearchHistory] appends one row at the end of the log and
    leaves the rows before it as they were; an omitted [success] is stored
    as true.  If the timestamp of the new row is later than every stored
    one, [getRecentSearches(1)] then returns exactly that row. *)
Theorem addSearchHistory_then_recent (search : InsertSearchHistory)
    (d : Db) :
  (forall r, r ∈ searchHistory d ->
             text_le (sh_timestamp r) (ish_timestamp search)
             /\ sh_timestamp r <> ish_timestamp search) ->
  exists row d',
    addSearchHistory search d = inr (row, d')
    /\ searchHistory d' = searchHistory d ++ [row]
    /\ userCache d' = userCache d
    /\ sh_query row = ish_query search
    /\ sh_timestamp row = ish_timestamp search
    /\ sh_success row = default true (ish_success search)
    /\ getRecentSearches (Some (Num 1)) d' = inr ([row], d').
Proof.
  intros Hlater. eexists _, _. split; [reflexivity|]. simpl.
  repeat split.
  set (row := {| sh_id := searchHistory_seq d + 1;
                 sh_query := ish_query search;
                 sh_type := ish_type search;
                 sh_timestamp := ish_timestamp search;
                 sh_success := default true (ish_success search) |}).
  unfold getRecentSearches. simpl. fold row. do 2 f_equal.
  destruct (merge_sort desc_timestamp (searchHistory d ++ [row]))
    as [|h rest] eqn:Hs.
  { assert (Hp := merge_sort_Permutation desc_timestamp
                    (searchHistory d ++ [row])).
    rewrite Hs in Hp. apply Permutation_nil in Hp.
    by destruct (searchHistory d). }
  simpl. rewrite take_0. f_equal.
  apply head_of_sorted in Hs as [Hin Hmax].
  apply elem_of_app in Hin as [Hin|Hin].
  - destruct (Hlater h Hin) as [Hle Hne].
    assert (Hrow : desc_timestamp h row).
    { apply Hmax. apply elem_of_app. right. left. }
    destruct Hne. by apply String.leb_antisym.
  - by apply list_elem_of_singleton in Hin.
Qed.

(** ** The user cache, continued *)

Lemma set_columns_again (cache : InsertUserCache) (row : UserCache)
    (timestamp : string) :
  iuc_userData cache <> VUndefined -> iuc_userData cache <> VNull ->
  iuc_timestamp cache = Some timestamp ->
  uc_userId row = iuc_userId cache ->
  uc_userData row = jsonb (iuc_userData cache) ->
  uc_timestamp row = timestamp ->
  (forall a, iuc_avatarUrl cache = Some a -> uc_avatarUrl row = a) ->
  (forall t, iuc_isTerminated cache = Some t -> uc_isTerminated row = t) ->
  set_columns (as_partial cache) row = row.
Proof.
  intros Hdef Hnull Hstamp Hid Hdata Hts Hav Hterm.
  destruct row as [i u dt av ts tm].
  cbn [uc_userId uc_userData uc_timestamp uc_avatarUrl uc_isTerminated] in *.
  unfold set_columns, userData_param.
  cbn [as_partial puc_userId puc_userData puc_avatarUrl puc_timestamp
       puc_isTerminated uc_id uc_userId uc_userData uc_timestamp
       uc_avatarUrl uc_isTerminated].
  rewrite (jsonb_param_document _ Hdef Hnull), Hstamp. subst.
  cbn [default from_option id]. f_equal.
  - destruct (iuc_avatarUrl cache) as [a|]; [|done]. simpl. symmetry.
    by apply Hav.
  - destruct (iuc_isTerminated cache) as [t|]; [|done]. simpl. symmetry.
    by apply Hterm.
Qed.

(** X2: [addUserCache] is idempotent: on a cache with one row per user,
    the upsert of a payload that carries [userData] and [timestamp]
    succeeds, and repeating it with the same payload returns the same row
    and leaves the database exactly as the first upsert left it (no second
    row, no new id drawn). *)
Theorem addUserCache_idempotent (cache : InsertUserCache) (d : Db)
    (timestamp : string) :
  unique_userId (userCache d) ->
  iuc_userData cache <> VUndefined -> iuc_userData cache <> VNull ->
  iuc_timestamp cache = Some timestamp ->
  exists row d',
    addUserCache cache d = inr (Some row, d')
    /\ addUserCache cache d' = inr (Some row, d').
Proof.
  intros Hu Hdef Hnull Hstamp.
  destruct (addUserCache_total d cache timestamp Hu Hdef Hnull Hstamp)
    as (row & d' & Hadd & Hhead & Hid & Hdata & Hts & Hav & Hterm & Hu' & _).
  exists row, d'. split; [exact Hadd|].
  apply head_select_elem in Hhead as [Hin _].
  destruct (addUserCache_existing d' cache row Hu' Hin Hid Hnull)
    as (l1 & l2 & Hrows & Hagain).
  rewrite Hagain,
    (set_columns_again cache row timestamp Hdef Hnull Hstamp Hid Hdata Hts
       Hav Hterm).
  rewrite <- Hrows. by destruct d'.
Qed.

Lemma select_after_update (rows : list UserCache) (userId other : string)
    (p : PartialInsertUserCache) :
  other <> userId -> puc_userId p = Some userId ->
  filter (fun r => uc_userId r = other)
    ((fun r => if decide (uc_userId r = userId) then set_columns p r else r)
       <$> rows)
  = filter (fun r => uc_userId r = other) rows.
Proof.
  intros Hne Hp. induction rows as [|r rows IH]; [done|].
  rewrite fmap_cons. destruct (decide (uc_userId r = userId)) as [Heq|Hneq].
  - rewrite !filter_cons_False; [done| |].
    + rewrite Heq. by intros ->.
    + unfold set_columns. cbn [uc_userId]. rewrite Hp. simpl. by intros ->.
  - destruct (decide (uc_userId r = other)).
    + rewrite !filter_cons_True by done. by rewrite IH.
    + rewrite !filter_cons_False by done. done.
Qed.

(** X3: an upsert touches one user only: whenever [addUserCache]
    succeeds, the lookup of every other user returns what it returned
    before, and the search history is as it was. *)
Theorem addUserCache_frame (cache : InsertUserCache) (d d' : Db)
    (row : option UserCache) :
  addUserCache cache d = inr (row, d') ->
  searchHistory d' = searchHistory d
  /\ searchHistory_seq d' = searchHistory_seq d
  /\ forall other found,
       other <> iuc_userId cache ->
       getUserCache other d = inr (found, d) ->
       getUserCache other d' = inr (found, d').
Proof.
  unfold addUserCache.
  destruct (head (select_userCache (iuc_userId cache) d)) as [existing|].
  - unfold updateUserCache. rewrite as_partial_values.
    destruct (_ && _); [done|].
    case_decide; [|done]. intros [= _ <-]. split; [done|]. split; [done|].
    intros other found Hne. unfold getUserCache, select_userCache.
    cbn [userCache].
    rewrite (select_after_update _ (iuc_userId cache) other) by done.
    by intros [= ->].
  - unfold insert_userCache.
    destruct (jsonb_param _) as [[document|]|]; [|done|done].
    destruct (iuc_timestamp cache) as [timestamp|]; [|done].
    case_decide; [|done].
    intros [= _ <-]. split; [done|]. split; [done|].
    intros other found Hne. unfold getUserCache, select_userCache.
    cbn [userCache].
    rewrite filter_app, filter_cons_False, filter_nil, app_nil_r;
      [by intros [= ->]|].
    cbn [uc_userId]. by intros <-.
Qed.

(** X4: [updateUserCache] for a user who has no row returns no row
    ([undefined]) and changes nothing, whatever the payload sets. *)
Theorem updateUserCache_absent (userId : string)
    (p : PartialInsertUserCache) (d : Db) :
  unique_userId (userCache d) ->
  no_values p = false ->
  (forall r, r ∈ userCache d -> uc_userId r <> userId) ->
  updateUserCache userId p d = inr (None, d).
Proof.
  intros Hu Hnv Hnone. unfold updateUserCache. rewrite Hnv.
  unfold select_userCache. rewrite (select_none _ _ Hnone).
  rewrite bool_decide_false, andb_false_r by (by intros H; apply H).
  assert (Hrows :
    (fun r => if decide (uc_userId r = userId) then set_columns p r else r)
      <$> userCache d = userCache d).
  { apply fmap_fixed. intros r Hr. rewrite decide_False; [done|].
    by apply Hnone. }
  rewrite Hrows, decide_True by done.
  cbn [fmap list_fmap head]. by destruct d.
Qed.

(** X5: the key of a row cannot be moved onto another user's key: an
    update that sets [userId] to the key of a different stored user fails,
    on the unique constraint unless it also sets [userData] to null
    (which is refused first), and a failed statement changes nothing. *)
Theorem updateUserCache_rename_refused (p : PartialInsertUserCache)
    (d : Db) (r1 r2 : UserCache) :
  r1 ∈ userCache d -> r2 ∈ userCache d ->
  uc_userId r1 <> uc_userId r2 ->
  puc_userId p = Some (uc_userId r2) ->
  updateUserCache (uc_userId r1) p d
  = inl (if nulls_userData p then NotNullViolation "user_data"
         else UniqueViolation "user_id").
Proof.
  intros H1 H2 Hne Hp. unfold updateUserCache.
  assert (Hnv : no_values p = false) by (unfold no_values; by rewrite Hp).
  rewrite Hnv.
  assert (Hsel : select_userCache (uc_userId r1) d <> []).
  { intros Hsel.
    assert (Hex : r1 ∈ select_userCache (uc_userId r1) d)
      by (unfold select_userCache; by apply list_elem_of_filter).
    rewrite Hsel in Hex. by apply elem_of_nil in Hex. }
  rewrite (bool_decide_true _ Hsel), andb_true_r.
  destruct (nulls_userData p); [done|].
  rewrite decide_False; [done|].
  unfold unique_userId. intros Hnd.
  set (f := fun r => if decide (uc_userId r = uc_userId r1)
                     then set_columns p r else r) in *.
  assert (Hf1 : uc_userId (f r1) = uc_userId r2).
  { unfold f. rewrite decide_True by done.
    unfold set_columns. cbn [uc_userId]. by rewrite Hp. }
  assert (Hf2 : f r2 = r2).
  { unfold f. rewrite decide_False; [done|]. congruence. }
  apply list_elem_of_split in H1 as (l1 & l2 & Hrows).
  rewrite Hrows in H2, Hnd.
  rewrite fmap_app, fmap_cons, fmap_app, fmap_cons, Hf1 in Hnd.
  apply NoDup_app in Hnd as (_ & Hdisj & Hnd2).
  apply NoDup_cons in Hnd2 as [Hnot2 _].
  apply elem_of_app in H2 as [H2|H2].
  - apply (Hdisj (uc_userId r2)); [|left].
    rewrite <- Hf2 at 1. by apply list_elem_of_fmap_2, list_elem_of_fmap_2.
  - apply elem_of_cons in H2 as [->|H2]; [done|].
    apply Hnot2. rewrite <- Hf2 at 1.
    by apply list_elem_of_fmap_2, list_elem_of_fmap_2.
Qed.

(** ** The [jsonb] column, continued *)

Lemma assoc_None (k : string) (l : list (string * value)) :
  assoc k l = None <-> k ∉ l.*1.
Proof.
  induction l as [|[k' v] l IH]; simpl.
  - split; [intros _; apply not_elem_of_nil | done].
  - rewrite not_elem_of_cons. destruct (String.eqb k k') eqn:E.
    + apply String.eqb_eq in E. split; [done | by intros [? _]].
    + apply String.eqb_neq in E. rewrite IH. tauto.
Qed.

Lemma assoc_Some (k : string) (v : value) (l : list (string * value)) :
  NoDup l.*1 -> assoc k l = Some v <-> (k, v) ∈ l.
Proof.
  induction l as [|[k' v'] l IH]; simpl; intros Hnd.
  - split; [done | by intros ?%elem_of_nil].
  - apply NoDup_cons in Hnd as [Hk' Hnd]. rewrite elem_of_cons.
    destruct (String.eqb k k') eqn:E.
    + apply String.eqb_eq in E. subst k'. split.
      * intros [= ->]. by left.
      * intros [[= ->]|Hin]; [done|]. destruct Hk'.
        by apply (list_elem_of_fmap_2 fst) in Hin.
    + apply String.eqb_neq in E. rewrite (IH Hnd). split; [by right|].
      intros [[= ? ?]|?]; done.
Qed.

Lemma assoc_Permutation (k : string) (l l' : list (string * value)) :
  NoDup l.*1 -> l ≡ₚ l' -> assoc k l = assoc k l'.
Proof.
  intros Hnd Hp.
  assert (Hnd' : NoDup l'.*1) by (by rewrite <- Hp).
  apply option_eq. intros v.
  rewrite (assoc_Some _ _ _ Hnd), (assoc_Some _ _ _ Hnd').
  by rewrite Hp.
Qed.

Lemma first_bindings_keys (seen : list string) (l : list (string * value)) :
  NoDup (first_bindings seen l).*1
  /\ forall k, k ∈ (first_bindings seen l).*1 -> k ∉ seen.
Proof.
  revert seen. induction l as [|[k v] l IH]; intros seen; simpl.
  - split; [apply NoDup_nil_2 | by intros k ?%elem_of_nil].
  - case_bool_decide as Hseen; [apply IH|].
    destruct (IH (k :: seen)) as [Hnd Hout]. split.
    + rewrite fmap_cons. apply NoDup_cons. split; [|done].
      intros Hin. apply Hout in Hin. apply Hin. left.
    + intros k' Hk'. rewrite fmap_cons in Hk'.
      apply elem_of_cons in Hk' as [->|Hk']; [done|].
      apply Hout in Hk'. intros Hs. apply Hk'. by right.
Qed.

Lemma assoc_first_bindings (k : string) (seen : list string)
    (l : list (string * value)) :
  k ∉ seen -> assoc k (first_bindings seen l) = assoc k l.
Proof.
  revert seen. induction l as [|[k' v] l IH]; intros seen Hk; [done|].
  simpl. case_bool_decide as Hseen.
  - destruct (String.eqb k k') eqn:E.
    + apply String.eqb_eq in E. by subst.
    + by apply IH.
  - simpl. destruct (String.eqb k k') eqn:E; [done|].
    apply String.eqb_neq in E. apply IH.
    rewrite not_elem_of_cons. done.
Qed.

Lemma drop_undefined_sublist (l : list (string * value)) :
  drop_undefined l `sublist_of` l.
Proof.
  induction l as [|[k v] l IH]; simpl; [done|].
  destruct (is_undefined v); by constructor.
Qed.

Lemma assoc_drop_undefined (k : string) (l : list (string * value)) :
  NoDup l.*1 ->
  default VUndefined (assoc k (drop_undefined l))
  = default VUndefined (assoc k l).
Proof.
  induction l as [|[k' v] l IH]; [done|]. simpl. intros Hnd.
  apply NoDup_cons in Hnd as [Hk' Hnd].
  destruct (is_undefined v) eqn:Ev; simpl.
  - destruct (String.eqb k k') eqn:E; [|by apply IH].
    apply String.eqb_eq in E. subst k'.
    assert (Hnone : assoc k (drop_undefined l) = None).
    { apply assoc_None. intros Hin. apply Hk'.
      eapply elem_of_sublist; [exact Hin|].
      apply fmap_sublist, drop_undefined_sublist. }
    rewrite Hnone. by destruct v.
  - destruct (String.eqb k k'); [done | by apply IH].
Qed.

Lemma index_keys_first (l : list (string * value)) :
  filter (fun kv => is_array_index kv.1 = true) l
  ++ filter (fun kv => is_array_index kv.1 = false) l ≡ₚ l.
Proof.
  induction l as [|x l IH]; [done|].
  destruct (is_array_index x.1) eqn:E.
  - rewrite filter_cons_True, filter_cons_False by congruence.
    simpl. by rewrite IH.
  - rewrite filter_cons_False, filter_cons_True by congruence.
    by rewrite <- Permutation_middle, IH.
Qed.

Lemma assoc_jsonb_props (k : string) (l : list (string * value)) :
  default VUndefined (assoc k (jsonb_props l))
  = default VUndefined (assoc k l).
Proof.
  destruct (first_bindings_keys [] l) as [Hnd _].
  assert (Hnd' : NoDup (drop_undefined (first_bindings [] l)).*1).
  { eapply sublist_NoDup; [exact Hnd|].
    apply fmap_sublist, drop_undefined_sublist. }
  assert (Hp : jsonb_props l ≡ₚ drop_undefined (first_bindings [] l)).
  { unfold jsonb_props. cbv zeta. rewrite index_keys_first.
    apply merge_sort_Permutation. }
  rewrite <- (assoc_first_bindings k [] l) by apply not_elem_of_nil.
  rewrite <- (assoc_drop_undefined k _ Hnd).
  f_equal. symmetry. apply assoc_Permutation; [done | by symmetry].
Qed.

Lemma assoc_members (k : string) (l : list (string * value)) :
  assoc k ((fun kv => (kv.1, jsonb kv.2)) <$> l) = jsonb <$> assoc k l.
Proof.
  induction l as [|[k' v] l IH]; [done|].
  rewrite fmap_cons. simpl. by destruct (String.eqb k k').
Qed.

Lemma key_jsonb (k : string) (props : list (string * value)) :
  key (jsonb_props ((fun kv => (kv.1, jsonb kv.2)) <$> props)) k
  = jsonb (key props k).
Proof.
  unfold key. rewrite assoc_jsonb_props, assoc_members.
  by destruct (assoc k props).
Qed.

Lemma jsonb_keeps_lookup (props : list (string * value)) (k : string) :
  prop (jsonb (VObj props)) k
  = inr (jsonb (default VUndefined (assoc k props))).
Proof.
  rewrite jsonb_object. cbn [prop].
  fold (key (jsonb_props ((fun kv => (kv.1, jsonb kv.2)) <$> props)) k).
  by rewrite key_jsonb.
Qed.

(** X6: what the cache holds is read as it was written, property by
    property: for every object and every property name, the property of
    the document the [jsonb] column gives back is the document of the
    property of the object written ([undefined] for an absent one),
    whatever the order of the keys, and even though a property whose
    value is [undefined] is not stored and [NaN] is stored as null. *)
Theorem jsonb_keeps_properties (props : list (string * value)) (k : string) :
  prop (jsonb (VObj props)) k
  = inr match assoc k props with
        | Some (VNum NaN) => VNull
        | Some v => jsonb v
        | None => VUndefined
        end.
Proof.
  rewrite jsonb_keeps_lookup.
  destruct (assoc k props) as [v|]; [|done].
  by destruct v as [| | |[|z]| | |].
Qed.

(** ** Validation of the profile, continued *)

Lemma mapM_z_string (l : list string) :
  mapM z_string (VStr <$> l) = Some l.
Proof.
  induction l as [|s l IH]; [done|].
  rewrite fmap_cons. simpl. rewrite IH. done.
Qed.

Lemma jsonb_strings (l : list string) :
  jsonb (VArr (VStr <$> l)) = VArr (VStr <$> l).
Proof.
  cbn [jsonb]. f_equal. induction l as [|s l IH]; [done|].
  rewrite fmap_cons. by f_equal.
Qed.

(** The schema looks at its ten keys only. *)
Lemma robloxUserSchema_keys_only (props props' : list (string * value)) :
  (forall k, k ∈ schema_keys -> key props k = key props' k) ->
  robloxUserSchema (VObj props) = robloxUserSchema (VObj props').
Proof.
  intros Hsame. unfold robloxUserSchema.
  rewrite !Hsame by (apply list_elem_of_In; simpl; tauto). done.
Qed.

(** Every field of a validated profile is its own document. *)
Lemma RobloxUser_value_plain (u : RobloxUser) (props : list (string * value)) :
  RobloxUser_value u = VObj props ->
  Forall (fun kv => jsonb kv.2 = kv.2) props.
Proof.
  destruct u as [i n dn de cr ib ex vb pu st].
  intros [= <-].
  destruct dn as [dn|], cr as [cr|], ex as [[ex|]|], pu as [pu|],
           st as [[fr fo fg]|];
    cbn [opt_prop app Schema.id Schema.name Schema.displayName
         Schema.description Schema.created Schema.isBanned
         Schema.externalAppDisplayName Schema.hasVerifiedBadge
         Schema.previousUsernames Schema.stats];
    repeat (apply Forall_cons; split; [|]); try apply Forall_nil;
    cbn [snd]; try apply jsonb_strings; try reflexivity;
    vm_compute; reflexivity.
Qed.

(** The schema reads the document the cache keeps of a validated profile
    as that profile. *)
Lemma robloxUserSchema_stored (u : RobloxUser) :
  robloxUserSchema (RobloxUser_value u) = Some u
  /\ robloxUserSchema (jsonb (RobloxUser_value u)) = Some u.
Proof.
  assert (Hplain : robloxUserSchema (RobloxUser_value u) = Some u).
  { destruct u as [i n dn de cr ib ex vb pu st].
    destruct dn as [dn|], cr as [cr|], ex as [[ex|]|], pu as [pu|],
             st as [[fr fo fg]|];
      unfold RobloxUser_value, robloxUserSchema; simpl;
      rewrite ?mapM_z_string; reflexivity. }
  split; [exact Hplain|]. rewrite <- Hplain.
  pose proof (RobloxUser_value_plain u) as Hfields.
  destruct (RobloxUser_value u) as [| | | | | |props]; try done.
  specialize (Hfields props eq_refl).
  rewrite jsonb_object. apply robloxUserSchema_keys_only.
  intros k _. rewrite key_jsonb. unfold key.
  destruct (assoc k props) as [v|] eqn:E; [|done].
  cbn [default from_option id].
  assert (Hin : (k, v) ∈ props).
  { clear -E. induction props as [|[k' v'] l IH]; [done|].
    simpl in E. destruct (String.eqb k k') eqn:Ek.
    - apply String.eqb_eq in Ek. injection E as ->. subst. left.
    - right. by apply IH. }
  rewrite Forall_forall in Hfields. exact (Hfields _ Hin).
Qed.

(** X7: validation is idempotent on its own output, and the cache does
    not get in the way: the object [parse] returns for a profile is
    accepted again and yields the same profile, and so is the document
    the [jsonb] column keeps of it. *)
Theorem robloxUserSchema_round_trip (u : RobloxUser) :
  robloxUserSchema (RobloxUser_value u) = Some u
  /\ robloxUserSchema (jsonb (RobloxUser_value u)) = Some u.
Proof. apply robloxUserSchema_stored. Qed.

(** X8: the schema looks at its ten keys only: two objects that agree on
    them validate alike, whatever else they carry; and the object [parse]
    returns has no key outside the ten, so an unknown key of the upstream
    document never reaches the cache or the response. *)
Theorem robloxUserSchema_strips_unknown_keys :
  (forall props props',
      (forall k, k ∈ schema_keys -> key props k = key props' k) ->
      robloxUserSchema (VObj props) = robloxUserSchema (VObj props'))
  /\ (forall u k, k ∈ keys (RobloxUser_value u) -> k ∈ schema_keys).
Proof.
  split.
  - apply robloxUserSchema_keys_only.
  - intros u k.
    destruct u as [i n dn de cr ib ex vb pu st].
    destruct dn, cr, ex, pu, st; simpl;
      rewrite !list_elem_of_In; simpl; tauto.
Qed.

Lemma z_boolean_Some (v : value) (b : bool) :
  z_boolean v = Some b <-> v = VBool b.
Proof. destruct v; simpl; split; intros H; by simplify_eq. Qed.

Lemma z_optional_Some {A} (s : ZodType A) (v : value) (o : option A) :
  z_optional s v = Some o ->
  v = VUndefined \/ exists a, s v = Some a.
Proof.
  destruct v; simpl; intros H; try (by left); right;
    match type of H with
    | Some <$> ?x = _ => destruct x; simplify_eq/=; by eexists
    end.
Qed.

Lemma z_default_Some {A} (s : ZodType (option A)) (d a : A) (v : value) :
  z_default s d v = Some a ->
  v = VUndefined \/ exists o, s v = Some o.
Proof.
  destruct v; simpl; intros H; try (by left); right;
    match type of H with
    | mbind _ ?x = _ => destruct x; simplify_eq/=; by eexists
    end.
Qed.

Lemma mapM_z_string_inv (items : list value) (l : list string) :
  mapM z_string items = Some l -> items = VStr <$> l.
Proof.
  revert l. induction items as [|x items IH]; intros l H.
  - change (Some [] = Some l) in H. by injection H as <-.
  - simpl in H. destruct (z_string x) as [s|] eqn:Hx; [|done].
    simpl in H. destruct (mapM z_string items) as [l'|]; [|done].
    change (Some (s :: l') = Some l) in H. injection H as <-.
    apply z_string_Some in Hx as ->. by rewrite (IH l').
Qed.

(** X9: validation fails closed on the optional fields too: a profile
    whose [displayName], [description] or [created] is present and not a
    string, whose [isBanned] or [hasVerifiedBadge] is present and not a
    boolean, whose [externalAppDisplayName] is present and neither null
    nor a string, whose [previousUsernames] is present and not an array of
    strings, or whose [stats] is present and not an object with three
    numeric counters, is rejected as a whole ([null] is not taken for an
    absent key). *)
Theorem robloxUserSchema_rejects_ill_typed_optional
    (props : list (string * value)) :
  present_but_not (key props "displayName") VStr
  \/ present_but_not (key props "description") VStr
  \/ present_but_not (key props "created") VStr
  \/ present_but_not (key props "isBanned") VBool
  \/ present_but_not (key props "hasVerifiedBadge") VBool
  \/ present_but_not (key props "externalAppDisplayName") (nullable VStr)
  \/ present_but_not (key props "previousUsernames")
       (fun l => VArr (VStr <$> l))
  \/ present_but_not (key props "stats") VObj
  \/ (exists counters c,
        key props "stats" = VObj counters
        /\ c ∈ ["friends"; "followers"; "following"]
        /\ forall z, key counters c <> VNum (Num z)) ->
  robloxUserSchema (VObj props) = None.
Proof.
  intros Hbad.
  destruct (robloxUserSchema (VObj props)) as [u|] eqn:E; [|done].
  exfalso.
  apply robloxUserSchema_Some in E
    as (_ & _ & Hdn & Hde & Hcr & Hib & Hex & Hvb & Hpu & Hst).
  destruct Hbad as [[H0 H]|[[H0 H]|[[H0 H]|[[H0 H]|[[H0 H]|[[H0 H]|[[H0 H]|
                   [[H0 H]|(counters & c & Hobj & Hc & H)]]]]]]]].
  - apply z_optional_Some in Hdn as [?|[s Hs]]; [done|].
    apply z_string_Some in Hs. by apply (H s).
  - apply z_default_Some in Hde as [?|[o Ho]]; [done|].
    apply z_optional_Some in Ho as [?|[s Hs]]; [done|].
    apply z_string_Some in Hs. by apply (H s).
  - apply z_optional_Some in Hcr as [?|[s Hs]]; [done|].
    apply z_string_Some in Hs. by apply (H s).
  - apply z_default_Some in Hib as [?|[o Ho]]; [done|].
    apply z_optional_Some in Ho as [?|[b Hb]]; [done|].
    apply z_boolean_Some in Hb. by apply (H b).
  - apply z_default_Some in Hvb as [?|[o Ho]]; [done|].
    apply z_optional_Some in Ho as [?|[b Hb]]; [done|].
    apply z_boolean_Some in Hb. by apply (H b).
  - apply z_optional_Some in Hex as [?|[o Ho]]; [done|].
    destruct (key props "externalAppDisplayName") eqn:Ek;
      simplify_eq/=; try done.
    + by apply (H None).
    + by apply (H (Some s)).
  - apply z_optional_Some in Hpu as [?|[l Hl]]; [done|].
    destruct (key props "previousUsernames") eqn:Ek; simplify_eq/=.
    apply mapM_z_string_inv in Hl. subst items. by apply (H l).
  - apply z_optional_Some in Hst as [?|[s Hs]]; [done|].
    destruct (key props "stats") eqn:Ek; simplify_eq/=.
    by apply (H props0).
  - rewrite Hobj in Hst. simpl in Hst.
    destruct (z_number (key counters "friends")) as [fr|] eqn:Hfr;
      [|done].
    destruct (z_number (key counters "followers")) as [fo|] eqn:Hfo;
      [|done].
    destruct (z_number (key counters "following")) as [fg|] eqn:Hfg;
      [|done].
    apply z_number_Some in Hfr, Hfo, Hfg.
    repeat (apply elem_of_cons in Hc as [->|Hc]; [by eapply H|]).
    by apply elem_of_nil in Hc.
Qed.

(** ** The username resolver, continued *)

Lemma falsy_values (v : value) :
  truthy v = false <->
  v ∈ [VUndefined; VNull; VBool false; VNum NaN; VNum (Num 0);
       VStr EmptyString].
Proof.
  rewrite !elem_of_cons, elem_of_nil. split.
  - destruct v as [| |[]|[|z]|s| |]; simpl; try discriminate; try tauto.
    + destruct z; simpl; try discriminate. tauto.
    + destruct s; simpl; try discriminate. tauto.
  - intros [->|[->|[->|[->|[->|[->|[]]]]]]]; reflexivity.
Qed.

(** X10: a request whose [username] is missing, null, false, zero, [NaN]
    or the empty string is answered 400 "Username is required" before
    anything else happens: no history entry is written, no upstream
    request is issued, the clock is not read; and these are the only
    usernames turned down that way. *)
Theorem post_by_username_requires_username (env : Env) (username : value)
    (w : World) :
  (username ∈ [VUndefined; VNull; VBool false; VNum NaN; VNum (Num 0);
               VStr EmptyString] ->
   post_by_username env username w
   = (inr (Json 400 (VObj [("error", VStr "Username is required")])), w))
  /\ (post_by_username env username w
      = (inr (Json 400 (VObj [("error", VStr "Username is required")])), w) ->
      username ∈ [VUndefined; VNull; VBool false; VNum NaN; VNum (Num 0);
                  VStr EmptyString]).
Proof.
  split.
  - intros H. apply falsy_values in H. unfold post_by_username.
    by rewrite H.
  - intros H. apply falsy_values.
    destruct (truthy username) eqn:Ht; [|done].
    unfold post_by_username in H. rewrite Ht in H. cbn [negb] in H.
    unfold try_catch in H.
    rewrite bind_run, new_Date_run, bind_run, storage_run in H.
    cbn [addSearchHistory] in H. cbv iota beta in H.
    rewrite bind_run, axios_run in H.
    destruct (upstream env _ _) as [d|st msg].
    + unfold mbind, M_bind, lift in H.
      repeat match type of H with
             | context [match ?x with _ => _ end] =>
                 match x with
                 | prop _ _ => destruct x
                 | item0 _ => destruct x
                 | toString _ => destruct x
                 | is_zero _ => destruct x
                 end; simpl in H
             end;
        apply (f_equal snd) in H; apply (f_equal reads) in H; simpl in H; lia.
    + simpl in H. apply (f_equal snd) in H. apply (f_equal reads) in H.
      simpl in H. lia.
Qed.

(** ** The status passthrough *)

(** X11: [GET /api/users/:userId/status] issues one request and never
    touches the database.  It answers 200 with [{status}] exactly when
    the request is fulfilled with an object whose [status] is a string
    (every other key of the document is dropped); a rejected request or
    any other document is answered 500 with the caught error. *)
Theorem get_status_passthrough (env : Env) (userId : string) (w : World) :
  get_status env userId w
  = (inr match upstream env (length (calls w)) (GET (status_url userId)) with
         | Fulfilled (VObj props) =>
             match key props "status" with
             | VStr s => Json 200 (VObj [("status", VStr s)])
             | _ => Failure 500 "Failed to fetch user status" ZodError
             end
         | Fulfilled _ => Failure 500 "Failed to fetch user status" ZodError
         | Rejected st msg =>
             Failure 500 "Failed to fetch user status" (AxiosError st msg)
         end,
     called w [GET (status_url userId)]).
Proof.
  unfold get_status, try_catch. rewrite bind_run, axios_run.
  destruct (upstream env _ _) as [d|st msg]; [|done].
  rewrite bind_run. unfold parse.
  destruct d as [| | | | | |props]; try done. simpl.
  destruct (key props "status"); done.
Qed.

(** ** The search history endpoint *)

(** X12: [GET /api/search-history] never fails and writes nothing: with
    whatever [limit] the query carries it answers 200 with the rows of
    [getRecentSearches], most recent first, each as an object of its five
    columns.  Without a [limit], or with an empty one, the limit is 10; a
    [limit] that [parseInt] reads as [n >= 0] gives at most [n] rows; one
    that [parseInt] reads as negative, or does not read at all, gives the
    whole table. *)
Theorem get_search_history_rows (limit : option string) (w : World) :
  exists rows,
    get_search_history limit w
    = (inr (Json 200 (VArr (SearchHistory_value <$> rows))), looked_up w)
    /\ StronglySorted desc_timestamp rows
    /\ Forall (fun o => keys o
                        = ["id"; "query"; "type"; "timestamp"; "success"])
         (SearchHistory_value <$> rows)
    /\ (limit = None \/ limit = Some EmptyString ->
        getRecentSearches (Some (Num 10)) (db w) = inr (rows, db w)
        /\ (length rows <= 10)%nat)
    /\ (forall s, limit = Some s -> s <> EmptyString ->
        getRecentSearches (Some (parseInt s)) (db w) = inr (rows, db w)
        /\ (forall n, parseInt s = Num n -> 0 <= n ->
            Z.of_nat (length rows) <= n)
        /\ (parseInt s = NaN \/ (exists n, parseInt s = Num n /\ n < 0) ->
            rows ≡ₚ searchHistory (db w))).
Proof.
  set (n := match limit with
            | Some s => if String.eqb s EmptyString then Num 10 else parseInt s
            | None => Num 10
            end).
  destruct (getRecentSearches_take (db w) n) as [Hk Hrun].
  cbv zeta in Hk, Hrun.
  set (sorted := merge_sort desc_timestamp (searchHistory (db w))) in *.
  set (size := length (searchHistory (db w))) in *.
  assert (Hlen : length sorted = size)
    by (apply Permutation_length, merge_sort_Permutation).
  set (k := match n with NaN => _ | Num _ => _ end) in *.
  exists (take k sorted).
  split.
  { unfold get_search_history, try_catch. rewrite bind_run, storage_run.
    fold n. by rewrite Hrun. }
  split.
  { assert (Hs : StronglySorted desc_timestamp sorted)
      by (apply StronglySorted_merge_sort; apply _).
    rewrite <- (take_drop k) in Hs.
    by apply StronglySorted_app_1_l in Hs. }
  split; [apply Forall_fmap, Forall_forall; done|].
  split.
  - intros Hdefault.
    assert (Hn : n = Num 10) by (by destruct Hdefault as [-> | ->]).
    rewrite Hn in Hrun. split; [exact Hrun|].
    rewrite length_take. subst k. rewrite Hn. cbn. lia.
  - intros s -> Hs.
    assert (Hn : n = parseInt s).
    { subst n. cbv beta iota.
      destruct (String.eqb s EmptyString) eqn:E; [|done].
      by apply String.eqb_eq in E. }
    rewrite Hn in Hrun. split; [exact Hrun|].
    split.
    + intros m Hm Hpos. rewrite length_take. subst k. rewrite Hn, Hm.
      destruct (0 <=? m) eqn:E; lia.
    + intros Hall.
      assert (Hsize : k = size).
      { subst k. rewrite Hn.
        destruct Hall as [-> | (m & -> & Hneg)]; [done|].
        destruct (0 <=? m) eqn:E; [lia|done]. }
      rewrite Hsize, <- Hlen, firstn_all. apply merge_sort_Permutation.
Qed.

(** ** The user record resolver, continued *)

Lemma addUserCache_history (cache : InsertUserCache) (d d' : Db)
    (r : option UserCache) :
  addUserCache cache d = inr (r, d') -> searchHistory d' = searchHistory d.
Proof.
  unfold addUserCache.
  destruct (head (select_userCache (iuc_userId cache) d)).
  - unfold updateUserCache. rewrite as_partial_values.
    destruct (_ && _); [done|]. case_decide; [|done]. by intros [= _ <-].
  - unfold insert_userCache.
    destruct (jsonb_param _) as [[document|]|]; [|done|done].
    destruct (iuc_timestamp cache); [|done].
    case_decide; [|done]. by intros [= _ <-].
Qed.

Lemma fetch_avatar_result (env : Env) (userId : string) (w : World) :
  fetch_avatar env userId w
  = (inr (avatar_of (upstream env (length (calls w))
                       (GET (avatar_url userId)))),
     called w [GET (avatar_url userId)]).
Proof.
  unfold fetch_avatar, try_catch, avatar_of. rewrite bind_run, axios_run.
  destruct (upstream env _ _) as [d|st msg]; [|done].
  rewrite bind_run. unfold parse.
  destruct (robloxAvatarSchema d) as [[[|first more]]|]; done.
Qed.

(** The run of the resolver past the cache on a validated profile, up to
    the upsert. *)
Lemma get_user_valid_run (env : Env) (userId : string) (w : World)
    (d : value) (u : RobloxUser) :
  fresh_entry env userId w = None ->
  upstream env (length (calls w)) (GET (users_url userId)) = Fulfilled d ->
  robloxUserSchema d = Some u ->
  let avatarUrl :=
    avatar_of (upstream env (S (length (calls w))) (GET (avatar_url userId))) in
  let cache :=
    {| iuc_userId := userId;
       iuc_userData := RobloxUser_value u;
       iuc_avatarUrl := Some avatarUrl;
       iuc_timestamp :=
         Some (toISOString env (now env (reads (cache_checked userId w))));
       iuc_isTerminated := Some (Some (isBanned u)) |} in
  let requests := [GET (users_url userId); GET (avatar_url userId)] in
  let asked := clock_read (called (cache_checked userId w) requests) in
  get_user env userId w
  = match addUserCache cache (db w) with
    | inr (_, d') =>
        (inr (Json 200
                (VObj [("source", VStr "api");
                       ("data", RobloxUser_value u);
                       ("avatarUrl", nullable VStr avatarUrl);
                       ("isTerminated", VBool (isBanned u))])),
         {| db := d'; calls := calls asked; reads := reads asked;
            journal := journal asked ++ [Database d'] |})
    | inl e =>
        (inr (Failure 500 "Failed to fetch user data" (DbError e)), asked)
    end.
Proof.
  intros Hstale Hp Hd avatarUrl cache requests asked.
  rewrite (get_user_past_cache env userId w Hstale). unfold try_catch.
  rewrite <- (cache_checked_calls userId w) in Hp.
  unfold fetch_and_cache.
  rewrite bind_run, axios_run, Hp, bind_run. unfold parse. rewrite Hd.
  unfold mret at 1, M_ret at 1. cbv iota beta.
  rewrite bind_run, fetch_avatar_result, called_length, called_called.
  rewrite bind_run, new_Date_run, bind_run, storage_run.
  cbn [db called clock_read calls reads].
  rewrite cache_checked_db, !cache_checked_calls, orb_false_r.
  fold avatarUrl. fold cache.
  destruct (addUserCache cache (db w)) as [e|[r d']].
  - cbn [response_status_is_400].
    unfold mret, M_ret, asked, clock_read, called.
    cbn [db calls reads journal app]. done.
  - unfold mret, M_ret, asked, clock_read, called.
    cbn [db calls reads journal app]. by rewrite cache_checked_calls.
Qed.

(** The validated profile is answered and cached. *)
Lemma get_user_valid_cached (env : Env) (userId : string) (w : World)
    (d : value) (u : RobloxUser) :
  unique_userId (userCache (db w)) ->
  fresh_entry env userId w = None ->
  upstream env (length (calls w)) (GET (users_url userId)) = Fulfilled d ->
  robloxUserSchema d = Some u ->
  let avatarUrl :=
    avatar_of (upstream env (S (length (calls w))) (GET (avatar_url userId))) in
  exists row w',
    get_user env userId w
    = (inr (Json 200
              (VObj [("source", VStr "api");
                     ("data", RobloxUser_value u);
                     ("avatarUrl",
                      match avatarUrl with
                      | Some url => VStr url
                      | None => VNull
                      end);
                     ("isTerminated", VBool (isBanned u))])), w')
    /\ calls w' = calls w ++ [GET (users_url userId); GET (avatar_url userId)]
    /\ reads w' = S (reads (cache_checked userId w))
    /\ getUserCache userId (db w') = inr (Some row, db w')
    /\ uc_userData row = jsonb (RobloxUser_value u)
    /\ robloxUserSchema (uc_userData row) = Some u
    /\ uc_avatarUrl row = avatarUrl
    /\ uc_isTerminated row = Some (isBanned u)
    /\ uc_timestamp row
       = toISOString env (now env (reads (cache_checked userId w)))
    /\ unique_userId (userCache (db w'))
    /\ searchHistory (db w') = searchHistory (db w).
Proof.
  intros Hu Hstale Hp Hd avatarUrl.
  rewrite (get_user_valid_run env userId w d u Hstale Hp Hd). cbv zeta.
  fold avatarUrl.
  destruct (addUserCache_total (db w)
              {| iuc_userId := userId;
                 iuc_userData := RobloxUser_value u;
                 iuc_avatarUrl := Some avatarUrl;
                 iuc_timestamp :=
                   Some (toISOString env
                           (now env (reads (cache_checked userId w))));
                 iuc_isTerminated := Some (Some (isBanned u)) |}
              (toISOString env (now env (reads (cache_checked userId w))))
              Hu)
    as (row & d' & Hadd & Hhead & _ & Hdata & Hts & Hav & Hterm & Hu' & Hsh);
    [done | done | done |].
  rewrite Hadd.
  cbn [iuc_userId iuc_userData iuc_avatarUrl iuc_isTerminated] in *.
  exists row. eexists. split; [reflexivity|].
  cbn [db calls reads clock_read called].
  split; [by rewrite cache_checked_calls|]. split; [done|].
  split; [unfold getUserCache; by rewrite Hhead|].
  split; [done|].
  split; [rewrite Hdata; apply (robloxUserSchema_stored u)|].
  split; [by apply Hav|]. split; [by apply Hterm|]. done.
Qed.

(** X13: past the cache, when the primary fetch is fulfilled with a
    document the schema accepts, the resolver issues exactly two requests
    (profile, then avatar), answers 200 with [source = "api"] and the
    validated profile, and the record of the user in the cache then
    holds the JSON document of that profile, which the schema reads back
    as the same profile, with [isTerminated] set to its [isBanned] and the
    timestamp of the clock reading.  The avatar is best effort: its URL is
    the [imageUrl] of the first item when the thumbnail request is
    fulfilled with a valid document, and null otherwise, in the response
    and in the cache alike, without failing the resolution. *)
Theorem fresh_fetch_cached (env : Env) (userId : string) (w : World)
    (d : value) (u : RobloxUser) :
  unique_userId (userCache (db w)) ->
  fresh_entry env userId w = None ->
  upstream env (length (calls w)) (GET (users_url userId)) = Fulfilled d ->
  robloxUserSchema d = Some u ->
  let avatarUrl :=
    avatar_of (upstream env (S (length (calls w))) (GET (avatar_url userId))) in
  exists row w',
    get_user env userId w
    = (inr (Json 200
              (VObj [("source", VStr "api");
                     ("data", RobloxUser_value u);
                     ("avatarUrl",
                      match avatarUrl with
                      | Some url => VStr url
                      | None => VNull
                      end);
                     ("isTerminated", VBool (isBanned u))])), w')
    /\ calls w' = calls w ++ [GET (users_url userId); GET (avatar_url userId)]
    /\ reads w' = S (reads (cache_checked userId w))
    /\ getUserCache userId (db w') = inr (Some row, db w')
    /\ uc_userData row = jsonb (RobloxUser_value u)
    /\ robloxUserSchema (uc_userData row) = Some u
    /\ uc_avatarUrl row = avatarUrl
    /\ uc_isTerminated row = Some (isBanned u)
    /\ uc_timestamp row
       = toISOString env (now env (reads (cache_checked userId w)))
    /\ unique_userId (userCache (db w'))
    /\ searchHistory (db w') = searchHistory (db w).
Proof. apply get_user_valid_cached. Qed.

(** X14: a resolution that went upstream is answered from the cache the
    next time: if the timestamp just written reads back as the instant it
    was written at and the next clock reading is less than an hour later,
    the same user resolved again gets [source = "cache"] with the JSON
    document of the same profile (which validates to it), the same avatar
    URL and terminated flag, and no upstream request is issued. *)
Theorem resolve_twice_hits_cache (env : Env) (userId : string) (w : World)
    (d : value) (u : RobloxUser) :
  unique_userId (userCache (db w)) ->
  fresh_entry env userId w = None ->
  upstream env (length (calls w)) (GET (users_url userId)) = Fulfilled d ->
  robloxUserSchema d = Some u ->
  let written := now env (reads (cache_checked userId w)) in
  getTime env (toISOString env written) = Num written ->
  now env (S (reads (cache_checked userId w))) - written < 3600000 ->
  exists avatar w1 w2,
    get_user env userId w
    = (inr (Json 200
              (VObj [("source", VStr "api");
                     ("data", RobloxUser_value u);
                     ("avatarUrl", avatar);
                     ("isTerminated", VBool (isBanned u))])), w1)
    /\ get_user env userId w1
       = (inr (Json 200
                 (VObj [("source", VStr "cache");
                        ("data", jsonb (RobloxUser_value u));
                        ("avatarUrl", avatar);
                        ("isTerminated", VBool (isBanned u))])), w2)
    /\ robloxUserSchema (jsonb (RobloxUser_value u)) = Some u
    /\ calls w2 = calls w1
    /\ db w2 = db w1.
Proof.
  intros Hu Hstale Hp Hd written Hparse Hfresh.
  destruct (get_user_valid_cached env userId w d u Hu Hstale Hp Hd)
    as (row & w1 & Hrun & _ & Hreads & Hget & Hdata & _ & Hav & Hterm & Hts
        & _).
  assert (Hc : fresh_entry env userId w1 = Some row).
  { unfold fresh_entry. unfold getUserCache in Hget.
    injection Hget as ->. rewrite Hts, Hreads. fold written.
    rewrite Hparse. simpl.
    destruct (_ <? 3600000) eqn:E; [done|lia]. }
  eexists _, w1, _. split; [exact Hrun|].
  rewrite (get_user_fresh env userId w1 row Hc).
  unfold cache_body. rewrite Hdata, Hav, Hterm.
  split; [done|]. split; [apply (robloxUserSchema_stored u) | done].
Qed.

Lemma stale_entry (env : Env) (userId : string) (w : World) (c : UserCache) :
  getUserCache userId (db w) = inr (Some c, db w) ->
  getTime env (uc_timestamp c) = NaN
  \/ (exists t, getTime env (uc_timestamp c) = Num t
                /\ 3600000 <= now env (reads w) - t) ->
  fresh_entry env userId w = None
  /\ cache_checked userId w = clock_read (looked_up w).
Proof.
  unfold getUserCache, fresh_entry, cache_checked. intros [= Hc] Hstale.
  rewrite Hc. split; [|done].
  destruct Hstale as [->|(t & -> & Ht)]; [done|]. simpl.
  destruct (_ <? 3600000) eqn:E; [lia|done].
Qed.

(** What a resolution past the cache comes to, whatever the upstream
    answers. *)
Lemma get_user_past_cache_outcome (env : Env) (userId : string) (w : World) :
  unique_userId (userCache (db w)) ->
  fresh_entry env userId w = None ->
  exists resp w' rest,
    get_user env userId w = (inr resp, w')
    /\ calls w' = calls w ++ GET (users_url userId) :: rest
    /\ ((exists cause, resp = Failure 500 "Failed to fetch user data" cause
                       /\ db w' = db w)
        \/ (exists body, resp = Json 200 body
                         /\ prop body "source" = inr (VStr "api")))
    /\ unique_userId (userCache (db w'))
    /\ searchHistory (db w') = searchHistory (db w).
Proof.
  intros Hu Hstale.
  destruct (upstream env (length (calls w)) (GET (users_url userId)))
    as [d|st msg] eqn:Hp.
  - destruct (robloxUserSchema d) as [u|] eqn:Hd.
    + rewrite (get_user_valid_run env userId w d u Hstale Hp Hd). cbv zeta.
      destruct (addUserCache _ (db w)) as [e|[r d']] eqn:Hadd.
      * eexists _, _, _. split; [reflexivity|].
        cbn [calls db clock_read called].
        rewrite cache_checked_calls, cache_checked_db.
        split; [done|]. split; [left; by eexists|]. done.
      * eexists _, _, _. split; [reflexivity|].
        cbn [calls db clock_read called]. rewrite cache_checked_calls.
        split; [done|]. split; [right; by eexists|].
        split; [by apply addUserCache_unique in Hadd|].
        by apply addUserCache_history in Hadd.
    + rewrite (get_user_past_cache env userId w Hstale). unfold try_catch.
      rewrite <- (cache_checked_calls userId w) in Hp.
      rewrite (fetch_and_cache_invalid _ _ _ _ Hp Hd). simpl.
      eexists _, _, []. split; [reflexivity|]. simpl.
      rewrite cache_checked_calls, cache_checked_db.
      split; [done|]. split; [left; by eexists|]. done.
  - rewrite (get_user_past_cache env userId w Hstale). unfold try_catch.
    rewrite <- (cache_checked_calls userId w) in Hp.
    rewrite (fetch_and_cache_rejected _ _ _ _ _ Hp).
    destruct (response_status_is_400 (AxiosError st msg)) eqn:E400.
    + destruct (terminated_account_run env userId
                  (called (cache_checked userId w) [GET (users_url userId)]))
        as (pu & us & av & row & w' & Hrun & Hcalls & _ & _ & _ & _ & _ & _
            & _ & Hu' & Hsh & _).
      { simpl. by rewrite cache_checked_db. }
      rewrite Hrun. simpl in Hcalls, Hsh.
      rewrite cache_checked_calls, <- app_assoc in Hcalls.
      rewrite cache_checked_db in Hsh.
      eexists _, w', _. split; [reflexivity|].
      split; [exact Hcalls|]. split; [right; by eexists|].
      done.
    + simpl. eexists _, _, []. split; [reflexivity|]. simpl.
      rewrite cache_checked_calls, cache_checked_db.
      split; [done|]. split; [left; by eexists|]. done.
Qed.

(** X15: the freshness window is strict and fails closed: a cached record
    that is exactly one hour old or older, or whose timestamp is not a
    date, is not served; the resolver reads the clock once, goes upstream
    with the primary profile request first, and whatever it answers it
    does not answer with [source = "cache"]. *)
Theorem stale_record_bypassed (env : Env) (userId : string) (w : World)
    (c : UserCache) :
  unique_userId (userCache (db w)) ->
  getUserCache userId (db w) = inr (Some c, db w) ->
  getTime env (uc_timestamp c) = NaN
  \/ (exists t, getTime env (uc_timestamp c) = Num t
                /\ 3600000 <= now env (reads w) - t) ->
  exists resp w' rest,
    get_user env userId w = (inr resp, w')
    /\ calls w' = calls w ++ GET (users_url userId) :: rest
    /\ (status_of resp = 500
        \/ exists body, resp = Json 200 body
                        /\ prop body "source" = inr (VStr "api")).
Proof.
  intros Hu Hc Hold.
  destruct (stale_entry env userId w c Hc Hold) as [Hstale _].
  destruct (get_user_past_cache_outcome env userId w Hu Hstale)
    as (resp & w' & rest & Hrun & Hcalls & Hresp & _).
  exists resp, w', rest. split; [exact Hrun|]. split; [exact Hcalls|].
  destruct Hresp as [(cause & -> & _)|Hapi]; [by left|by right].
Qed.

(** X16: a stale record is refreshed in place: when the user has a stale
    row and the primary fetch is fulfilled with a valid profile, the row
    is overwritten where it stands (same position, same [id]) with the
    document of the new profile, the new avatar URL, timestamp and
    terminated flag; no row is added, no other row changes and no new id
    is drawn. *)
Theorem stale_record_refreshed_in_place (env : Env) (userId : string)
    (w : World) (c : UserCache) (d : value) (u : RobloxUser) :
  unique_userId (userCache (db w)) ->
  getUserCache userId (db w) = inr (Some c, db w) ->
  getTime env (uc_timestamp c) = NaN
  \/ (exists t, getTime env (uc_timestamp c) = Num t
                /\ 3600000 <= now env (reads w) - t) ->
  upstream env (length (calls w)) (GET (users_url userId)) = Fulfilled d ->
  robloxUserSchema d = Some u ->
  exists body row l1 l2 w',
    get_user env userId w = (inr (Json 200 body), w')
    /\ userCache (db w) = l1 ++ c :: l2
    /\ userCache (db w') = l1 ++ row :: l2
    /\ userCache_seq (db w') = userCache_seq (db w)
    /\ uc_id row = uc_id c
    /\ uc_userId row = userId
    /\ uc_userData row = jsonb (RobloxUser_value u)
    /\ uc_avatarUrl row
       = avatar_of (upstream env (S (length (calls w)))
                      (GET (avatar_url userId)))
    /\ uc_timestamp row = toISOString env (now env (S (reads w)))
    /\ uc_isTerminated row = Some (isBanned u).
Proof.
  intros Hu Hc Hold Hp Hd.
  destruct (stale_entry env userId w c Hc Hold) as [Hstale Hchecked].
  rewrite (get_user_valid_run env userId w d u Hstale Hp Hd). cbv zeta.
  rewrite Hchecked. cbn [reads clock_read].
  unfold getUserCache in Hc. injection Hc as Hc.
  apply head_select_elem in Hc as [Hin Hid].
  set (cache := {| iuc_userId := userId |}).
  destruct (addUserCache_existing (db w) cache c Hu Hin Hid)
    as (l1 & l2 & Hrows & Hadd); [done|].
  rewrite Hadd.
  eexists _, (set_columns (as_partial cache) c), l1, l2, _.
  split; [reflexivity|]. cbn [db userCache userCache_seq].
  split; [done|]. split; [done|]. split; [done|]. split; [done|].
  split; [done|].
  split; [by rewrite set_columns_userData|]. done.
Qed.

(** X17: every resolution on a cache with one row per user is answered:
    the handler returns (no error escapes its [catch]) with status 200 or
    500; a 200 says [source = "cache"] or [source = "api"]; the cache
    keeps one row per user, and the search history is never written by
    the resolver. *)
Theorem get_user_always_answers (env : Env) (userId : string) (w : World) :
  unique_userId (userCache (db w)) ->
  exists resp w',
    get_user env userId w = (inr resp, w')
    /\ ((status_of resp = 500 /\ db w' = db w)
        \/ exists body source,
             resp = Json 200 body
             /\ prop body "source" = inr (VStr source)
             /\ source ∈ ["cache"; "api"])
    /\ unique_userId (userCache (db w'))
    /\ searchHistory (db w') = searchHistory (db w).
Proof.
  intros Hu. destruct (fresh_entry env userId w) as [c|] eqn:Hfresh.
  - rewrite (get_user_fresh env userId w c Hfresh).
    eexists _, _. split; [reflexivity|].
    split; [|done]. right. eexists _, "cache". split; [done|].
    split; [done|]. left.
  - destruct (get_user_past_cache_outcome env userId w Hu Hfresh)
      as (resp & w' & rest & Hrun & _ & Hresp & Hu' & Hsh).
    exists resp, w'. split; [exact Hrun|].
    split; [|done].
    destruct Hresp as [(cause & -> & Hdb)|(body & -> & Hsrc)].
    + by left.
    + right. exists body, "api". split; [done|]. split; [done|].
      right. left.
Qed.

(** ** The terminated-account branch, continued *)

(** X18: the recoveries of the terminated-account branch are independent:
    once the primary fetch is rejected with status 400, the username
    history, the three counts and the avatar are each requested, in that
    order, whatever the others answer, and the resolution is answered 200
    with [isTerminated = true] and cached with the terminated flag set; no
    failure of a recovery fails the resolution. *)
Theorem terminated_recoveries_independent (env : Env) (userId : string)
    (w : World) :
  unique_userId (userCache (db w)) ->
  fresh_entry env userId w = None ->
  (exists msg,
      upstream env (length (calls w)) (GET (users_url userId))
      = Rejected (Some 400) msg) ->
  exists body row w',
    get_user env userId w = (inr (Json 200 body), w')
    /\ calls w' = calls w ++ [GET (users_url userId);
                              GET (username_history_url userId);
                              GET (count_url userId "friends");
                              GET (count_url userId "followers");
                              GET (count_url userId "followings");
                              GET (avatar_url userId)]
    /\ prop body "source" = inr (VStr "api")
    /\ prop body "isTerminated" = inr (VBool true)
    /\ getUserCache userId (db w') = inr (Some row, db w')
    /\ uc_isTerminated row = Some true
    /\ prop (uc_userData row) "isBanned" = inr (VBool true)
    /\ prop (uc_userData row) "name" = inr (VStr "Terminated Account").
Proof.
  intros Hu Hstale (msg & Hp).
  rewrite (get_user_past_cache env userId w Hstale). unfold try_catch.
  rewrite <- (cache_checked_calls userId w) in Hp.
  rewrite (fetch_and_cache_rejected _ _ _ _ _ Hp). simpl.
  destruct (terminated_account_run env userId
              (called (cache_checked userId w) [GET (users_url userId)]))
    as (pu & us & av & row & w' & Hrun & Hcalls & _ & Hhead & _ & Hdata & _
        & Hterm & _).
  { simpl. by rewrite cache_checked_db. }
  simpl in Hcalls. rewrite cache_checked_calls, <- app_assoc in Hcalls.
  eexists _, row, w'. split; [exact Hrun|]. split; [exact Hcalls|].
  split; [done|]. split; [done|].
  split; [unfold getUserCache; by rewrite Hhead|].
  split; [done|]. rewrite Hdata. unfold terminated_userData.
  by rewrite !jsonb_keeps_lookup.
Qed.

Lemma map_items_names (items : list value) (names : list string) :
  Forall2 (fun item n => prop item "name" = inr (VStr n)) items names ->
  map_items (fun item => prop item "name") (VArr items)
  = inr (VStr <$> names).
Proof.
  simpl. induction 1 as [|item n items names Hitem _ IH]; [done|].
  by rewrite Hitem, IH.
Qed.

(** X19: what the recoveries find is what is stored and returned: when,
    after the status 400, the username history is fulfilled with
    [{data: items}] whose items carry string names, the three counts with
    numeric [count]s and the thumbnail with a first item carrying a string
    [imageUrl], the profile in the response and its document in the cache
    have those names as [previousUsernames] (in the order received) and
    those counts as [stats], and the avatar URL of both is that
    [imageUrl]. *)
Theorem terminated_recoveries_succeed (env : Env) (userId : string)
    (w : World) (history friends_doc followers_doc following_doc
    thumbnails first : value) (items more : list value)
    (names : list string) (fr fo fg : Z) (url : string) :
  unique_userId (userCache (db w)) ->
  fresh_entry env userId w = None ->
  let n := length (calls w) in
  (exists msg,
      upstream env n (GET (users_url userId)) = Rejected (Some 400) msg) ->
  upstream env (S n) (GET (username_history_url userId))
  = Fulfilled history ->
  prop history "data" = inr (VArr items) ->
  Forall2 (fun item name => prop item "name" = inr (VStr name)) items names ->
  upstream env (S (S n)) (GET (count_url userId "friends"))
  = Fulfilled friends_doc ->
  upstream env (S (S (S n))) (GET (count_url userId "followers"))
  = Fulfilled followers_doc ->
  upstream env (S (S (S (S n)))) (GET (count_url userId "followings"))
  = Fulfilled following_doc ->
  prop friends_doc "count" = inr (VNum (Num fr)) ->
  prop followers_doc "count" = inr (VNum (Num fo)) ->
  prop following_doc "count" = inr (VNum (Num fg)) ->
  upstream env (S (S (S (S (S n))))) (GET (avatar_url userId))
  = Fulfilled thumbnails ->
  prop thumbnails "data" = inr (VArr (first :: more)) ->
  prop first "imageUrl" = inr (VStr url) ->
  let stats :=
    VObj [("friends", VNum (Num fr)); ("followers", VNum (Num fo));
          ("following", VNum (Num fg))] in
  let profile :=
    VObj [("id", VNum (parseInt userId));
          ("name", VStr "Terminated Account");
          ("displayName", VStr "Terminated Account");
          ("description",
           VStr "This account has been terminated for violating Roblox Terms of Service.");
          ("isBanned", VBool true);
          ("previousUsernames", VArr (VStr <$> names));
          ("stats", stats)] in
  exists row w',
    get_user env userId w
    = (inr (Json 200
              (VObj [("source", VStr "api");
                     ("data", profile);
                     ("avatarUrl", VStr url);
                     ("isTerminated", VBool true);
                     ("stats", stats);
                     ("previousUsernames", VArr (VStr <$> names))])), w')
    /\ getUserCache userId (db w') = inr (Some row, db w')
    /\ uc_userData row = jsonb profile
    /\ prop (uc_userData row) "previousUsernames"
       = inr (VArr (VStr <$> names))
    /\ prop (uc_userData row) "stats" = inr stats
    /\ uc_avatarUrl row = Some url
    /\ uc_isTerminated row = Some true.
Proof.
  intros Hu Hstale n (msg & Hp) Hh Hdata Hnames Hfr Hfo Hfg Hcfr Hcfo Hcfg
    Hth Hthd Hurl stats profile.
  rewrite (get_user_past_cache env userId w Hstale). unfold try_catch.
  assert (Hn : length (calls (cache_checked userId w)) = n)
    by (by rewrite cache_checked_calls).
  rewrite <- Hn in Hp, Hh, Hfr, Hfo, Hfg, Hth.
  rewrite (fetch_and_cache_rejected _ _ _ _ _ Hp). simpl.
  set (w0 := called (cache_checked userId w) [GET (users_url userId)]).
  assert (H0 : length (calls w0) = S (length (calls (cache_checked userId w))))
    by apply called_length.
  unfold terminated_account.
  (* the username history *)
  assert (Hru : recover_usernames env userId w0
                = (inr (VStr <$> names),
                   called w0 [GET (username_history_url userId)])).
  { unfold recover_usernames, try_catch.
    rewrite bind_run, axios_run, H0, Hh.
    unfold mbind, M_bind, lift. rewrite Hdata.
    by rewrite (map_items_names items names Hnames). }
  rewrite bind_run, Hru.
  (* the three counts *)
  set (w1 := called w0 [GET (username_history_url userId)]).
  assert (H1 : length (calls w1)
               = S (S (length (calls (cache_checked userId w)))))
    by (unfold w1; by rewrite called_length, H0).
  assert (Hrs : recover_stats env userId w1
                = (inr stats,
                   called w1 [GET (count_url userId "friends");
                              GET (count_url userId "followers");
                              GET (count_url userId "followings")])).
  { unfold recover_stats, try_catch.
    rewrite bind_run, all3_axios_run, H1, Hfr, Hfo, Hfg.
    unfold mbind, M_bind, lift. by rewrite Hcfr, Hcfo, Hcfg. }
  rewrite bind_run, Hrs.
  (* the avatar *)
  set (w2 := called w1 _).
  assert (H2 : length (calls w2)
               = S (S (S (S (S (length (calls (cache_checked userId w)))))))).
  { unfold w2, called. cbn [calls]. rewrite length_app, H1. simpl. lia. }
  assert (Hra : recover_avatar env userId w2
                = (inr (VStr url), called w2 [GET (avatar_url userId)])).
  { unfold recover_avatar, try_catch.
    rewrite bind_run, axios_run, H2, Hth.
    unfold mbind, M_bind, lift. rewrite Hthd. simpl. by rewrite Hurl. }
  rewrite bind_run, Hra.
  rewrite bind_run, new_Date_run, bind_run, storage_run.
  destruct (addUserCache_total (db w)
              {| iuc_userId := userId;
                 iuc_userData := profile;
                 iuc_avatarUrl := Some (Some url);
                 iuc_timestamp :=
                   Some (toISOString env
                           (now env (reads (cache_checked userId w))));
                 iuc_isTerminated := Some (Some true) |}
              (toISOString env (now env (reads (cache_checked userId w))))
              Hu)
    as (row & d' & Hadd & Hhead & _ & Hdt & _ & Hav & Htm & _);
    [done | done | done |].
  cbn [iuc_userId iuc_userData iuc_avatarUrl iuc_isTerminated] in Hhead, Hdt,
    Hav, Htm.
  assert (Hdb : db (clock_read (called w2 [GET (avatar_url userId)])) = db w).
  { unfold w2, w1, w0. cbn [clock_read called db]. apply cache_checked_db. }
  rewrite Hdb.
  change (reads (called w2 [GET (avatar_url userId)]))
    with (reads (cache_checked userId w)).
  change (terminated_userData userId (VStr <$> names) stats) with profile.
  change (bind_nullable_text env (VStr url)) with (Some (Some url)).
  rewrite Hadd.
  exists row. eexists. split; [reflexivity|]. cbn [db].
  split; [unfold getUserCache; by rewrite Hhead|].
  split; [done|].
  rewrite Hdt. unfold profile.
  split.
  { rewrite jsonb_keeps_lookup. f_equal.
    change (jsonb (VArr (VStr <$> names)) = VArr (VStr <$> names)).
    apply jsonb_strings. }
  split.
  { rewrite jsonb_keeps_lookup. reflexivity. }
  split; [by apply Hav|by apply Htm].
Qed.

(** ** The username resolver, its answers *)

(** X20: every call to the username resolver is answered, with status
    200, 400, 404 or 500, after at most one upstream request (the batch
    lookup of that one username, banned users included); the history only
    grows, by at most two entries, and the user cache is never touched.
    A lookup fulfilled with [{data: []}] is answered 404 "User not found";
    a rejected one is answered 500. *)
Theorem post_by_username_answers (env : Env) (username : value) (w : World) :
  let lookup_request :=
    POST usernames_url
      (VObj [("usernames", VArr [username]);
             ("excludeBannedUsers", VBool false)]) in
  let lookup := upstream env (length (calls w)) lookup_request in
  exists resp w' added,
    post_by_username env username w = (inr resp, w')
    /\ status_of resp ∈ [200; 400; 404; 500]
    /\ (calls w' = calls w \/ calls w' = calls w ++ [lookup_request])
    /\ searchHistory (db w') = searchHistory (db w) ++ added
    /\ (length added <= 2)%nat
    /\ userCache (db w') = userCache (db w)
    /\ userCache_seq (db w') = userCache_seq (db w)
    /\ (truthy username = true ->
        forall d, lookup = Fulfilled d -> prop d "data" = inr (VArr []) ->
                  resp = Json 404 (VObj [("error", VStr "User not found")]))
    /\ (truthy username = true ->
        forall st msg, lookup = Rejected st msg -> status_of resp = 500).
Proof.
  intros lookup_request lookup. unfold post_by_username.
  destruct (truthy username) eqn:Ht; cbn [negb].
  { unfold try_catch.
    rewrite bind_run, new_Date_run, bind_run, storage_run.
    cbn [addSearchHistory]. cbv iota beta. rewrite bind_run, axios_run.
    cbn [calls clock_read]. fold lookup_request. fold lookup.
    assert (Hcodes : forall st, st ∈ [200; 400; 404; 500] <->
                                st = 200 \/ st = 400 \/ st = 404 \/ st = 500).
    { intros st. rewrite !elem_of_cons, elem_of_nil. tauto. }
    destruct lookup as [d|st msg] eqn:El.
    - unfold mbind, M_bind, lift.
      destruct (prop d "data") as [e|dd] eqn:Edata; simpl.
      { eexists _, _, [_; _]. split; [reflexivity|]. simpl.
        rewrite <- app_assoc, Hcodes. settle. }
      destruct (prop dd "length") as [e|len] eqn:Elen; simpl.
      { eexists _, _, [_; _]. split; [reflexivity|]. simpl.
        rewrite <- app_assoc, Hcodes. settle. }
      destruct (is_zero len) eqn:Ez; simpl.
      { eexists _, _, [_]. split; [reflexivity|]. simpl.
        rewrite Hcodes. settle. }
      destruct (item0 dd) as [e|x] eqn:Ex; simpl.
      { eexists _, _, [_; _]. split; [reflexivity|]. simpl.
        rewrite <- app_assoc, Hcodes. settle. }
      destruct (prop x "id") as [e|i] eqn:Ei; simpl.
      { eexists _, _, [_; _]. split; [reflexivity|]. simpl.
        rewrite <- app_assoc, Hcodes. settle. }
      destruct (toString i) as [e|uid] eqn:Eu; simpl.
      { eexists _, _, [_; _]. split; [reflexivity|]. simpl.
        rewrite <- app_assoc, Hcodes. settle. }
      eexists _, _, [_]. split; [reflexivity|]. simpl.
      rewrite Hcodes. settle.
    - simpl. eexists _, _, [_; _]. split; [reflexivity|]. simpl.
      rewrite <- app_assoc, Hcodes. settle. }
  eexists _, w, []. split; [reflexivity|]. simpl.
  rewrite app_nil_r, !elem_of_cons. settle.
Qed.

(** ** The order of reads, requests and writes *)

Lemma cache_checked_journal (userId : string) (w : World) :
  journal (cache_checked userId w) = journal w ++ [Database (db w)].
Proof. unfold cache_checked. by destruct (head _). Qed.

(** The terminated-account branch issues its five requests and then
    writes, whatever the requests and the write come to. *)
Lemma terminated_account_journal (env : Env) (userId : string) (w : World) :
  let requests := [GET (username_history_url userId);
                   GET (count_url userId "friends");
                   GET (count_url userId "followers");
                   GET (count_url userId "followings");
                   GET (avatar_url userId)] in
  exists r w' tail,
    terminated_account env userId w = (r, w')
    /\ calls w' = calls w ++ requests
    /\ journal w' = journal w ++ (Upstream <$> requests) ++ tail
    /\ ((tail = [] /\ db w' = db w) \/ tail = [Database (db w')]).
Proof.
  intros requests. unfold terminated_account.
  destruct (recover_usernames_run env userId w) as (pu & Hru & _).
  rewrite bind_run, Hru.
  destruct (recover_stats_run env userId
              (called w [GET (username_history_url userId)]))
    as (us & Hrs & _).
  rewrite bind_run, Hrs, called_called.
  destruct (recover_avatar_run env userId
              (called w ([GET (username_history_url userId)]
                         ++ [GET (count_url userId "friends");
                             GET (count_url userId "followers");
                             GET (count_url userId "followings")])))
    as (av & Hra & _).
  rewrite bind_run, Hra, called_called.
  rewrite bind_run, new_Date_run, bind_run, storage_run.
  cbn [clock_read called db reads calls journal app].
  destruct (addUserCache _ (db w)) as [e|[row d']].
  - eexists _, _, []. split; [reflexivity|]. cbn [calls journal db].
    split; [done|]. split; [by rewrite app_nil_r|]. by left.
  - eexists _, _, [_]. split; [reflexivity|]. cbn [calls journal db].
    split; [done|]. split; [by rewrite <- app_assoc|]. by right.
Qed.

(** X21: the order of a resolution.  Whatever the upstream and the cache
    hold, [GET /api/users/:userId] first reads the cache, then issues its
    upstream requests, and writes to the database at most once, after the
    last request: its journal is the cache read, the requests in the order
    of the request log, and then either nothing (the database is as it
    was) or the one statement that left the final database.  A fresh
    record means no request at all; without one, the first request is the
    primary profile fetch. *)
Theorem get_user_order (env : Env) (userId : string) (w : World) :
  exists r w' requests tail,
    get_user env userId w = (r, w')
    /\ calls w' = calls w ++ requests
    /\ journal w'
       = journal w ++ Database (db w) :: (Upstream <$> requests) ++ tail
    /\ ((tail = [] /\ db w' = db w) \/ tail = [Database (db w')])
    /\ (forall c, fresh_entry env userId w = Some c ->
                  requests = [] /\ tail = [])
    /\ (fresh_entry env userId w = None ->
        exists rest, requests = GET (users_url userId) :: rest).
Proof.
  destruct (fresh_entry env userId w) as [c|] eqn:Hfresh.
  { rewrite (get_user_fresh env userId w c Hfresh).
    eexists _, _, [], []. split; [reflexivity|].
    cbn [clock_read looked_up calls journal db fmap list_fmap app].
    rewrite app_nil_r. split; [done|]. split; [done|].
    split; [by left|]. split; [done|]. done. }
  assert (Hj := cache_checked_journal userId w).
  assert (Hc := cache_checked_calls userId w).
  assert (Hd := cache_checked_db userId w).
  destruct (upstream env (length (calls w)) (GET (users_url userId)))
    as [d|st msg] eqn:Hp.
  - destruct (robloxUserSchema d) as [u|] eqn:Hv.
    + rewrite (get_user_valid_run env userId w d u Hfresh Hp Hv). cbv zeta.
      destruct (addUserCache _ (db w)) as [e|[r d']].
      * eexists _, _, [_; _], []. split; [reflexivity|].
        cbn [clock_read called calls journal db].
        rewrite Hj, Hc, Hd, <- !app_assoc.
        split; [done|]. split; [done|]. split; [by left|].
        split; [done|]. intros _. by eexists.
      * eexists _, _, [_; _], [_]. split; [reflexivity|].
        cbn [clock_read called calls journal db].
        rewrite Hj, Hc, <- !app_assoc.
        split; [done|]. split; [done|]. split; [by right|].
        split; [done|]. intros _. by eexists.
    + rewrite (get_user_past_cache env userId w Hfresh). unfold try_catch.
      rewrite <- Hc in Hp.
      rewrite (fetch_and_cache_invalid _ _ _ _ Hp Hv).
      cbn [response_status_is_400].
      eexists _, _, [_], []. split; [reflexivity|].
      cbn [called calls journal db].
      rewrite Hj, Hc, Hd, <- !app_assoc.
      split; [done|]. split; [done|]. split; [by left|].
      split; [done|]. intros _. by eexists.
  - rewrite (get_user_past_cache env userId w Hfresh). unfold try_catch.
    rewrite <- Hc in Hp.
    rewrite (fetch_and_cache_rejected _ _ _ _ _ Hp).
    destruct (response_status_is_400 (AxiosError st msg)).
    + destruct (terminated_account_journal env userId
                  (called (cache_checked userId w) [GET (users_url userId)]))
        as (r & w' & tail & Hrun & Hcalls & Hjournal & Htail).
      rewrite Hrun.
      cbn [called calls journal db] in Hcalls, Hjournal, Htail.
      rewrite Hc, <- app_assoc in Hcalls.
      rewrite Hj, <- !app_assoc in Hjournal. rewrite Hd in Htail.
      eexists r, w', (_ :: _), tail. split; [reflexivity|].
      split; [exact Hcalls|]. split; [exact Hjournal|].
      split; [exact Htail|]. split; [done|]. intros _. by eexists.
    + eexists _, _, [_], []. split; [reflexivity|].
      cbn [called calls journal db].
      rewrite Hj, Hc, Hd, <- !app_assoc.
      split; [done|]. split; [done|]. split; [by left|].
      split; [done|]. intros _. by eexists.
Qed.

(** * Further instances *)

Lemma addSearchHistory_then_recent_witness :
  (forall r, r ∈ searchHistory three_searches ->
             text_le (sh_timestamp r) (ish_timestamp later_search)
             /\ sh_timestamp r <> ish_timestamp later_search)
  /\ exists row d',
       addSearchHistory later_search three_searches = inr (row, d')
       /\ sh_success row = true
       /\ getRecentSearches (Some (Num 1)) d' = inr ([row], d').
Proof.
  assert (H : forall r, r ∈ searchHistory three_searches ->
                text_le (sh_timestamp r) (ish_timestamp later_search)
                /\ sh_timestamp r <> ish_timestamp later_search).
  { intros r Hr.
    repeat (apply elem_of_cons in Hr as [->|Hr];
            [split; [vm_compute; reflexivity
                    |intros E; vm_compute in E; discriminate E]|]).
    by apply elem_of_nil in Hr. }
  split; [exact H|].
  destruct (addSearchHistory_then_recent later_search three_searches H)
    as (row & d' & Hadd & _ & _ & _ & _ & Hsuccess & Hrecent).
  exists row, d'. split; [exact Hadd|]. split; [exact Hsuccess|exact Hrecent].
Defined.

Lemma addUserCache_idempotent_witness :
  unique_userId (userCache one_cached)
  /\ iuc_timestamp refreshed = Some (iso_string (clock 9))
  /\ exists row d',
       addUserCache refreshed one_cached = inr (Some row, d')
       /\ addUserCache refreshed d' = inr (Some row, d').
Proof.
  assert (H : unique_userId (userCache one_cached)) by apply NoDup_singleton.
  assert (Hts : iuc_timestamp refreshed = Some (iso_string (clock 9)))
    by reflexivity.
  split; [exact H|]. split; [exact Hts|].
  apply (addUserCache_idempotent refreshed one_cached (iso_string (clock 9)) H);
    [discriminate | discriminate | exact Hts].
Defined.

Lemma two_cached_unique : unique_userId (userCache two_cached).
Proof.
  unfold unique_userId. simpl. apply NoDup_cons. split.
  - intros Hin. apply list_elem_of_singleton in Hin. discriminate Hin.
  - apply NoDup_singleton.
Qed.

Lemma addUserCache_frame_witness :
  exists row d',
    addUserCache refreshed two_cached = inr (Some row, d')
    /\ getUserCache "2" d' = inr (Some second_row, d').
Proof.
  destruct (addUserCache_total two_cached refreshed (iso_string (clock 9))
              two_cached_unique)
    as (row & d' & Hadd & _); [discriminate | discriminate | reflexivity |].
  exists row, d'. split; [exact Hadd|].
  destruct (addUserCache_frame refreshed two_cached d' (Some row) Hadd)
    as (_ & _ & Hframe).
  apply Hframe; [discriminate|reflexivity].
Defined.

Lemma updateUserCache_absent_witness :
  unique_userId (userCache one_cached)
  /\ no_values flag_only = false
  /\ (forall r, r ∈ userCache one_cached -> uc_userId r <> "7")
  /\ updateUserCache "7" flag_only one_cached = inr (None, one_cached).
Proof.
  assert (H1 : unique_userId (userCache one_cached)) by apply NoDup_singleton.
  assert (H2 : no_values flag_only = false) by reflexivity.
  assert (H3 : forall r, r ∈ userCache one_cached -> uc_userId r <> "7").
  { intros r Hr. apply list_elem_of_singleton in Hr. subst r. discriminate. }
  split; [exact H1|]. split; [exact H2|]. split; [exact H3|].
  exact (updateUserCache_absent "7" flag_only one_cached H1 H2 H3).
Defined.

Lemma updateUserCache_rename_refused_witness :
  cached_row ∈ userCache two_cached
  /\ second_row ∈ userCache two_cached
  /\ uc_userId second_row <> uc_userId cached_row
  /\ puc_userId avatar_only = Some (uc_userId cached_row)
  /\ updateUserCache "2" avatar_only two_cached
     = inl (UniqueViolation "user_id").
Proof.
  assert (H1 : cached_row ∈ userCache two_cached) by left.
  assert (H2 : second_row ∈ userCache two_cached) by (right; left).
  assert (H3 : uc_userId second_row <> uc_userId cached_row) by discriminate.
  assert (H4 : puc_userId avatar_only = Some (uc_userId cached_row))
    by reflexivity.
  split; [exact H1|]. split; [exact H2|]. split; [exact H3|].
  split; [exact H4|].
  exact (updateUserCache_rename_refused avatar_only two_cached second_row
           cached_row H2 H1 H3 H4).
Defined.

Lemma robloxUserSchema_strips_unknown_keys_witness :
  robloxUserSchema profile_doc
  = robloxUserSchema (VObj (("robloxBadges", VArr []) :: profile_props))
  /\ "robloxBadges" ∉ keys (RobloxUser_value profile).
Proof.
  destruct robloxUserSchema_strips_unknown_keys as [Hsame Hkeys].
  split.
  - apply Hsame. intros k Hk.
    repeat (apply elem_of_cons in Hk as [->|Hk]; [reflexivity|]).
    by apply elem_of_nil in Hk.
  - intros Hin. apply Hkeys in Hin.
    repeat (apply elem_of_cons in Hin as [Hin|Hin]; [discriminate Hin|]).
    by apply elem_of_nil in Hin.
Defined.

Lemma robloxUserSchema_rejects_ill_typed_optional_witness :
  let props := [("id", VInt 1); ("name", VStr "Roblox");
                ("displayName", VNull)] in
  present_but_not (key props "displayName") VStr
  /\ robloxUserSchema (VObj props) = None.
Proof.
  intros props.
  assert (H : present_but_not (key props "displayName") VStr).
  { split; [discriminate|]. intros s. discriminate. }
  split; [exact H|].
  apply robloxUserSchema_rejects_ill_typed_optional. left. exact H.
Defined.

Lemma post_by_username_requires_username_witness :
  post_by_username env_found (VStr EmptyString) start
  = (inr (Json 400 (VObj [("error", VStr "Username is required")])), start).
Proof.
  destruct (post_by_username_requires_username env_found (VStr EmptyString)
              start) as [Hrefused _].
  apply Hrefused. do 5 right. left.
Defined.

Lemma get_search_history_rows_witness :
  exists rows,
    get_search_history (Some "2") (world_of three_searches)
    = (inr (Json 200 (VArr (SearchHistory_value <$> rows))),
       looked_up (world_of three_searches))
    /\ Z.of_nat (length rows) <= 2.
Proof.
  destruct (get_search_history_rows (Some "2") (world_of three_searches))
    as (rows & Hrun & _ & _ & _ & Hgiven).
  destruct (Hgiven "2" eq_refl) as (_ & Hlen & _); [discriminate|].
  exists rows. split; [exact Hrun|].
  apply Hlen; [reflexivity | lia].
Defined.


Lemma fresh_fetch_cached_witness :
  unique_userId (userCache (db start))
  /\ fresh_entry env_profile "1" start = None
  /\ robloxUserSchema profile_doc = Some profile
  /\ exists row w',
       get_user env_profile "1" start
       = (inr (Json 200
                 (VObj [("source", VStr "api");
                        ("data", RobloxUser_value profile);
                        ("avatarUrl", VStr "https://tr.rbxcdn.com/avatar.png");
                        ("isTerminated", VBool false)])), w')
       /\ getUserCache "1" (db w') = inr (Some row, db w')
       /\ robloxUserSchema (uc_userData row) = Some profile.
Proof.
  assert (H1 : unique_userId (userCache (db start))) by apply NoDup_nil_2.
  assert (H2 : fresh_entry env_profile "1" start = None) by reflexivity.
  assert (H3 : robloxUserSchema profile_doc = Some profile) by reflexivity.
  split; [exact H1|]. split; [exact H2|]. split; [exact H3|].
  destruct (fresh_fetch_cached env_profile "1" start profile_doc profile
              H1 H2 eq_refl H3)
    as (row & w' & Hrun & _ & _ & Hget & _ & Hvalid & _).
  exists row, w'. split; [exact Hrun|]. split; [exact Hget|exact Hvalid].
Defined.

Lemma resolve_twice_hits_cache_witness :
  unique_userId (userCache (db start))
  /\ fresh_entry env_profile "1" start = None
  /\ exists avatar w1 w2,
       fst (get_user env_profile "1" start)
       = inr (Json 200
                (VObj [("source", VStr "api");
                       ("data", RobloxUser_value profile);
                       ("avatarUrl", avatar);
                       ("isTerminated", VBool false)]))
       /\ snd (get_user env_profile "1" start) = w1
       /\ get_user env_profile "1" w1
          = (inr (Json 200
                    (VObj [("source", VStr "cache");
                           ("data", jsonb (RobloxUser_value profile));
                           ("avatarUrl", avatar);
                           ("isTerminated", VBool false)])), w2)
       /\ calls w2 = calls w1.
Proof.
  assert (H1 : unique_userId (userCache (db start))) by apply NoDup_nil_2.
  assert (H2 : fresh_entry env_profile "1" start = None) by reflexivity.
  split; [exact H1|]. split; [exact H2|].
  destruct (resolve_twice_hits_cache env_profile "1" start profile_doc profile
              H1 H2 eq_refl eq_refl)
    as (avatar & w1 & w2 & Hrun1 & Hrun2 & _ & Hcalls & _).
  - vm_compute. reflexivity.
  - vm_compute. reflexivity.
  - exists avatar, w1, w2. rewrite Hrun1.
    split; [reflexivity|]. split; [reflexivity|].
    split; [exact Hrun2|exact Hcalls].
Defined.

Lemma an_hour_later_stale :
  unique_userId (userCache (db an_hour_later))
  /\ getUserCache "1" (db an_hour_later)
     = inr (Some cached_row, db an_hour_later)
  /\ (getTime env_profile (uc_timestamp cached_row) = NaN
      \/ exists t, getTime env_profile (uc_timestamp cached_row) = Num t
                   /\ 3600000 <= now env_profile (reads an_hour_later) - t).
Proof.
  split; [apply NoDup_singleton|]. split; [reflexivity|].
  right. exists (clock 0). split; vm_compute; [reflexivity|discriminate].
Qed.

(** A record exactly one hour old is not served. *)
Lemma stale_record_bypassed_witness :
  unique_userId (userCache (db an_hour_later))
  /\ getUserCache "1" (db an_hour_later)
     = inr (Some cached_row, db an_hour_later)
  /\ exists resp w' rest,
       get_user env_profile "1" an_hour_later = (inr resp, w')
       /\ calls w' = GET (users_url "1") :: rest.
Proof.
  destruct an_hour_later_stale as (H1 & H2 & H3).
  split; [exact H1|]. split; [exact H2|].
  destruct (stale_record_bypassed env_profile "1" an_hour_later cached_row
              H1 H2 H3) as (resp & w' & rest & Hrun & Hcalls & _).
  exists resp, w', rest. split; [exact Hrun|exact Hcalls].
Defined.

Lemma stale_record_refreshed_in_place_witness :
  unique_userId (userCache (db an_hour_later))
  /\ getUserCache "1" (db an_hour_later)
     = inr (Some cached_row, db an_hour_later)
  /\ exists body row w',
       get_user env_profile "1" an_hour_later = (inr (Json 200 body), w')
       /\ userCache (db w') = [row]
       /\ uc_id row = 1
       /\ uc_userData row = jsonb (RobloxUser_value profile).
Proof.
  destruct an_hour_later_stale as (H1 & H2 & H3).
  split; [exact H1|]. split; [exact H2|].
  destruct (stale_record_refreshed_in_place env_profile "1" an_hour_later
              cached_row profile_doc profile H1 H2 H3 eq_refl eq_refl)
    as (body & row & l1 & l2 & w' & Hrun & Hold & Hnew & _ & Hid & _ & Hdata
        & _).
  exists body, row, w'. split; [exact Hrun|].
  split; [|split; [exact Hid|exact Hdata]].
  assert (Hl : l1 = [] /\ l2 = []).
  { change (userCache (db an_hour_later)) with [cached_row] in Hold.
    apply (f_equal length) in Hold. rewrite length_app in Hold.
    cbn [length] in Hold.
    clear -Hold.
    destruct l1, l2; cbn [length] in Hold;
      first [split; reflexivity | exfalso; lia]. }
  destruct Hl as [-> ->]. exact Hnew.
Defined.

Lemma get_user_always_answers_witness :
  unique_userId (userCache (db start))
  /\ exists resp w',
       get_user env_unreachable "1" start = (inr resp, w')
       /\ searchHistory (db w') = searchHistory (db start).
Proof.
  assert (H : unique_userId (userCache (db start))) by apply NoDup_nil_2.
  split; [exact H|].
  destruct (get_user_always_answers env_unreachable "1" start H)
    as (resp & w' & Hrun & _ & _ & Hsh).
  exists resp, w'. split; [exact Hrun|exact Hsh].
Defined.

Lemma terminated_recoveries_independent_witness :
  unique_userId (userCache (db start))
  /\ fresh_entry env_bad_request "999" start = None
  /\ exists body w',
       get_user env_bad_request "999" start = (inr (Json 200 body), w')
       /\ length (calls w') = 6%nat.
Proof.
  assert (H1 : unique_userId (userCache (db start))) by apply NoDup_nil_2.
  assert (H2 : fresh_entry env_bad_request "999" start = None) by reflexivity.
  split; [exact H1|]. split; [exact H2|].
  destruct (terminated_recoveries_independent env_bad_request "999" start
              H1 H2) as (body & row & w' & Hrun & Hcalls & _).
  { by eexists. }
  exists body, w'. split; [exact Hrun|]. by rewrite Hcalls.
Defined.

Lemma terminated_recoveries_succeed_witness :
  unique_userId (userCache (db start))
  /\ fresh_entry env_recovered "999" start = None
  /\ exists body row w',
       get_user env_recovered "999" start = (inr (Json 200 body), w')
       /\ prop body "previousUsernames"
          = inr (VArr [VStr "oldname1"; VStr "oldname2"])
       /\ prop body "stats"
          = inr (VObj [("friends", VNum (Num 12));
                       ("followers", VNum (Num 340));
                       ("following", VNum (Num 5))])
       /\ uc_avatarUrl row = Some "https://tr.rbxcdn.com/avatar.png".
Proof.
  assert (H1 : unique_userId (userCache (db start))) by apply NoDup_nil_2.
  assert (H2 : fresh_entry env_recovered "999" start = None) by reflexivity.
  split; [exact H1|]. split; [exact H2|].
  destruct (terminated_recoveries_succeed env_recovered "999" start
              history_doc
              (VObj [("count", VInt 12)]) (VObj [("count", VInt 340)])
              (VObj [("count", VInt 5)]) thumbnails_doc
              (VObj [("targetId", VInt 1); ("state", VStr "Completed");
                     ("imageUrl", VStr "https://tr.rbxcdn.com/avatar.png");
                     ("version", VStr "TN3")])
              [VObj [("name", VStr "oldname1")];
               VObj [("name", VStr "oldname2")]]
              [] ["oldname1"; "oldname2"] 12 340 5
              "https://tr.rbxcdn.com/avatar.png" H1 H2)
    as (row & w' & Hrun & _ & _ & _ & _ & Hav & _); try reflexivity.
  { by eexists. }
  { repeat constructor. }
  eexists _, row, w'. split; [exact Hrun|].
  split; [reflexivity|]. split; [reflexivity|exact Hav].
Defined.

Lemma post_by_username_answers_witness :
  exists w',
    post_by_username env_no_match (VStr "nobody") start
    = (inr (Json 404 (VObj [("error", VStr "User not found")])), w')
    /\ userCache (db w') = userCache (db start).
Proof.
  destruct (post_by_username_answers env_no_match (VStr "nobody") start)
    as (resp & w' & added & Hrun & _ & _ & _ & _ & Hcache & _ & H404 & _).
  exists w'. rewrite Hrun.
  rewrite (H404 eq_refl (VObj [("data", VArr [])]) eq_refl eq_refl).
  split; [reflexivity|exact Hcache].
Defined.

(** A resolution past an empty cache starts with the primary fetch. *)
Lemma get_user_order_witness :
  fresh_entry env_bad_request "999" start = None
  /\ exists r w' rest,
       get_user env_bad_request "999" start = (r, w')
       /\ calls w' = GET (users_url "999") :: rest.
Proof.
  assert (H : fresh_entry env_bad_request "999" start = None) by reflexivity.
  split; [exact H|].
  destruct (get_user_order env_bad_request "999" start)
    as (r & w' & requests & tail & Hrun & Hcalls & _ & _ & _ & Hfirst).
  destruct (Hfirst H) as [rest Hrest].
  exists r, w', rest. split; [exact Hrun|].
  rewrite Hcalls, Hrest. reflexivity.
Defined.
